(** * janitor.mu: lambda provisioning for policy functions

    A shallow embedding of [src/janitor/mu.py]: the package archive
    ([PythonPackageArchive], [zinfo]), the function manager
    ([LambdaManager], [resource_exists]), the function interface
    ([LambdaFunction], [PolicyLambda]) and the Cloud Watch event source
    ([CloudWatchEventSource]).

    Remote calls go through the boto3 clients, which are collaborators of
    the module: they are an interface here ([Client]), every call is
    recorded in the order it is issued, and a call either answers or raises.
    Host and library functions the module imports (json, fnmatch, hashlib,
    base64, zipfile's serialisation, uuid, tempfile, the file system) are
    the fields of [Host]. *)

From stdpp Require Import gmap strings list fin_maps.
From Stdlib Require Import ZArith String Ascii DecimalString.

Open Scope string_scope.
Open Scope list_scope.
Open Scope Z_scope.

(** ** Python values *)

(** The scalars found in a function configuration and in a rule: integers
    and strings. On these Python's [==] is structural equality. *)
Inductive pyval :=
| VInt (z : Z)
| VStr (s : string).

#[global] Instance pyval_eq_dec : EqDecision pyval.
Proof. solve_decision. Defined.

(** A boto3 request or response body. Every response also carries
    ['ResponseMetadata'], which is left out: a response is therefore a
    non-empty dict, and truthy, whatever [dict] models of it. *)
Abbreviation dict := (gmap string pyval).

(** A function that returns [True] on one path and falls off its end (or
    runs a bare [return]) on the others. *)
Inductive true_or_none := PyTrue | PyNone.

Definition truthy (v : true_or_none) : bool :=
  match v with PyTrue => true | PyNone => false end.

(** What [json.dumps] is given. *)
#[local] Set Warnings "-register-all".
Inductive json :=
| JInt (z : Z)
| JStr (s : string)
| JList (items : list json)
| JDict (items : list (string * json)).

(** [if s:] on a string or [None]. *)
Definition nonempty (o : option string) : option string :=
  match o with
  | Some "" => None
  | o => o
  end.

(** ** Exceptions and results *)

Inductive exn :=
| ClientError (code : string)   (* botocore: e.response['Error']['Code'] *)
| AssertionError (msg : string)
| ValueError (msg : string)
| KeyError (key : string)
| TypeError (msg : string)
| AttributeError (msg : string)
| OSError (msg : string)
| OtherError (msg : string).    (* any other failure of a collaborator *)

Inductive result (A : Type) :=
| Ok (a : A)
| Raise (e : exn).
Arguments Ok {A} a.
Arguments Raise {A} e.

Definition is_ok {A} (r : result A) : bool :=
  match r with Ok _ => true | Raise _ => false end.

Definition rbind {A B} (r : result A) (k : A -> result B) : result B :=
  match r with
  | Ok a => k a
  | Raise e => Raise e
  end.

(** [d[k]] on a dict. *)
Definition getitem (d : dict) (k : string) : result pyval :=
  match d !! k with
  | Some v => Ok v
  | None => Raise (KeyError k)
  end.

(** ** Remote calls *)

Record Target := { Id : string; Arn : string }.

Inductive code_ref :=
| CodeS3 (S3Bucket S3Key : string)
| CodeZipFile (bytes : string).

(** The answer of [get_function]: a dict with a ['Configuration'] dict. *)
Record lfunc := { Configuration : dict }.

(** The client methods the module calls, with their keyword arguments,
    indexed by what they answer. [upload_file] is [S3Transfer.upload_file]. *)
Inductive call : Type -> Type :=
| get_function (FunctionName : string) (Qualifier : option string) : call lfunc
| create_function (params : dict) (Publish : bool) (Code : code_ref) : call dict
| update_function_code (FunctionName : string) (Publish : bool) (Code : code_ref) : call dict
| update_function_configuration (params : dict) : call dict
| delete_function (FunctionName : string) : call unit
| get_alias (FunctionName Name : string) : call dict
| create_alias (FunctionName Name : string) (FunctionVersion : pyval) : call dict
| update_alias (FunctionName Name : string) (FunctionVersion : pyval) : call dict
| describe_rule (Name : string) : call dict
| put_rule (params : dict) : call unit
| list_targets_by_rule (Rule : string) : call (list Target)
| put_targets (Rule : string) (TargetId : string) (TargetArn : option pyval) : call unit
| disable_rule (Rule : string) : call unit
| enable_rule (Rule : string) : call unit
| delete_rule (Name : string) : call unit
| upload_file (filename bucket key : string) : call unit.

(** A call as it stands in the record of issued calls. *)
Inductive event :=
| Called (A : Type) (c : call A).
Arguments Called {A} c.

(** The remote side: a state [R] and what each call answers in it. *)
Class Client (R : Type) := invoke : forall A, call A -> R -> result A * R.

(** ** The monad of the module's methods

    A method runs in a world, may raise, and leaves the world it reached
    and the calls it issued, whether it raised or not. *)

Record outcome (W A : Type) := Outcome {
  value : result A;
  final : W;
  calls : list event }.
Arguments Outcome {W A} value final calls.
Arguments value {W A} o.
Arguments final {W A} o.
Arguments calls {W A} o.

Definition M (W A : Type) := W -> outcome W A.

Definition ret {W A} (a : A) : M W A :=
  fun w => Outcome (Ok a) w [].

Definition raise {W A} (e : exn) : M W A :=
  fun w => Outcome (Raise e) w [].

Definition bind {W A B} (m : M W A) (k : A -> M W B) : M W B :=
  fun w =>
    let o := m w in
    match value o with
    | Ok a =>
        let o' := k a (final o) in
        Outcome (value o') (final o') (calls o ++ calls o')
    | Raise e => Outcome (Raise e) (final o) (calls o)
    end.

(** [try: m except: handler]; the handler re-raises what it does not catch. *)
Definition try_except {W A} (m : M W A) (handler : exn -> M W A) : M W A :=
  fun w =>
    let o := m w in
    match value o with
    | Ok a => o
    | Raise e =>
        let o' := handler e (final o) in
        Outcome (value o') (final o') (calls o ++ calls o')
    end.

Definition lift {W A} (r : result A) : M W A :=
  fun w => Outcome r w [].

Notation "'let!' x ':=' m 'in' k" := (bind m (fun x => k))
  (at level 10, x pattern, m at level 100, k at level 200).
Notation "m ';;;' k" := (bind m (fun _ => k))
  (at level 100, k at level 200, right associativity).

(** [for x in xs: body x]. *)
Fixpoint for_each {W A} (xs : list A) (body : A -> M W unit) : M W unit :=
  match xs with
  | [] => ret tt
  | x :: xs' => body x ;;; for_each xs' body
  end.

(** The world: the remote state and the number of uuids drawn so far. *)
Record world (R : Type) := World { remote : R; uuids : nat }.
Arguments World {R} remote uuids.
Arguments remote {R} w.
Arguments uuids {R} w.

Definition do_call {R} `{Client R} {A} (c : call A) : M (world R) A :=
  fun w =>
    let '(r, s) := invoke A c (remote w) in
    Outcome r (World s (uuids w)) [Called c].

(** Classification of the issued calls. *)
Definition is_update_function_code (e : event) : bool :=
  match e with Called (update_function_code _ _ _) => true | _ => false end.
Definition is_update_function_configuration (e : event) : bool :=
  match e with Called (update_function_configuration _) => true | _ => false end.
Definition is_put_targets (e : event) : bool :=
  match e with Called (put_targets _ _ _) => true | _ => false end.

(** Calls that write: they create, change or delete a function, an alias,
    a rule or a target, or put the archive at the upload location. *)
Definition mutating (e : event) : bool :=
  match e with
  | Called (create_function _ _ _) | Called (update_function_code _ _ _)
  | Called (update_function_configuration _) | Called (delete_function _)
  | Called (create_alias _ _ _) | Called (update_alias _ _ _)
  | Called (put_rule _) | Called (put_targets _ _ _)
  | Called (disable_rule _) | Called (enable_rule _) | Called (delete_rule _)
  | Called (upload_file _ _ _) => true
  | _ => false
  end.

(** The rule a call names, for the calls on rules. *)
Definition rule_of (e : event) : option string :=
  match e with
  | Called (describe_rule n) | Called (list_targets_by_rule n)
  | Called (put_targets n _ _) | Called (disable_rule n)
  | Called (enable_rule n) | Called (delete_rule n) => Some n
  | Called (put_rule params) =>
      match params !! "Name" with Some (VStr n) => Some n | _ => None end
  | _ => None
  end.

(** ** The host: file system and library functions *)

(** A path is the list of its components; [os.path.join root f] is
    [root ++ [f]]. *)
Definition path := list string.

Inductive fsnode :=
| RegFile (st_mode : Z) (content : string)
| Directory (st_mode : Z) (entries : list (string * fsnode)).

Definition st_mode_of (n : fsnode) : Z :=
  match n with RegFile m _ => m | Directory m _ => m end.

Definition is_dir (n : fsnode) : bool :=
  match n with Directory _ _ => true | RegFile _ _ => false end.

Fixpoint lookup_entry (name : string) (es : list (string * fsnode)) : option fsnode :=
  match es with
  | [] => None
  | (n, child) :: es' => if String.eqb n name then Some child else lookup_entry name es'
  end.

(** [os.stat]: the node at a path below a node, if there is one. *)
Fixpoint stat (n : fsnode) (p : path) : option fsnode :=
  match p with
  | [] => Some n
  | c :: p' =>
      match n with
      | Directory _ es =>
          match lookup_entry c es with
          | Some child => stat child p'
          | None => None
          end
      | RegFile _ _ => None
      end
  end.

Definition dirname (p : path) : path := removelast p.
Definition basename (p : path) : string := List.last p "".

(** [os.path.relpath p start] for [p] at or below [start], the only way the
    archive calls it. *)
Definition relpath (p start : path) : path :=
  match drop (List.length start) p with
  | [] => ["."]
  | r => r
  end.

(** [os.path.normpath] on relative paths without [..]: drops the [.]
    components. *)
Definition normpath (p : path) : path :=
  List.filter (fun c => negb (String.eqb c ".")) p.

(** *** zipfile *)

Record ZipInfo := {
  filename : string;
  external_attr : Z;
  compress_type : Z }.

Definition ZIP_STORED : Z := 0.
Definition ZIP_DEFLATED : Z := 8.

(** [zipfile.ZipInfo(fname)]. *)
Definition ZipInfo_new (fname : string) : ZipInfo :=
  {| filename := fname; external_attr := 0; compress_type := ZIP_STORED |}.

(** An archive open for writing: the entries written so far, with their
    contents. *)
Record ZipFile := {
  compression : Z;
  filelist : list (ZipInfo * string) }.

(** [ZipFile.write(filename, arcname)]: the entry takes the mode of the
    file on the host, [(st.st_mode & 0xFFFF) << 16]. *)
Definition ZipFile_write (zf : ZipFile) (node : fsnode) (arcname : path) : ZipFile :=
  let arc := String.concat "/" (normpath arcname) in
  let attr := Z.shiftl (Z.land (st_mode_of node) 0xFFFF) 16 in
  let info :=
    if is_dir node
    then {| filename := arc +:+ "/"; external_attr := Z.lor attr 0x10;
            compress_type := compression zf |}
    else {| filename := arc; external_attr := attr;
            compress_type := compression zf |} in
  let data := match node with RegFile _ c => c | Directory _ _ => "" end in
  {| compression := compression zf; filelist := filelist zf ++ [(info, data)] |}.

(** The first argument of [ZipFile.writestr]: an archive name or a
    [ZipInfo]. *)
Inductive zinfo_or_arcname :=
| ArcName (s : string)
| Info (z : ZipInfo).

(** [ZipFile.writestr]: a bare name gets mode 0600 (384), a [ZipInfo] is
    written as it is. *)
Definition ZipFile_writestr (zf : ZipFile) (dest : zinfo_or_arcname)
    (contents : string) : ZipFile :=
  let info :=
    match dest with
    | ArcName s => {| filename := s; external_attr := Z.shiftl 384 16;
                      compress_type := compression zf |}
    | Info z => z
    end in
  {| compression := compression zf; filelist := filelist zf ++ [(info, contents)] |}.

(** The permission bits of an entry, as the unzipping side reads them. *)
Definition permission_bits (z : ZipInfo) : Z :=
  Z.land (Z.shiftr (external_attr z) 16) 511.

(** What the loop body over [os.walk] does to the [dirs] and [files] lists
    it is handed ([inplace], which prunes the walk) and what it returns. *)
Record filter_result := {
  inplace : list string * list string;
  returned : list string * list string }.

Definition tree_filter := path -> list string -> list string -> filter_result.

Class Host := {
  fs : fsnode;
  (* os.path.dirname(inspect.getabsfile(janitor)) *)
  janitor_dir : path;
  (* os.path.abspath(os.path.join(os.path.dirname(sys.executable), '..')) *)
  sys_prefix : path;
  (* tempfile.NamedTemporaryFile().name *)
  tmpname : string;
  (* fnmatch: does the name match the pattern *)
  fnmatch : string -> string -> bool;
  (* the bytes of the zip file once closed *)
  zip_bytes : list (ZipInfo * string) -> string;
  hasher : Type;
  sha256 : hasher;
  update : hasher -> string -> hasher;
  digest : hasher -> string;
  b64encode : string -> string;
  (* json.dumps(_, indent=2) *)
  json_dumps : json -> string;
  (* str(uuid.uuid4()), by the number of uuids drawn before *)
  uuid4 : nat -> string;
  (* janitor.utils.parse_s3 *)
  parse_s3 : string -> string * string * string }.

(** [os.walk(top)], top down, with the body of the [for] loop run at each
    directory: the body gets the directory, its sub-directories and its
    other entries, and leaves the sub-directories to descend into. A [top]
    that is no directory yields nothing. *)
Section Walk.
Context {A : Type}.
Variable body : path -> list string -> list string -> A -> result (list string * A).

Fixpoint walk (node : fsnode) (top : path) (acc : A) {struct node} : result A :=
  match node with
  | RegFile _ _ => Ok acc
  | Directory _ entries =>
      let dirs := map fst (List.filter (fun e => is_dir (snd e)) entries) in
      let nondirs := map fst (List.filter (fun e => negb (is_dir (snd e))) entries) in
      match body top dirs nondirs acc with
      | Raise e => Raise e
      | Ok (dirs', acc') =>
          (fix descend (names : list string) (acc : A) {struct names} : result A :=
             match names with
             | [] => Ok acc
             | name :: rest =>
                 match
                   (fix find (es : list (string * fsnode)) {struct es} : result A :=
                      match es with
                      | [] => Ok acc
                      | (n, child) :: es' =>
                          if String.eqb n name
                          then walk child (top ++ [name]) acc
                          else find es'
                      end) entries
                 with
                 | Ok acc1 => descend rest acc1
                 | Raise e => Raise e
                 end
             end) dirs' acc'
      end
  end.
End Walk.

(** [checksum(fh, hasher, blocksize)]: feeds the file to the hasher block
    by block until a read comes back empty. [fuel] bounds the number of
    reads; one more than the length of the file is enough for any block
    size of at least one byte. *)
Fixpoint checksum_loop `{Host} (fuel blocksize : nat) (rest : string) (h : hasher) : hasher :=
  match fuel with
  | O => h
  | S fuel' =>
      let buf := substring 0 blocksize rest in
      if (String.length buf =? 0)%nat then h
      else checksum_loop fuel' blocksize
             (substring blocksize (String.length rest - blocksize) rest)
             (update h buf)
  end.

Definition checksum `{Host} (fh : string) (h : hasher) (blocksize : nat) : string :=
  digest (checksum_loop (S (String.length fh)) blocksize fh h).

Definition default_blocksize : nat := Z.to_nat 65536.

(** ** PythonPackageArchive *)

Record PythonPackageArchive := {
  src_path : path;
  virtualenv_dir : path;
  _temp_archive_file : option string;   (* the temporary file, by its name *)
  _zip_file : option ZipFile;
  _closed : bool;
  lib_filter : option tree_filter;
  src_filter : option tree_filter;
  skip : option string }.

Module PythonPackageArchive.
Section Methods.
Context `{Host}.

Definition __init__ (src_path : path) (virtualenv_dir : option path)
    (skip : option string) (lib_filter src_filter : option tree_filter)
    : PythonPackageArchive :=
  {| src_path := src_path;
     virtualenv_dir := default sys_prefix virtualenv_dir;
     _temp_archive_file := None;
     _zip_file := None;
     _closed := false;
     lib_filter := lib_filter;
     src_filter := src_filter;
     skip := skip |}.

(** The bytes of the temporary file: nothing before [create] opened the
    zip file on it. *)
Definition temp_file_bytes (self : PythonPackageArchive) : result string :=
  match _temp_archive_file self with
  | None => Raise (AttributeError "'NoneType' object has no attribute 'name'")
  | Some _ =>
      Ok (match _zip_file self with
          | Some zf => zip_bytes (filelist zf)
          | None => ""
          end)
  end.

Definition size (self : PythonPackageArchive) : result nat :=
  if negb (_closed self)
  then Raise (ValueError "Archive not closed, size not accurate")
  else rbind (temp_file_bytes self) (fun b => Ok (String.length b)).

Definition filter_files (self : PythonPackageArchive) (files : list string)
    : list string :=
  match nonempty (skip self) with
  | None => files
  | Some pat => List.filter (fun f => negb (fnmatch f pat)) files
  end.

(** [for f in files: self._zip_file.write(join(root, f), join(arc_prefix, f))]. *)
Fixpoint write_files (zf : ZipFile) (root arc_prefix : path)
    (files : list string) : result ZipFile :=
  match files with
  | [] => Ok zf
  | f :: files' =>
      match stat fs (root ++ [f]) with
      | Some node =>
          write_files (ZipFile_write zf node (arc_prefix ++ [f])) root arc_prefix files'
      | None => Raise (OSError "No such file or directory")
      end
  end.

(** The body of the loop over the source tree. *)
Definition src_body (self : PythonPackageArchive)
    (root : path) (dirs files : list string) (zf : ZipFile)
    : result (list string * ZipFile) :=
  let arc_prefix := relpath root (dirname (src_path self)) in
  let '(dirs, files) :=
    match src_filter self with
    | Some f => inplace (f root dirs files)
    | None => (dirs, files)
    end in
  let files := filter_files self files in
  rbind (write_files zf root arc_prefix files) (fun zf' => Ok (dirs, zf')).

(** The body of the loop over the library tree: [dirs, files] are rebound
    to what the filter returns, the walk goes on with the list it handed
    out. *)
Definition lib_body (self : PythonPackageArchive) (venv_lib_path : path)
    (root : path) (dirs files : list string) (zf : ZipFile)
    : result (list string * ZipFile) :=
  let '(walk_dirs, files) :=
    match lib_filter self with
    | Some f => let r := f root dirs files in (fst (inplace r), snd (returned r))
    | None => (dirs, files)
    end in
  let arc_prefix := relpath root venv_lib_path in
  let files := filter_files self files in
  rbind (write_files zf root arc_prefix files) (fun zf' => Ok (walk_dirs, zf')).

(** The state of the object after a raise is not kept: nothing reads an
    archive whose [create] raised. *)
Definition create (self : PythonPackageArchive) : result PythonPackageArchive :=
  match _temp_archive_file self with
  | Some _ => Raise (AssertionError "Archive already created")
  | None =>
      let zf := {| compression := ZIP_DEFLATED; filelist := [] |} in
      rbind
        (match stat fs (src_path self) with
         | Some (RegFile _ _ as node) =>
             (* Module Source *)
             Ok (ZipFile_write zf node [basename (src_path self)])
         | Some (Directory _ _ as node) =>
             (* Package Source *)
             walk (src_body self) node (src_path self) zf
         | None => Ok zf
         end)
        (fun zf =>
           (* Library Source *)
           let venv_lib_path :=
             virtualenv_dir self ++ ["lib"; "python2.7"; "site-packages"] in
           rbind
             (match stat fs venv_lib_path with
              | Some node => walk (lib_body self venv_lib_path) node venv_lib_path zf
              | None => Ok zf
              end)
             (fun zf =>
                Ok {| src_path := src_path self;
                      virtualenv_dir := virtualenv_dir self;
                      _temp_archive_file := Some tmpname;
                      _zip_file := Some zf;
                      _closed := _closed self;
                      lib_filter := lib_filter self;
                      src_filter := src_filter self;
                      skip := skip self |}))
  end.

Definition add_contents (self : PythonPackageArchive) (dest : zinfo_or_arcname)
    (contents : string) : result PythonPackageArchive :=
  if _closed self then Raise (AssertionError "Archive closed")
  else
    match _zip_file self with
    | None => Raise (AttributeError "'NoneType' object has no attribute 'writestr'")
    | Some zf =>
        Ok {| src_path := src_path self;
              virtualenv_dir := virtualenv_dir self;
              _temp_archive_file := _temp_archive_file self;
              _zip_file := Some (ZipFile_writestr zf dest contents);
              _closed := _closed self;
              lib_filter := lib_filter self;
              src_filter := src_filter self;
              skip := skip self |}
    end.

Definition close (self : PythonPackageArchive) : result PythonPackageArchive :=
  match _zip_file self with
  | None => Raise (AttributeError "'NoneType' object has no attribute 'close'")
  | Some zf =>
      Ok {| src_path := src_path self;
            virtualenv_dir := virtualenv_dir self;
            _temp_archive_file := _temp_archive_file self;
            _zip_file := Some zf;
            _closed := true;
            lib_filter := lib_filter self;
            src_filter := src_filter self;
            skip := skip self |}
  end.

Definition remove (self : PythonPackageArchive) : PythonPackageArchive :=
  {| src_path := src_path self;
     virtualenv_dir := virtualenv_dir self;
     _temp_archive_file := None;
     _zip_file := _zip_file self;
     _closed := _closed self;
     lib_filter := lib_filter self;
     src_filter := src_filter self;
     skip := skip self |}.

Definition get_checksum (self : PythonPackageArchive) : result string :=
  if negb (_closed self) then Raise (AssertionError "Archive not closed")
  else rbind (temp_file_bytes self)
         (fun fh => Ok (b64encode (checksum fh sha256 default_blocksize))).

Definition get_bytes (self : PythonPackageArchive) : result string :=
  if negb (_closed self) then Raise (AssertionError "Archive not closed")
  else temp_file_bytes self.

Definition path (self : PythonPackageArchive) : result string :=
  match _temp_archive_file self with
  | None => Raise (AttributeError "'NoneType' object has no attribute 'name'")
  | Some name => Ok name
  end.
End Methods.
End PythonPackageArchive.

(** [maid_archive]: the archive of the janitor package, with only the
    [required] libraries kept at the top of site-packages. *)
Definition required : list string := ["concurrent"; "yaml"; "pkg_resources"].

Definition maid_lib_filter : tree_filter :=
  fun root dirs files =>
    let dirs :=
      if String.eqb (basename root) "site-packages"
      then List.filter (fun n => existsb (String.eqb n) required) dirs
      else dirs in
    {| inplace := (dirs, files); returned := (dirs, files) |}.

Definition maid_archive `{Host} (skip : option string) : PythonPackageArchive :=
  PythonPackageArchive.__init__ janitor_dir (Some sys_prefix) skip
    (Some maid_lib_filter) None.

(** [zinfo]: an entry that other users may read, mode 0644 (420). *)
Definition zinfo (fname : string) : ZipInfo :=
  let info := ZipInfo_new fname in
  {| filename := filename info;
     external_attr := Z.shiftl 420 16;
     compress_type := ZIP_DEFLATED |}.

(** ** resource_exists *)

(** What [resource_exists] returns: the answer of the operation, or
    [False]. *)
Inductive found (A : Type) :=
| Found (a : A)
| PyFalse.
Arguments Found {A} a.
Arguments PyFalse {A}.

Definition resource_exists {W A} (op : M W A) : M W (found A) :=
  try_except
    (let! r := op in ret (Found r))
    (fun e =>
       match e with
       | ClientError code =>
           if String.eqb code "ResourceNotFoundException"
           then ret PyFalse
           else raise e
       | _ => raise e
       end).

(** ** Policies and functions *)

(** [policy.data['mode']], by its keys. *)
Record Mode := {
  mode_type : option string;
  mode_sources : option (list string);
  mode_events : option (list string);
  mode_schedule : option string;
  mode_role : option string;
  mode_memory : option Z }.

(** A policy: its name and [policy.data], whose keys other than
    [description] and [mode] are carried as they are. *)
Record Policy := {
  policy_name : string;
  policy_description : option string;
  policy_mode : Mode;
  policy_rest : list (string * json) }.

Record CloudWatchEventSource := {
  data : Mode;
  prefix : string }.

(** [LambdaFunction], the abstract class: its properties, the [alias]
    attribute, and what [get_events] and [get_archive] answer. *)
Record LambdaFunction := {
  name : string;
  runtime : string;
  description : string;
  handler : string;
  memory_size : Z;
  timeout : Z;
  role : string;
  alias : option pyval;
  get_events : list CloudWatchEventSource;
  get_archive : result PythonPackageArchive }.

Module LambdaFunction.
(** The dict literal of [get_config], with its items in the order they are
    written. *)
Definition get_config (self : LambdaFunction) : list (string * pyval) :=
  [ ("FunctionName", VStr (name self));
    ("MemorySize", VInt (memory_size self));
    ("Role", VStr (role self));
    ("Description", VStr (description self));
    ("Runtime", VStr (runtime self));
    ("Handler", VStr (handler self));
    ("Timeout", VInt (timeout self)) ].

(** [func.alias = arn]. *)
Definition set_alias (self : LambdaFunction) (arn : pyval) : LambdaFunction :=
  {| name := name self; runtime := runtime self; description := description self;
     handler := handler self; memory_size := memory_size self;
     timeout := timeout self; role := role self;
     alias := Some arn;
     get_events := get_events self; get_archive := get_archive self |}.
End LambdaFunction.

(** ** CloudWatchEventSource *)

Module CloudWatchEventSource.
Definition ASG_EVENT_MAPPING : gmap string string :=
  list_to_map
    [ ("launch-success", "EC2 Instance Launch Successful");
      ("launch-failure", "EC2 Instance Launch Unsuccessful");
      ("terminate-success", "EC2 Instance Terminate Successful");
      ("terminate-failure", "EC2 Instance Terminate Unsuccessful") ].

Definition __init__ (data : Mode) (prefix : option string) : CloudWatchEventSource :=
  {| data := data; prefix := default "maid-" prefix |}.

Definition _make_notification_id (self : CloudWatchEventSource)
    (function_name : string) : string :=
  if negb (String.prefix (prefix self) function_name)
  then prefix self +:+ function_name
  else function_name.

(** [for k in [...]: if src.get(k) != tgt.get(k): return True]. *)
Fixpoint delta_loop (keys : list string) (src tgt : dict) : bool :=
  match keys with
  | [] => false
  | k :: keys' =>
      if bool_decide (src !! k ≠ tgt !! k) then true
      else delta_loop keys' src tgt
  end.

Definition delta (src tgt : dict) : bool :=
  delta_loop ["State"; "EventPattern"; "ScheduleExpression"] src tgt.

(** [event_type == s], where [event_type] may be [None]. *)
Definition type_is (event_type : option string) (s : string) : bool :=
  match event_type with
  | Some t => String.eqb t s
  | None => false
  end.

(** The [payload] dict that [render_event_pattern] builds. *)
Definition payload (self : CloudWatchEventSource) : result (list (string * json)) :=
  let event_type := mode_type (data self) in
  if type_is event_type "cloudtrail" then
    Ok [ ("detail-type", JList [JStr "AWS API Call via CloudTrail"]);
         ("detail",
          JDict [ ("eventSource", JList (map JStr (default [] (mode_sources (data self)))));
                  ("eventName", JList (map JStr (default [] (mode_events (data self))))) ]) ]
  else if type_is event_type "ec2-instance-state" then
    Ok [ ("source", JList [JStr "aws.ec2"]);
         ("detail-type", JList [JStr "EC2 Instance State-change Notifications"]);
         ("detail",
          JDict [ ("state", JList (map JStr (default [] (mode_events (data self))))) ]) ]
  else if type_is event_type "asg-instance-state" then
    let events :=
      map (fun e => default e (ASG_EVENT_MAPPING !! e))
          (default [] (mode_events (data self))) in
    Ok [ ("source", JList [JStr "aws.autoscaling"]);
         ("detail-type", JList (map JStr events)) ]
  else if type_is event_type "periodic" then
    Ok []
  else
    Raise (ValueError ("Unknown lambda event source type: "
                       +:+ default "None" event_type)).

Definition render_event_pattern `{Host} (self : CloudWatchEventSource)
    : result (option string) :=
  rbind (payload self) (fun payload =>
    match payload with
    | [] => Ok None
    | _ => Ok (Some (json_dumps (JDict payload)))
    end).

(** [func.alias in t['Arn']] over the targets, with no [break]. *)
Definition contains (needle hay : string) : bool :=
  match String.index 0 needle hay with
  | Some _ => true
  | None => false
  end.

Fixpoint scan_targets (alias : option pyval) (targets : list Target) (found : bool)
    : result bool :=
  match targets with
  | [] => Ok found
  | t :: targets' =>
      match alias with
      | Some (VStr a) =>
          scan_targets alias targets' (if contains a (Arn t) then true else found)
      | _ => Raise (TypeError "'in <string>' requires string as left operand")
      end
  end.

Section Methods.
Context `{Host} {R : Type} `{Client R}.

Definition fresh_uuid : M (world R) string :=
  fun w => Outcome (Ok (uuid4 (uuids w))) (World (remote w) (S (uuids w))) [].

Definition get (self : CloudWatchEventSource) (rule_name : string)
    : M (world R) (found dict) :=
  resource_exists (do_call (describe_rule (_make_notification_id self rule_name))).

(** The [params] of [add]: the rule as it should be. *)
Definition rule_params (self : CloudWatchEventSource) (func : LambdaFunction)
    (pattern : option string) : dict :=
  let params : dict :=
    <["State" := VStr "ENABLED"]> (<["Name" := VStr (name func)]> ∅) in
  let params :=
    match nonempty pattern with
    | Some p => <["EventPattern" := VStr p]> params
    | None => params
    end in
  match nonempty (mode_schedule (data self)) with
  | Some schedule => <["ScheduleExpression" := VStr schedule]> params
  | None => params
  end.

Definition add (self : CloudWatchEventSource) (func : LambdaFunction)
    : M (world R) true_or_none :=
  let! pattern := lift (render_event_pattern self) in
  let params := rule_params self func pattern in
  let! rule := get self (name func) in
  (match rule with
   | Found rule =>
       if delta rule params
       then do_call (put_rule params)
       else ret tt
   | PyFalse => do_call (put_rule params)
   end) ;;;
  let! response := do_call (list_targets_by_rule (name func)) in
  let! found := lift (scan_targets (alias func) response false) in
  if found then ret PyNone
  else
    let! id := fresh_uuid in
    do_call (put_targets (name func) id (alias func)) ;;;
    ret PyTrue.

Definition update (self : CloudWatchEventSource) (func : LambdaFunction)
    : M (world R) unit :=
  add self func ;;; ret tt.

Definition pause (self : CloudWatchEventSource) (func : LambdaFunction)
    : M (world R) unit :=
  try_except
    (do_call (disable_rule (name func)))
    (fun e =>
       match e with
       | ClientError _ => ret tt
       | _ => raise e
       end).

Definition resume (self : CloudWatchEventSource) (func : LambdaFunction)
    : M (world R) unit :=
  try_except
    (do_call (enable_rule (name func)))
    (fun e =>
       match e with
       | ClientError _ => ret tt
       | _ => raise e
       end).

Definition remove (self : CloudWatchEventSource) (func : LambdaFunction)
    : M (world R) unit :=
  let! rule := get self (name func) in
  match rule with
  | Found _ => do_call (delete_rule (name func))
  | PyFalse => ret tt
  end.
End Methods.
End CloudWatchEventSource.

(** ** Generators *)

(** What a generator gives when it is run to its end: the items it
    yields, in order, and the exception that ends it, if one does. *)
Record generated (A : Type) := Generated {
  yielded : list A;
  stopped : option exn }.
Arguments Generated {A} yielded stopped.
Arguments yielded {A} g.
Arguments stopped {A} g.

(** One part of a generator body after another: what follows an exception
    is not run. *)
Definition gen_then {A} (g rest : generated A) : generated A :=
  match stopped g with
  | Some _ => g
  | None => Generated (yielded g ++ yielded rest) (stopped rest)
  end.

(** [for x in xs: body]. *)
Fixpoint gen_for {A B} (xs : list A) (body : A -> generated B) : generated B :=
  match xs with
  | [] => Generated [] None
  | x :: xs' => gen_then (body x) (gen_for xs' body)
  end.

(** ** LambdaManager *)

Module LambdaManager.
(** [for k in conf: if conf[k] != lambda_func['Configuration'][k]: return
    True], falling off the end otherwise. *)
Fixpoint delta_items (configuration : dict) (conf : list (string * pyval))
    : result true_or_none :=
  match conf with
  | [] => Ok PyNone
  | (k, v) :: conf' =>
      match configuration !! k with
      | None => Raise (KeyError k)
      | Some r =>
          if bool_decide (v ≠ r) then Ok PyTrue
          else delta_items configuration conf'
      end
  end.

Definition delta_function (lambda_func : lfunc) (func : LambdaFunction)
    : result true_or_none :=
  delta_items (Configuration lambda_func) (LambdaFunction.get_config func).

(** The body of the inner loop of [list_functions]: [if not prefix: yield
    f], then [if f['FunctionName'].startswith(prefix): yield f]. *)
Definition yield_matching (prefix : option string) (f : dict) : generated dict :=
  gen_then
    (match nonempty prefix with
     | None => Generated [f] None
     | Some _ => Generated [] None
     end)
    (match getitem f "FunctionName" with
     | Raise e => Generated [] (Some e)
     | Ok (VInt _) =>
         Generated [] (Some (AttributeError "'int' object has no attribute 'startswith'"))
     | Ok (VStr function_name) =>
         match prefix with
         | None =>
             Generated []
               (Some (TypeError "startswith first arg must be str, unicode, or tuple, not NoneType"))
         | Some p =>
             if String.prefix p function_name
             then Generated [f] None
             else Generated [] None
         end
     end).

(** [list_functions] over the pages the paginator hands out: a page is
    what it holds under ['Functions'], if it has the key, or the error its
    request raised. *)
Definition list_functions (pages : list (result (option (list dict))))
    (prefix : option string) : generated dict :=
  gen_for pages (fun rp =>
    match rp with
    | Raise e => Generated [] (Some e)
    | Ok rp => gen_for (default [] rp) (yield_matching prefix)
    end).

Section Methods.
Context `{Host} {R : Type} `{Client R}.

Definition get (func_name : string) (qualifier : option string)
    : M (world R) (found lfunc) :=
  resource_exists (do_call (get_function func_name (nonempty qualifier))).

Definition _upload_func (s3_uri : string) (func : LambdaFunction)
    (archive : PythonPackageArchive) : M (world R) (string * string) :=
  let '(_, bucket, key_prefix) := parse_s3 s3_uri in
  let key := key_prefix +:+ "/" +:+ name func in
  let! path := lift (PythonPackageArchive.path archive) in
  do_call (upload_file path bucket key) ;;;
  ret (bucket, key).

Definition _create_or_update (func : LambdaFunction) (role_arg : option string)
    (s3_uri : option string) (qualifier : option string) : M (world R) dict :=
  (* role = func.role or role *)
  let role := match role func with "" => nonempty role_arg | r => Some r end in
  match role with
  | None => raise (AssertionError "Lambda function role must be specified")
  | Some _ =>
      let! archive := lift (get_archive func) in
      let! lfunc := get (name func) qualifier in
      let! code_ref :=
        match nonempty s3_uri with
        | Some s3_uri =>
            let! (bucket, key) := _upload_func s3_uri func archive in
            ret (CodeS3 bucket key)
        | None =>
            let! bytes := lift (PythonPackageArchive.get_bytes archive) in
            ret (CodeZipFile bytes)
        end in
      match lfunc with
      | Found lfunc =>
          let result := Configuration lfunc in
          let! sum := lift (PythonPackageArchive.get_checksum archive) in
          let! sha := lift (getitem (Configuration lfunc) "CodeSha256") in
          let! result :=
            if bool_decide (VStr sum ≠ sha)
            then do_call (update_function_code (name func) true code_ref)
            else ret result in
          let! changed := lift (delta_function lfunc func) in
          if truthy changed
          then do_call (update_function_configuration
                          (list_to_map (LambdaFunction.get_config func)))
          else ret result
      | PyFalse =>
          do_call (create_function
                     (list_to_map (LambdaFunction.get_config func)) true code_ref)
      end
  end.

Definition publish_alias (func_data : dict) (alias : option string)
    : M (world R) pyval :=
  match nonempty alias with
  | None => lift (getitem func_data "FunctionArn")
  | Some alias =>
      let! func_name := lift (getitem func_data "FunctionName") in
      let! func_version := lift (getitem func_data "Version") in
      match func_name with
      | VStr func_name =>
          let! exists_ := resource_exists (do_call (get_alias func_name alias)) in
          match exists_ with
          | PyFalse =>
              let! alias_result :=
                do_call (create_alias func_name alias func_version) in
              lift (getitem alias_result "AliasArn")
          | Found found_alias =>
              let! version := lift (getitem found_alias "FunctionVersion") in
              let! same :=
                if bool_decide (version = func_version)
                then
                  let! name := lift (getitem found_alias "Name") in
                  ret (bool_decide (name = VStr alias))
                else ret false in
              if same then lift (getitem found_alias "AliasArn")
              else
                let! alias_result :=
                  do_call (update_alias func_name alias func_version) in
                lift (getitem alias_result "AliasArn")
          end
      | VInt _ => raise (OtherError "FunctionName is not a string")
      end
  end.

(** [publish] returns [result]; the function object comes back with it,
    for [func.alias] is assigned on the way. *)
Definition publish (func : LambdaFunction) (alias role s3_uri : option string)
    : M (world R) (dict * LambdaFunction) :=
  let! result := _create_or_update func role s3_uri alias in
  let! func :=
    match nonempty alias with
    | Some _ =>
        let! arn := publish_alias result alias in
        ret (LambdaFunction.set_alias func arn)
    | None => ret func
    end in
  for_each (get_events func)
    (fun e => CloudWatchEventSource.add e func ;;; ret tt) ;;;
  ret (result, func).

Definition remove (func : LambdaFunction) (alias : option string)
    : M (world R) unit :=
  for_each (get_events func)
    (fun e => CloudWatchEventSource.remove e func) ;;;
  do_call (delete_function (name func)).
End Methods.
End LambdaManager.

(** ** PolicyLambda *)

Record PolicyLambda := {
  policy : Policy;
  archive : PythonPackageArchive }.

Definition newline : string := String (ascii_of_nat 10) "".

Definition PolicyHandlerTemplate (mode_name : string) : string :=
  "from janitor import mu" +:+ newline +:+ newline
  +:+ "def run(event, context):" +:+ newline
  +:+ "    return mu." +:+ mode_name +:+ "_handle(event, context)" +:+ newline
  +:+ newline.

(** [s.replace(a, b)] for single characters. *)
Fixpoint replace (a b : ascii) (s : string) : string :=
  match s with
  | EmptyString => EmptyString
  | String c s' => String (if Ascii.eqb c a then b else c) (replace a b s')
  end.

(** [policy.data] as the json document it is. *)
Definition key_of {A} (k : string) (f : A -> json) (o : option A) : list (string * json) :=
  match o with
  | Some a => [(k, f a)]
  | None => []
  end.

Definition mode_json (m : Mode) : json :=
  JDict (key_of "type" JStr (mode_type m)
         ++ key_of "sources" (fun l => JList (map JStr l)) (mode_sources m)
         ++ key_of "events" (fun l => JList (map JStr l)) (mode_events m)
         ++ key_of "schedule" JStr (mode_schedule m)
         ++ key_of "role" JStr (mode_role m)
         ++ key_of "memory" JInt (mode_memory m)).

Definition policy_data (p : Policy) : json :=
  JDict ([("name", JStr (policy_name p))]
         ++ key_of "description" JStr (policy_description p)
         ++ [("mode", mode_json (policy_mode p))]
         ++ policy_rest p).

Module PolicyLambda.
Definition handler : string := "maid_policy.run".
Definition runtime : string := "python2.7".
Definition timeout : Z := 60.

Definition __init__ `{Host} (policy : Policy) : PolicyLambda :=
  {| policy := policy; archive := maid_archive (Some "*pyc") |}.

Definition name (self : PolicyLambda) : string :=
  "maid-" +:+ policy_name (policy self).

Definition description (self : PolicyLambda) : string :=
  default "cloud-maid lambda policy" (policy_description (policy self)).

Definition role (self : PolicyLambda) : string :=
  default "" (mode_role (policy_mode (policy self))).

Definition memory_size (self : PolicyLambda) : Z :=
  default 512 (mode_memory (policy_mode (policy self))).

Definition get_events (self : PolicyLambda) : list CloudWatchEventSource :=
  [CloudWatchEventSource.__init__ (policy_mode (policy self)) None].

Definition get_archive `{Host} (self : PolicyLambda) : result PythonPackageArchive :=
  rbind (PythonPackageArchive.create (archive self)) (fun a =>
  rbind (PythonPackageArchive.add_contents a
           (Info (zinfo "config.json"))
           (json_dumps (JDict [("policies", JList [policy_data (policy self)])])))
    (fun a =>
  rbind (match mode_type (policy_mode (policy self)) with
         | Some t => Ok t
         | None => Raise (KeyError "type")
         end) (fun t =>
  rbind (PythonPackageArchive.add_contents a
           (Info (zinfo "maid_policy.py"))
           (PolicyHandlerTemplate (replace "-" "_" t)))
    (fun a =>
  PythonPackageArchive.close a)))).

(** The policy function as the manager sees it, through the abstract
    class. *)
Definition as_function `{Host} (self : PolicyLambda) : LambdaFunction :=
  Build_LambdaFunction (name self) runtime (description self) handler
    (memory_size self) timeout (role self) None
    (get_events self) (get_archive self).
End PolicyLambda.

(** ** A sample host and a sample account

    One concrete host and one in-memory provider account, to run the
    methods on. The properties below are proved for every host and every
    client; these two only supply the concrete runs. *)

Module Sample.
(** [fnmatch] for patterns made of literal characters, [*] and [?]. *)
Fixpoint glob (pat : string) : string -> bool :=
  match pat with
  | EmptyString => fun name => match name with EmptyString => true | _ => false end
  | String c pat' =>
      if Ascii.eqb c "*" then
        fix star (name : string) : bool :=
          glob pat' name ||
          match name with
          | EmptyString => false
          | String _ name' => star name'
          end
      else if Ascii.eqb c "?" then
        fun name => match name with
                    | String _ name' => glob pat' name'
                    | EmptyString => false
                    end
      else
        fun name => match name with
                    | String d name' => Ascii.eqb c d && glob pat' name'
                    | EmptyString => false
                    end
  end.

Definition show (z : Z) : string := NilZero.string_of_int (Z.to_int z).

Definition quoted (s : string) : string :=
  String (ascii_of_nat 34) s +:+ String (ascii_of_nat 34) EmptyString.

(** A compact rendering of json, injective where [json.dumps] is. *)
Fixpoint dumps (j : json) : string :=
  match j with
  | JInt z => show z
  | JStr s => quoted s
  | JList items =>
      "[" +:+ (fix go (l : list json) : string :=
                 match l with
                 | [] => ""
                 | [x] => dumps x
                 | x :: l' => dumps x +:+ ", " +:+ go l'
                 end) items +:+ "]"
  | JDict items =>
      "{" +:+ (fix go (l : list (string * json)) : string :=
                 match l with
                 | [] => ""
                 | [(k, x)] => quoted k +:+ ": " +:+ dumps x
                 | (k, x) :: l' => quoted k +:+ ": " +:+ dumps x +:+ ", " +:+ go l'
                 end) items +:+ "}"
  end.

Definition site_packages : fsnode :=
  Directory 16877
    [ ("yaml", Directory 16877 [("__init__.py", RegFile 33184 "yaml")]);
      ("boto3", Directory 16877 [("__init__.py", RegFile 33188 "boto3")]);
      ("six.py", RegFile 33188 "six") ].

(** The janitor package holds a file only its owner may read (mode
    0100600, 33152). *)
Definition root : fsnode :=
  Directory 16877
    [ ("opt",
       Directory 16877
         [ ("janitor",
            Directory 16877
              [ ("__init__.py", RegFile 33188 "");
                ("mu.py", RegFile 33152 "mu");
                ("mu.pyc", RegFile 33188 "compiled") ]);
           ("venv",
            Directory 16877
              [ ("lib",
                 Directory 16877
                   [ ("python2.7",
                      Directory 16877 [("site-packages", site_packages)]) ]) ]) ]) ].

#[export] Instance host : Host := {|
  fs := root;
  janitor_dir := ["opt"; "janitor"];
  sys_prefix := ["opt"; "venv"];
  tmpname := "/tmp/tmpmaid";
  fnmatch := fun name pat => glob pat name;
  zip_bytes := fun entries =>
    String.concat ";" (map (fun e => filename (fst e) +:+ "=" +:+ snd e) entries);
  hasher := string;
  sha256 := "";
  update := fun h buf => h +:+ buf;
  digest := fun h => h;
  b64encode := fun s => s;
  json_dumps := dumps;
  uuid4 := fun n => "uuid-" +:+ show (Z.of_nat n);
  parse_s3 := fun _ => ("s3", "assets", "maid") |}.

(** The account: functions (by name, as their configuration), aliases,
    rules and targets; with [outage] set, every call that is sent raises
    it. *)
Record account := {
  functions : gmap string dict;
  aliases : gmap (string * string) dict;
  rules : gmap string dict;
  targets : gmap string (list Target);
  outage : option exn }.

Definition not_found {A} : result A := Raise (ClientError "ResourceNotFoundException").

(** What the client raises when the parameters of a call do not fit the
    operation: it is raised before anything is sent, and it is no
    [ClientError]. *)
Definition invalid {A} : result A := Raise (OtherError "ParamValidationError").

(** The calls the client refuses before it sends anything. The operations
    that disable and enable a rule take the rule under [Name], as
    [describe_rule], [put_rule] and [delete_rule] do; [pause] and [resume]
    pass it under [Rule]. A target needs a string as its Arn. *)
Definition refused {A} (c : call A) : bool :=
  match c with
  | disable_rule _ | enable_rule _ => true
  | put_targets _ _ (Some (VStr _)) => false
  | put_targets _ _ _ => true
  | _ => false
  end.

Definition code_sha (c : code_ref) : string :=
  match c with
  | CodeZipFile bytes => b64encode (checksum bytes sha256 default_blocksize)
  | CodeS3 bucket key => "s3://" +:+ bucket +:+ "/" +:+ key
  end.

Definition with_functions (s : account) (f : gmap string dict) : account :=
  {| functions := f; aliases := aliases s; rules := rules s;
     targets := targets s; outage := outage s |}.
Definition with_aliases (s : account) (a : gmap (string * string) dict) : account :=
  {| functions := functions s; aliases := a; rules := rules s;
     targets := targets s; outage := outage s |}.
Definition with_rules (s : account) (r : gmap string dict) : account :=
  {| functions := functions s; aliases := aliases s; rules := r;
     targets := targets s; outage := outage s |}.
Definition with_targets (s : account) (t : gmap string (list Target)) : account :=
  {| functions := functions s; aliases := aliases s; rules := rules s;
     targets := t; outage := outage s |}.

Definition alias_record (fname aname : string) (version : pyval) : dict :=
  <["AliasArn" := VStr ("arn:aws:lambda:function:" +:+ fname +:+ ":" +:+ aname)]>
    (<["Name" := VStr aname]> (<["FunctionVersion" := version]> ∅)).

Definition answer (s : account) (A : Type) (c : call A) : result A * account :=
  match c in call A return result A * account with
  | get_function fname qualifier =>
      match functions s !! fname, qualifier with
      | Some conf, None => (Ok {| Configuration := conf |}, s)
      | Some conf, Some aname =>
          match aliases s !! (fname, aname) with
          | Some _ => (Ok {| Configuration := conf |}, s)
          | None => (not_found, s)
          end
      | None, _ => (not_found, s)
      end
  | create_function params _ code =>
      match params !! "FunctionName" with
      | Some (VStr fname) =>
          let conf :=
            <["CodeSha256" := VStr (code_sha code)]>
              (<["Version" := VStr "1"]>
                 (<["FunctionArn" := VStr ("arn:aws:lambda:function:" +:+ fname)]> params)) in
          (Ok conf, with_functions s (<[fname := conf]> (functions s)))
      | _ => (Raise (OtherError "ParamValidationError"), s)
      end
  | update_function_code fname _ code =>
      match functions s !! fname with
      | Some conf =>
          let conf := <["CodeSha256" := VStr (code_sha code)]> conf in
          (Ok conf, with_functions s (<[fname := conf]> (functions s)))
      | None => (not_found, s)
      end
  | update_function_configuration params =>
      match params !! "FunctionName" with
      | Some (VStr fname) =>
          match functions s !! fname with
          | Some conf =>
              let conf := params ∪ conf in
              (Ok conf, with_functions s (<[fname := conf]> (functions s)))
          | None => (not_found, s)
          end
      | _ => (Raise (OtherError "ParamValidationError"), s)
      end
  | delete_function fname =>
      match functions s !! fname with
      | Some _ => (Ok tt, with_functions s (delete fname (functions s)))
      | None => (not_found, s)
      end
  | get_alias fname aname =>
      match aliases s !! (fname, aname) with
      | Some a => (Ok a, s)
      | None => (not_found, s)
      end
  | create_alias fname aname version =>
      let a := alias_record fname aname version in
      (Ok a, with_aliases s (<[(fname, aname) := a]> (aliases s)))
  | update_alias fname aname version =>
      match aliases s !! (fname, aname) with
      | Some _ =>
          let a := alias_record fname aname version in
          (Ok a, with_aliases s (<[(fname, aname) := a]> (aliases s)))
      | None => (not_found, s)
      end
  | describe_rule rname =>
      match rules s !! rname with
      | Some r => (Ok r, s)
      | None => (not_found, s)
      end
  | put_rule params =>
      match params !! "Name" with
      | Some (VStr rname) => (Ok tt, with_rules s (<[rname := params]> (rules s)))
      | _ => (Raise (OtherError "ParamValidationError"), s)
      end
  | list_targets_by_rule rname =>
      match rules s !! rname with
      | Some _ => (Ok (default [] (targets s !! rname)), s)
      | None => (not_found, s)
      end
  | put_targets rname id arn =>
      match arn, rules s !! rname with
      | Some (VStr arn), Some _ =>
          (Ok tt,
           with_targets s
             (<[rname := default [] (targets s !! rname) ++ [{| Id := id; Arn := arn |}]]>
                (targets s)))
      | Some (VStr _), None => (not_found, s)
      | _, _ => (invalid, s)
      end
  | disable_rule _ | enable_rule _ => (invalid, s)
  | delete_rule rname =>
      match rules s !! rname with
      | Some _ => (Ok tt, with_rules s (delete rname (rules s)))
      | None => (not_found, s)
      end
  | upload_file _ _ _ => (Ok tt, s)
  end.

#[export] Instance client : Client account :=
  fun A c s =>
    if refused c then (invalid, s)
    else
      match outage s with
      | Some e => (Raise e, s)
      | None => answer s A c
      end.

(** An account with nothing in it. *)
Definition empty_account : account :=
  {| functions := ∅; aliases := ∅; rules := ∅; targets := ∅; outage := None |}.

Definition start (s : account) : world account := World s 0.

(** A policy run on instance state changes, and its function. *)
Definition ec2_policy : Policy :=
  {| policy_name := "ec2-require-encrypted-volumes";
     policy_description := None;
     policy_mode :=
       {| mode_type := Some "ec2-instance-state";
          mode_sources := None;
          mode_events := Some ["pending"];
          mode_schedule := None;
          mode_role := Some "arn:aws:iam::role/maid";
          mode_memory := None |};
     policy_rest := [] |}.

Definition ec2_function : LambdaFunction :=
  PolicyLambda.as_function (PolicyLambda.__init__ ec2_policy).

(** The account refuses every call. *)
Definition denied_account : account :=
  {| functions := ∅; aliases := ∅; rules := ∅; targets := ∅;
     outage := Some (ClientError "AccessDeniedException") |}.

Definition ec2_source : CloudWatchEventSource :=
  CloudWatchEventSource.__init__ (policy_mode ec2_policy) None.

(** The world after a first [publish] of the function under the alias
    [current], and the function object as [publish] left it, its alias set. *)
Definition published : outcome (world account) (dict * LambdaFunction) :=
  LambdaManager.publish ec2_function (Some "current") None None (start empty_account).

Definition ec2_published : LambdaFunction :=
  LambdaFunction.set_alias ec2_function
    (VStr "arn:aws:lambda:function:maid-ec2-require-encrypted-volumes:current").

(** The same world after the rule was disabled at the provider. *)
Definition paused : world account :=
  let s := remote (final published) in
  World
    (with_rules s
       (<[name ec2_published :=
            <["State" := VStr "DISABLED"]> (default ∅ (rules s !! name ec2_published))]>
          (rules s)))
    (uuids (final published)).

(** The function with nothing changed but its timeout. *)
Definition ec2_slower : LambdaFunction :=
  Build_LambdaFunction (name ec2_function) (runtime ec2_function)
    (description ec2_function) (handler ec2_function)
    (memory_size ec2_function) 120 (role ec2_function) (alias ec2_function)
    (get_events ec2_function) (get_archive ec2_function).

(** A function whose name does not start with the rule prefix. *)
Definition unprefixed : LambdaFunction :=
  Build_LambdaFunction "audit" (runtime ec2_function)
    (description ec2_function) (handler ec2_function)
    (memory_size ec2_function) 60 (role ec2_function) (alias ec2_published)
    (get_events ec2_function) (get_archive ec2_function).

(** A policy on autoscaling events, one by its short name and one by a
    name that is not in the table. *)
Definition asg_source : CloudWatchEventSource :=
  CloudWatchEventSource.__init__
    {| mode_type := Some "asg-instance-state";
       mode_sources := None;
       mode_events := Some ["launch-success"; "EC2 Instance-launch Lifecycle Action"];
       mode_schedule := None;
       mode_role := None;
       mode_memory := None |} None.

(** The pattern of the instance state source, as the sample host renders
    it. *)
Definition ec2_pattern : option string :=
  match CloudWatchEventSource.render_event_pattern ec2_source with
  | Ok pattern => pattern
  | Raise _ => None
  end.


(** The function of the same policy once it watches another state: its
    configuration is the same, its archive is not. *)
Definition ec2_recoded : LambdaFunction :=
  PolicyLambda.as_function
    (PolicyLambda.__init__
       {| policy_name := policy_name ec2_policy;
          policy_description := policy_description ec2_policy;
          policy_mode :=
            {| mode_type := Some "ec2-instance-state";
               mode_sources := None;
               mode_events := Some ["running"];
               mode_schedule := None;
               mode_role := Some "arn:aws:iam::role/maid";
               mode_memory := None |};
          policy_rest := [] |}).

(** And with its timeout changed as well. *)
Definition ec2_recoded_slower : LambdaFunction :=
  Build_LambdaFunction (name ec2_recoded) (runtime ec2_recoded)
    (description ec2_recoded) (handler ec2_recoded)
    (memory_size ec2_recoded) 120 (role ec2_recoded) (alias ec2_recoded)
    (get_events ec2_recoded) (get_archive ec2_recoded).

(** Which of the two updates a reconciliation of [func] issues in the
    world after the first [publish]: (code, configuration). *)
Definition updates_issued (func : LambdaFunction) : bool * bool :=
  let issued :=
    calls (LambdaManager._create_or_update func None None (Some "current")
             (final published)) in
  (existsb is_update_function_code issued,
   existsb is_update_function_configuration issued).
(** A policy whose mode type no event source knows, and its function. *)
Definition config_rule_function : LambdaFunction :=
  PolicyLambda.as_function
    (PolicyLambda.__init__
       {| policy_name := "s3-encryption";
          policy_description := None;
          policy_mode :=
            {| mode_type := Some "config-rule";
               mode_sources := None;
               mode_events := None;
               mode_schedule := None;
               mode_role := Some "arn:aws:iam::role/maid";
               mode_memory := None |};
          policy_rest := [] |}).

(** Three function records on two pages, with a page that has no
    functions in between. *)
Definition named (function_name : string) : dict :=
  <["FunctionName" := VStr function_name]> ∅.

Definition listing : list (option (list dict)) :=
  [Some [named "maid-ec2"; named "billing"]; None; Some [named "maid-asg"]].

(** The sample function with no role of its own. *)
Definition roleless : LambdaFunction :=
  Build_LambdaFunction (name ec2_function) (runtime ec2_function)
    (description ec2_function) (handler ec2_function)
    (memory_size ec2_function) 60 "" (alias ec2_function)
    (get_events ec2_function) (get_archive ec2_function).
End Sample.

(** ** Vocabulary of the properties *)

(** Is the exception the provider's not-found error. *)
Definition is_not_found (e : exn) : bool :=
  match e with
  | ClientError code => String.eqb code "ResourceNotFoundException"
  | _ => false
  end.

(** What a lookup [m] that wraps the call [c] in [resource_exists] does in
    the world [w]: it issues that one call; an answer comes back as it is, a
    not-found error comes back as [False], and any other error is raised
    again as it was. *)
Definition lookup_law {R A} `{Client R} (m : M (world R) (found A)) (c : call A)
    (w : world R) : Prop :=
  calls (m w) = [Called c]
  /\ (forall a, fst (invoke A c (remote w)) = Ok a -> value (m w) = Ok (Found a))
  /\ (fst (invoke A c (remote w)) = Raise (ClientError "ResourceNotFoundException") ->
      value (m w) = Ok PyFalse)
  /\ (forall e, fst (invoke A c (remote w)) = Raise e ->
      e <> ClientError "ResourceNotFoundException" ->
      value (m w) = Raise e).

(** What [pause] and [resume] do with their one call [c]: they issue it,
    complete when it answers, complete as well when it raises a
    [ClientError], whatever its code, and raise again anything else. *)
Definition swallow_law {R} `{Client R} (m : M (world R) unit) (c : call unit)
    (w : world R) : Prop :=
  calls (m w) = [Called c]
  /\ (forall u, fst (invoke unit c (remote w)) = Ok u -> value (m w) = Ok tt)
  /\ (forall code, fst (invoke unit c (remote w)) = Raise (ClientError code) ->
      value (m w) = Ok tt)
  /\ (forall e, fst (invoke unit c (remote w)) = Raise e ->
      (forall code, e <> ClientError code) ->
      value (m w) = Raise e).

(** An outcome with one more call in front. *)
Definition prepend {W A} (e : event) (o : outcome W A) : outcome W A :=
  Outcome (value o) (final o) (e :: calls o).

(** Calls that create, change or delete a rule. *)
Definition rule_mutating (e : event) : bool :=
  match e with
  | Called (put_rule _) | Called (delete_rule _)
  | Called (disable_rule _) | Called (enable_rule _) => true
  | _ => false
  end.

(** Does [add] put the rule, given what the lookup of the rule came to:
    when the rule is not found, and when it is found and [delta] tells it
    from the rule wanted. *)
Definition needs_put (lookup : result dict) (params : dict) : bool :=
  match lookup with
  | Ok rule => CloudWatchEventSource.delta rule params
  | Raise e => is_not_found e
  end.

(** The first half of [add], up to the rule: the pattern is rendered, the
    rule is looked up and, when it is absent or differs, put. *)
Definition rule_step `{Host} {R} `{Client R} (self : CloudWatchEventSource)
    (func : LambdaFunction) : M (world R) unit :=
  let! pattern := lift (CloudWatchEventSource.render_event_pattern self) in
  let params := CloudWatchEventSource.rule_params self func pattern in
  let! rule := CloudWatchEventSource.get self (name func) in
  match rule with
  | Found rule =>
      if CloudWatchEventSource.delta rule params
      then do_call (put_rule params)
      else ret tt
  | PyFalse => do_call (put_rule params)
  end.

(** The second half of [add], from [list_targets_by_rule] on. *)
Definition target_step `{Host} {R} `{Client R} (func : LambdaFunction)
    : M (world R) true_or_none :=
  let! response := do_call (list_targets_by_rule (name func)) in
  let! found := lift (CloudWatchEventSource.scan_targets (alias func) response false) in
  if found then ret PyNone
  else
    let! id := CloudWatchEventSource.fresh_uuid in
    do_call (put_targets (name func) id (alias func)) ;;;
    ret PyTrue.

Section Runs.
Context `{Host} {R : Type} `{Client R}.

(** The runs of the target half of [add]: it lists the targets and then, at
    most, puts one. *)
Inductive target_run (func : LambdaFunction) (w : world R)
    : outcome (world R) true_or_none -> Prop :=
| target_list_raises e s :
    invoke _ (list_targets_by_rule (name func)) (remote w) = (Raise e, s) ->
    target_run func w
      (Outcome (Raise e) (World s (uuids w))
         [Called (list_targets_by_rule (name func))])
| target_scan_raises response e s :
    invoke _ (list_targets_by_rule (name func)) (remote w) = (Ok response, s) ->
    CloudWatchEventSource.scan_targets (alias func) response false = Raise e ->
    target_run func w
      (Outcome (Raise e) (World s (uuids w))
         [Called (list_targets_by_rule (name func))])
| target_found response s :
    invoke _ (list_targets_by_rule (name func)) (remote w) = (Ok response, s) ->
    CloudWatchEventSource.scan_targets (alias func) response false = Ok true ->
    target_run func w
      (Outcome (Ok PyNone) (World s (uuids w))
         [Called (list_targets_by_rule (name func))])
| target_put response s r s' :
    invoke _ (list_targets_by_rule (name func)) (remote w) = (Ok response, s) ->
    CloudWatchEventSource.scan_targets (alias func) response false = Ok false ->
    invoke _ (put_targets (name func) (uuid4 (uuids w)) (alias func)) s = (r, s') ->
    target_run func w
      (Outcome (match r with Ok _ => Ok PyTrue | Raise e => Raise e end)
         (World s' (S (uuids w)))
         [Called (list_targets_by_rule (name func));
          Called (put_targets (name func) (uuid4 (uuids w)) (alias func))]).

(** The runs of [add]. *)
Inductive add_run (self : CloudWatchEventSource) (func : LambdaFunction)
    (w : world R) : outcome (world R) true_or_none -> Prop :=
| add_render_raises e :
    CloudWatchEventSource.render_event_pattern self = Raise e ->
    add_run self func w (Outcome (Raise e) w [])
| add_lookup_raises pattern e s :
    CloudWatchEventSource.render_event_pattern self = Ok pattern ->
    invoke _ (describe_rule (CloudWatchEventSource._make_notification_id self (name func)))
      (remote w) = (Raise e, s) ->
    is_not_found e = false ->
    add_run self func w
      (Outcome (Raise e) (World s (uuids w))
         [Called (describe_rule
                    (CloudWatchEventSource._make_notification_id self (name func)))])
| add_rule_kept pattern lookup s o :
    CloudWatchEventSource.render_event_pattern self = Ok pattern ->
    invoke _ (describe_rule (CloudWatchEventSource._make_notification_id self (name func)))
      (remote w) = (lookup, s) ->
    is_ok lookup = true ->
    needs_put lookup (CloudWatchEventSource.rule_params self func pattern) = false ->
    target_run func (World s (uuids w)) o ->
    add_run self func w
      (prepend (Called (describe_rule
                          (CloudWatchEventSource._make_notification_id self (name func))))
         o)
| add_rule_put pattern lookup s u s' o :
    CloudWatchEventSource.render_event_pattern self = Ok pattern ->
    invoke _ (describe_rule (CloudWatchEventSource._make_notification_id self (name func)))
      (remote w) = (lookup, s) ->
    needs_put lookup (CloudWatchEventSource.rule_params self func pattern) = true ->
    invoke _ (put_rule (CloudWatchEventSource.rule_params self func pattern)) s
      = (Ok u, s') ->
    target_run func (World s' (uuids w)) o ->
    add_run self func w
      (prepend (Called (describe_rule
                          (CloudWatchEventSource._make_notification_id self (name func))))
         (prepend (Called (put_rule (CloudWatchEventSource.rule_params self func pattern)))
            o))
| add_put_raises pattern lookup s e s' :
    CloudWatchEventSource.render_event_pattern self = Ok pattern ->
    invoke _ (describe_rule (CloudWatchEventSource._make_notification_id self (name func)))
      (remote w) = (lookup, s) ->
    needs_put lookup (CloudWatchEventSource.rule_params self func pattern) = true ->
    invoke _ (put_rule (CloudWatchEventSource.rule_params self func pattern)) s
      = (Raise e, s') ->
    add_run self func w
      (Outcome (Raise e) (World s' (uuids w))
         [Called (describe_rule
                    (CloudWatchEventSource._make_notification_id self (name func)));
          Called (put_rule (CloudWatchEventSource.rule_params self func pattern))]).
End Runs.



(** ** Vocabulary of the further properties *)

(** Calls on the function itself, with the upload of its archive. *)
Definition on_function (e : event) : bool :=
  match e with
  | Called (get_function _ _) | Called (create_function _ _ _)
  | Called (update_function_code _ _ _) | Called (update_function_configuration _)
  | Called (delete_function _) | Called (upload_file _ _ _) => true
  | _ => false
  end.

(** Calls on an alias. *)
Definition on_alias (e : event) : bool :=
  match e with
  | Called (get_alias _ _) | Called (create_alias _ _ _)
  | Called (update_alias _ _ _) => true
  | _ => false
  end.

(** Calls on a rule or on its targets. *)
Definition on_rule (e : event) : bool :=
  match e with
  | Called (describe_rule _) | Called (put_rule _)
  | Called (list_targets_by_rule _) | Called (put_targets _ _ _)
  | Called (disable_rule _) | Called (enable_rule _) | Called (delete_rule _) => true
  | _ => false
  end.

(** Every call the method issues, in whatever world, is one of [P]. *)
Definition only {W A} (P : event -> Prop) (m : M W A) : Prop :=
  forall w, Forall P (calls (m w)).

(** A [put_targets] call is for the rule [rule_name] and the target
    [arn]; other calls are not looked at. *)
Definition targets_bound_to (rule_name : string) (arn : option pyval) (e : event) : Prop :=
  match e with
  | Called (put_targets r _ t) => r = rule_name /\ t = arn
  | _ => True
  end.

(** What a call that sends code says of it: the function, that a version
    is to be published, and where the code is; other calls are not looked
    at. *)
Definition carries_code (func : LambdaFunction) (code : code_ref) (e : event) : Prop :=
  match e with
  | Called (create_function params publish c) =>
      params = list_to_map (LambdaFunction.get_config func)
      /\ publish = true /\ c = code
  | Called (update_function_code function_name publish c) =>
      function_name = name func /\ publish = true /\ c = code
  | _ => True
  end.

(** There is a role to deploy the function under: its own, or the one
    [_create_or_update] is given. *)
Definition role_given (func : LambdaFunction) (role_arg : option string) : Prop :=
  role func <> "" \/ nonempty role_arg <> None.

(** What a [put_rule] of [add] asks for; other calls are not looked at. *)
Definition asks_for_rule (self : CloudWatchEventSource) (func : LambdaFunction)
    (e : event) : Prop :=
  match e with
  | Called (put_rule params) =>
      params !! "Name" = Some (VStr (name func))
      /\ params !! "State" = Some (VStr "ENABLED")
      /\ params !! "ScheduleExpression"
         = VStr <$> nonempty (mode_schedule (data self))
      /\ (CloudWatchEventSource.type_is (mode_type (data self)) "periodic" = true ->
          params !! "EventPattern" = None)
  | _ => True
  end.

(** The mode types [render_event_pattern] knows. *)
Definition known_types : list string :=
  ["cloudtrail"; "ec2-instance-state"; "asg-instance-state"; "periodic"].

(** The role a call that sends a configuration asks for; other calls are
    not looked at. *)
Definition configured_with_role (r : string) (e : event) : Prop :=
  match e with
  | Called (create_function params _ _)
  | Called (update_function_configuration params) =>
      params !! "Role" = Some (VStr r)
  | _ => True
  end.

(** [needle] occurs somewhere inside [hay]. *)
Definition occurs_in (needle hay : string) : Prop :=
  exists before after, hay = before +:+ needle +:+ after.

(** Every call on a rule names the rule [rule_name]. *)
Definition on_rule_named (rule_name : string) (e : event) : Prop :=
  rule_of e = Some rule_name.

(** The entry [ZipFile.write] makes for the node [node] of the host under
    the archive name [arcname]: named by the path, with a slash at the end
    for a directory, and holding the contents of the node. *)
Definition entry_for (node : fsnode) (arcname : path) (e : ZipInfo * string) : Prop :=
  filename (fst e)
  = (if is_dir node
     then String.concat "/" (normpath arcname) +:+ "/"
     else String.concat "/" (normpath arcname))
  /\ snd e = match node with RegFile _ c => c | Directory _ _ => "" end.

(** An entry written for a file [f] of a directory [root] of the host,
    whose name does not match the pattern. *)
Definition kept_entry `{Host} (pat : string) (e : ZipInfo * string) : Prop :=
  exists root dir f node,
    stat fs (root ++ [f]) = Some node
    /\ entry_for node (dir ++ [f]) e
    /\ fnmatch f pat = false.

(** Where the entries of the maid archive come from, and where they are
    put: the janitor package, under its name [pkg] (or the one file of
    that name); the files at the top of site-packages; and the files below
    the required libraries, under the name of the library. *)
Definition maid_place `{Host} (pkg : string) (e : ZipInfo * string) : Prop :=
  let site := sys_prefix ++ ["lib"; "python2.7"; "site-packages"] in
  exists root dir f node,
    stat fs (root ++ [f]) = Some node
    /\ entry_for node (dir ++ [f]) e
    /\ ((root ++ [f] = janitor_dir /\ dir = [] /\ f = pkg)
        \/ (exists rest, root = janitor_dir ++ rest /\ dir = pkg :: rest)
        \/ (root = site /\ dir = ["."])
        \/ (exists r rest, In r required /\ root = site ++ r :: rest /\ dir = r :: rest)).

(** The archive [zf] holds the entries [before], then entries that all
    satisfy [E]. *)
Definition extends_with (before : list (ZipInfo * string))
    (E : ZipInfo * string -> Prop) (zf : ZipFile) : Prop :=
  exists added, filelist zf = before ++ added /\ Forall E added.

(** An entry of the archive [self] written from a file of the host: the
    file at the path [p], which is the source file itself, or a file below
    the source directory, or a file below site-packages; the entry is named
    by where that file lies (the name of the source, the path from the
    directory that holds the source, the path from site-packages), it holds
    the contents of that file, and it has the mode of that file, so its
    permission bits too. *)
Definition host_mode_entry `{Host} (self : PythonPackageArchive)
    (e : ZipInfo * string) : Prop :=
  let venv_lib_path := virtualenv_dir self ++ ["lib"; "python2.7"; "site-packages"] in
  exists p node arcname,
    stat fs p = Some node
    /\ entry_for node arcname e
    /\ ((p = src_path self /\ arcname = [basename (src_path self)])
        \/ (exists rest f,
              p = (src_path self ++ rest) ++ [f]
              /\ arcname
                 = relpath (src_path self ++ rest) (dirname (src_path self)) ++ [f])
        \/ (exists rest f,
              p = (venv_lib_path ++ rest) ++ [f]
              /\ arcname = relpath (venv_lib_path ++ rest) venv_lib_path ++ [f]))
    /\ Z.shiftr (external_attr (fst e)) 16 = Z.land (st_mode_of node) 65535
    /\ permission_bits (fst e) = Z.land (st_mode_of node) 511.

(** The functions of the pages, one page after the other. *)
Definition functions_of (pages : list (option (list dict))) : list dict :=
  List.concat (map (default []) pages).

(** The function record is named, and its name starts with [p]. *)
Definition named_with (p : string) (f : dict) : bool :=
  match f !! "FunctionName" with
  | Some (VStr function_name) => String.prefix p function_name
  | _ => false
  end.

(** * Properties *)

(** ** Running a method, step by step *)

Lemma outcome_eta {W A} (o : outcome W A) :
  Outcome (value o) (final o) (calls o) = o.
Proof. destruct o; reflexivity. Qed.

Lemma bind_ret {W A B} (a : A) (k : A -> M W B) (w : W) :
  bind (ret a) k w = k a w.
Proof. unfold bind, ret; simpl. apply outcome_eta. Qed.

Lemma bind_lift_ok {W A B} (a : A) (k : A -> M W B) (w : W) :
  bind (lift (Ok a)) k w = k a w.
Proof. unfold bind, lift; simpl. apply outcome_eta. Qed.

Lemma bind_lift_raise {W A B} (e : exn) (k : A -> M W B) (w : W) :
  bind (lift (Raise e)) k w = Outcome (Raise e) w [].
Proof. reflexivity. Qed.

Lemma bind_value {W A B} (m : M W A) (k : A -> M W B) (w : W) :
  value (bind m k w) =
    match value (m w) with
    | Ok a => value (k a (final (m w)))
    | Raise e => Raise e
    end.
Proof. unfold bind. destruct (value (m w)); reflexivity. Qed.

Section Calls.
Context {R : Type} `{Client R}.

Lemma call_run {A} (c : call A) (w : world R) r s :
  invoke A c (remote w) = (r, s) ->
  do_call c w = Outcome r (World s (uuids w)) [Called c].
Proof. unfold do_call. intros ->. reflexivity. Qed.

Lemma bind_call_ok {A B} (c : call A) (k : A -> M (world R) B) (w : world R) a s :
  invoke A c (remote w) = (Ok a, s) ->
  bind (do_call c) k w = prepend (Called c) (k a (World s (uuids w))).
Proof. unfold bind, do_call. intros ->. reflexivity. Qed.

Lemma bind_call_raise {A B} (c : call A) (k : A -> M (world R) B) (w : world R) e s :
  invoke A c (remote w) = (Raise e, s) ->
  bind (do_call c) k w = Outcome (Raise e) (World s (uuids w)) [Called c].
Proof. unfold bind, do_call. intros ->. reflexivity. Qed.

Lemma lookup_run {A} (c : call A) (w : world R) r s :
  invoke A c (remote w) = (r, s) ->
  resource_exists (do_call c) w =
    Outcome
      (match r with
       | Ok a => Ok (Found a)
       | Raise e => if is_not_found e then Ok PyFalse else Raise e
       end)
      (World s (uuids w)) [Called c].
Proof.
  intros E. unfold resource_exists, try_except, bind.
  rewrite (call_run _ _ _ _ E). simpl.
  destruct r as [a|e]; simpl; [reflexivity|].
  destruct e as [code| | | | | | |]; simpl; try reflexivity.
  destruct (String.eqb code "ResourceNotFoundException"); reflexivity.
Qed.

Lemma bind_lookup {A B} (c : call A) (k : found A -> M (world R) B)
    (w : world R) r s :
  invoke A c (remote w) = (r, s) ->
  bind (resource_exists (do_call c)) k w =
    match r with
    | Ok a => prepend (Called c) (k (Found a) (World s (uuids w)))
    | Raise e =>
        if is_not_found e
        then prepend (Called c) (k PyFalse (World s (uuids w)))
        else Outcome (Raise e) (World s (uuids w)) [Called c]
    end.
Proof.
  intros E. unfold bind at 1. rewrite (lookup_run _ _ _ _ E). simpl.
  destruct r as [a|e]; simpl; [reflexivity|].
  destruct (is_not_found e); reflexivity.
Qed.

Lemma is_not_found_spec (e : exn) :
  is_not_found e = true <-> e = ClientError "ResourceNotFoundException".
Proof.
  destruct e as [code| | | | | | |]; simpl; split; try discriminate.
  - intros Hc. apply String.eqb_eq in Hc. now subst.
  - intros [= ->]. reflexivity.
Qed.

Lemma resource_exists_lookup {A} (c : call A) (w : world R) :
  lookup_law (resource_exists (do_call c)) c w.
Proof.
  destruct (invoke A c (remote w)) as [r s] eqn:E.
  unfold lookup_law. rewrite (lookup_run _ _ _ _ E), E. simpl.
  split; [reflexivity|]. split; [|split].
  - intros a ->. reflexivity.
  - intros ->. reflexivity.
  - intros e -> Hne.
    destruct (is_not_found e) eqn:Enf; [|reflexivity].
    apply is_not_found_spec in Enf. contradiction.
Qed.
End Calls.

(** ** Lookups *)

Section Lookups.
Context `{Host} {R : Type} `{Client R}.

(** C3. Every remote lookup, of a function ([LambdaManager.get]), of an
    alias (the lookup of [publish_alias]) and of a rule
    ([CloudWatchEventSource.get]), returns a not-found outcome as the falsy
    value [False] instead of raising, and raises again, unchanged, any
    failure that is not the not-found error. *)
Theorem lookups_absent_or_reraised (w : world R) :
  (forall func_name qualifier,
      lookup_law (LambdaManager.get func_name qualifier)
                 (get_function func_name (nonempty qualifier)) w)
  /\ (forall func_name alias,
      lookup_law (resource_exists (do_call (get_alias func_name alias)))
                 (get_alias func_name alias) w)
  /\ (forall self rule_name,
      lookup_law (CloudWatchEventSource.get self rule_name)
                 (describe_rule (CloudWatchEventSource._make_notification_id self rule_name))
                 w).
Proof.
  split; [|split]; intros; apply resource_exists_lookup.
Qed.

(** ** Pause and resume *)

Lemma swallow_run (c : call unit) (w : world R) :
  swallow_law
    (try_except (do_call c)
       (fun e => match e with ClientError _ => ret tt | _ => raise e end))
    c w.
Proof.
  destruct (invoke unit c (remote w)) as [r s] eqn:E.
  unfold swallow_law, try_except. rewrite (call_run _ _ _ _ E), E. simpl.
  destruct r as [[]|e]; simpl.
  - repeat split; try discriminate. 
  - destruct e; simpl; repeat split; try discriminate;
      try (intros e' [= <-] Hne; solve [reflexivity | exfalso; eapply Hne; reflexivity]).
Qed.

(** The handler of [pause] and [resume]: they issue their one call and
    complete when it answers or raises a [ClientError], whatever its code;
    a failure that is not a [ClientError] reaches the caller. *)
Lemma pause_resume_handler
    (self : CloudWatchEventSource) (func : LambdaFunction) (w : world R) :
  swallow_law (CloudWatchEventSource.pause self func) (disable_rule (name func)) w
  /\ swallow_law (CloudWatchEventSource.resume self func) (enable_rule (name func)) w.
Proof. split; apply swallow_run. Qed.
End Lookups.

(** ** The event source *)

Lemma prefix_app (p s : string) : String.prefix p (p +:+ s) = true.
Proof.
  induction p as [|a p IH]; simpl.
  - destruct s; reflexivity.
  - destruct (ascii_dec a a) as [_|Hne]; [exact IH | contradiction].
Qed.

Lemma make_notification_id_prefixed (self : CloudWatchEventSource) (owner : string) :
  String.prefix (prefix self) (CloudWatchEventSource._make_notification_id self owner) = true.
Proof.
  unfold CloudWatchEventSource._make_notification_id.
  destruct (String.prefix (prefix self) owner) eqn:E; simpl.
  - exact E.
  - apply prefix_app.
Qed.

Lemma make_notification_id_fixed (self : CloudWatchEventSource) (owner : string) :
  String.prefix (prefix self) owner = true ->
  CloudWatchEventSource._make_notification_id self owner = owner.
Proof.
  intros E. unfold CloudWatchEventSource._make_notification_id. now rewrite E.
Qed.


Section EventSource.
Context `{Host} {R : Type} `{Client R}.

Lemma rule_params_name (self : CloudWatchEventSource) (func : LambdaFunction)
    (pattern : option string) :
  CloudWatchEventSource.rule_params self func pattern !! "Name" = Some (VStr (name func)).
Proof.
  unfold CloudWatchEventSource.rule_params.
  destruct (nonempty (mode_schedule (data self))), (nonempty pattern);
    repeat (rewrite lookup_insert_ne by discriminate);
    apply lookup_insert_eq.
Qed.

Lemma target_step_run (func : LambdaFunction) (w : world R) :
  target_run func w (target_step func w).
Proof.
  unfold target_step.
  destruct (invoke _ (list_targets_by_rule (name func)) (remote w))
    as [[response|e] s] eqn:E.
  - rewrite (bind_call_ok _ _ _ _ _ E).
    destruct (CloudWatchEventSource.scan_targets (alias func) response false)
      as [[|]|e] eqn:Es.
    + rewrite bind_lift_ok. unfold prepend, ret; simpl.
      eapply target_found; eauto.
    + rewrite bind_lift_ok. unfold CloudWatchEventSource.fresh_uuid.
      unfold bind at 1. simpl.
      destruct (invoke _ (put_targets (name func) (uuid4 (uuids w)) (alias func)) s)
        as [r s'] eqn:E'.
      pose proof (target_put func w response s r s' E Es E') as T.
      destruct r as [[]|e].
      * erewrite bind_call_ok by (simpl; eassumption). exact T.
      * erewrite bind_call_raise by (simpl; eassumption). exact T.
    + rewrite bind_lift_raise. unfold prepend; simpl.
      eapply target_scan_raises; eauto.
  - rewrite (bind_call_raise _ _ _ _ _ E). apply target_list_raises; assumption.
Qed.

Lemma add_runs (self : CloudWatchEventSource) (func : LambdaFunction) (w : world R) :
  add_run self func w (CloudWatchEventSource.add self func w).
Proof.
  unfold CloudWatchEventSource.add.
  destruct (CloudWatchEventSource.render_event_pattern self) as [pattern|e] eqn:Er.
  2: { rewrite bind_lift_raise. now apply add_render_raises. }
  rewrite bind_lift_ok. unfold CloudWatchEventSource.get.
  set (params := CloudWatchEventSource.rule_params self func pattern).
  destruct (invoke _ (describe_rule
                        (CloudWatchEventSource._make_notification_id self (name func)))
              (remote w)) as [lookup s] eqn:E.
  rewrite (bind_lookup _ _ _ _ _ E).
  assert (Hput : forall w',
             needs_put lookup params = true ->
             remote w' = s -> uuids w' = uuids w ->
             add_run self func w
               (prepend (Called (describe_rule
                           (CloudWatchEventSource._make_notification_id self (name func))))
                  (bind (do_call (put_rule params)) (fun _ => target_step func) w'))).
  { intros [s0 n0] Hn Hs Hu. simpl in Hs, Hu. subst s0 n0.
    destruct (invoke _ (put_rule params) s) as [[u|e] s'] eqn:E2.
    - erewrite bind_call_ok by (simpl; eassumption).
      eapply add_rule_put; eauto. apply target_step_run.
    - erewrite bind_call_raise by (simpl; eassumption).
      unfold prepend; simpl. eapply add_put_raises; eauto. }
  destruct lookup as [rule|e]; simpl.
  - destruct (CloudWatchEventSource.delta rule params) eqn:D.
    + apply Hput; [exact D | reflexivity | reflexivity].
    + rewrite bind_ret.
      eapply add_rule_kept; eauto. apply target_step_run.
  - destruct (is_not_found e) eqn:Enf.
    + apply Hput; [exact Enf | reflexivity | reflexivity].
    + eapply add_lookup_raises; eauto.
Qed.

(** The calls of the target half are on the function's name. *)
Lemma target_run_calls func w o :
  target_run func w o ->
  Forall (fun e => rule_of e = Some (name func) /\ rule_mutating e = false) (calls o)
  /\ (forall r, value o = Ok r ->
        (r = PyTrue <-> Exists (fun e => is_put_targets e = true) (calls o))).
Proof.
  intros T. destruct T as [e s E | response e s E Es | response s E Es
                          | response s r s' E Es E']; simpl.
  - split; [repeat constructor | discriminate].
  - split; [repeat constructor | discriminate].
  - split; [repeat constructor|].
    intros r [= <-]. split; [discriminate|].
    intros Hex. apply Exists_cons in Hex as [Hd|Hex]; [discriminate|].
    now apply Exists_nil in Hex.
  - split; [repeat constructor|].
    intros r0 Hr. split.
    + intros _. right. left. reflexivity.
    + intros _. destruct r; [now injection Hr as <- | discriminate].
Qed.




Lemma remove_calls (self : CloudWatchEventSource) (func : LambdaFunction) (w : world R) :
  Forall (fun e => e = Called (describe_rule
                                 (CloudWatchEventSource._make_notification_id self (name func)))
                   \/ e = Called (delete_rule (name func)))
    (calls (CloudWatchEventSource.remove self func w)).
Proof.
  unfold CloudWatchEventSource.remove, CloudWatchEventSource.get.
  destruct (invoke _ (describe_rule
                        (CloudWatchEventSource._make_notification_id self (name func)))
              (remote w)) as [lookup s] eqn:E.
  rewrite (bind_lookup _ _ _ _ _ E).
  destruct lookup as [rule|e]; simpl.
  - unfold do_call. simpl.
    destruct (invoke _ (delete_rule (name func)) s); simpl.
    constructor; [now left|]. constructor; [now right|]. constructor.
  - destruct (is_not_found e); simpl; (constructor; [now left | constructor]).
Qed.

(** The rule name is derived from the owner name by putting the prefix in
    front unless the owner name starts with it already: the derived name
    always starts with the prefix, and deriving again from a derived name
    changes nothing. A function that goes by the derived name, as every
    policy function does, has all its rule operations on that name: the
    describe, put, target listing and target put of [add] and the describe
    and delete of [remove]. *)
Lemma rule_name_derivation (self : CloudWatchEventSource) (owner : string)
    (func : LambdaFunction) (w : world R) :
  let id := CloudWatchEventSource._make_notification_id self owner in
  String.prefix (prefix self) id = true
  /\ (String.prefix (prefix self) owner = false -> id = prefix self +:+ owner)
  /\ (String.prefix (prefix self) owner = true -> id = owner)
  /\ CloudWatchEventSource._make_notification_id self id = id
  /\ (name func = id ->
      Forall (fun e => rule_of e = Some id)
        (calls (CloudWatchEventSource.add self func w)
         ++ calls (CloudWatchEventSource.remove self func w))).
Proof.
  intros id. subst id.
  pose proof (make_notification_id_prefixed self owner) as Hpre.
  split; [exact Hpre|]. split; [|split; [|split]].
  - intros E. unfold CloudWatchEventSource._make_notification_id. now rewrite E.
  - apply make_notification_id_fixed.
  - now apply make_notification_id_fixed.
  - intros Hname.
    assert (Hid : CloudWatchEventSource._make_notification_id self (name func) = name func).
    { apply make_notification_id_fixed. now rewrite Hname. }
    rewrite <- Hname. apply Forall_app. split.
    + destruct (add_runs self func w)
        as [e Er | pattern' e s Er E Enf | pattern' lk s o Er E Hok Hn T
           | pattern' lk s u s' o Er E Hn E2 T | pattern' lk s e s' Er E Hn E2];
        simpl; rewrite ?Hid;
        repeat (constructor;
                [unfold rule_of; rewrite ?rule_params_name; reflexivity|]);
        try solve [constructor];
        destruct (target_run_calls _ _ _ T) as [Hall _];
        (eapply Forall_impl; [exact Hall | simpl; tauto]).
    + eapply Forall_impl; [apply remove_calls|]. simpl.
      rewrite Hid. intros e [-> | ->]; reflexivity.
Qed.
End EventSource.

(** ** Event patterns *)

Lemma translated_lookup (events : list string) (i : nat) (e : string) :
  events !! i = Some e ->
  map (fun e => default e (CloudWatchEventSource.ASG_EVENT_MAPPING !! e)) events !! i
  = Some (default e (CloudWatchEventSource.ASG_EVENT_MAPPING !! e)).
Proof. intros Hi. now rewrite list_lookup_fmap, Hi. Qed.

(** C10. For the autoscaling instance state source, the detail-type list of
    the pattern has one name for each declared event, in the order they are
    declared: the canonical provider name when the declared name is a key
    of the alias table, and the declared name itself, unchanged, when it is
    not; no declared name is rejected or dropped. *)
Theorem asg_event_names_translated `{Host} (self : CloudWatchEventSource) :
  mode_type (data self) = Some "asg-instance-state" ->
  let events := default [] (mode_events (data self)) in
  exists names : list string,
    CloudWatchEventSource.payload self
    = Ok [ ("source", JList [JStr "aws.autoscaling"]);
           ("detail-type", JList (map JStr names)) ]
    /\ CloudWatchEventSource.render_event_pattern self
       = Ok (Some (json_dumps
                     (JDict [ ("source", JList [JStr "aws.autoscaling"]);
                              ("detail-type", JList (map JStr names)) ])))
    /\ List.length names = List.length events
    /\ (forall i e, events !! i = Some e ->
          (forall canonical,
              CloudWatchEventSource.ASG_EVENT_MAPPING !! e = Some canonical ->
              names !! i = Some canonical)
          /\ (CloudWatchEventSource.ASG_EVENT_MAPPING !! e = None ->
              names !! i = Some e))
    /\ map_to_list CloudWatchEventSource.ASG_EVENT_MAPPING
       ≡ₚ [ ("launch-success", "EC2 Instance Launch Successful");
            ("launch-failure", "EC2 Instance Launch Unsuccessful");
            ("terminate-success", "EC2 Instance Terminate Successful");
            ("terminate-failure", "EC2 Instance Terminate Unsuccessful") ].
Proof.
  intros Ht events.
  exists (map (fun e => default e (CloudWatchEventSource.ASG_EVENT_MAPPING !! e)) events).
  assert (Hpay : CloudWatchEventSource.payload self
                 = Ok [ ("source", JList [JStr "aws.autoscaling"]);
                        ("detail-type",
                         JList (map JStr
                                  (map (fun e => default e
                                                   (CloudWatchEventSource.ASG_EVENT_MAPPING !! e))
                                       events))) ]).
  { unfold CloudWatchEventSource.payload. rewrite Ht. reflexivity. }
  split; [exact Hpay|]. split; [|split; [|split]].
  - unfold CloudWatchEventSource.render_event_pattern. rewrite Hpay. reflexivity.
  - apply length_map.
  - intros i e Hi. rewrite (translated_lookup _ _ _ Hi). split.
    + intros canonical ->. reflexivity.
    + intros ->. reflexivity.
  - unfold CloudWatchEventSource.ASG_EVENT_MAPPING.
    apply map_to_list_to_map.
    apply (bool_decide_unpack _). vm_compute. exact I.
Qed.

(** ** The archive *)

(** C5. The archive has a strict lifecycle. Once the archive is closed,
    writing an entry raises at once; as long as it is not closed, asking for
    its checksum or its size raises at once. So the checksum and the size
    are defined only when the archive is closed; [close] is what closes it,
    and a new archive, before and after [create], is not closed. *)
Theorem archive_lifecycle `{Host} (a : PythonPackageArchive)
    (dest : zinfo_or_arcname) (contents : string) :
  (_closed a = true ->
     PythonPackageArchive.add_contents a dest contents
     = Raise (AssertionError "Archive closed"))
  /\ (_closed a = false ->
        PythonPackageArchive.get_checksum a = Raise (AssertionError "Archive not closed")
        /\ PythonPackageArchive.size a
           = Raise (ValueError "Archive not closed, size not accurate"))
  /\ (is_ok (PythonPackageArchive.get_checksum a) = true -> _closed a = true)
  /\ (is_ok (PythonPackageArchive.size a) = true -> _closed a = true)
  /\ (forall a', PythonPackageArchive.close a = Ok a' ->
        _closed a' = true
        /\ PythonPackageArchive.add_contents a' dest contents
           = Raise (AssertionError "Archive closed"))
  /\ (forall src venv skip lib_filter src_filter,
        _closed (PythonPackageArchive.__init__ src venv skip lib_filter src_filter)
        = false)
  /\ (forall a', PythonPackageArchive.create a = Ok a' -> _closed a' = _closed a).
Proof.
  split; [|split; [|split; [|split; [|split; [|split]]]]].
  - intros Hc. unfold PythonPackageArchive.add_contents. now rewrite Hc.
  - intros Hc. unfold PythonPackageArchive.get_checksum, PythonPackageArchive.size.
    now rewrite Hc.
  - unfold PythonPackageArchive.get_checksum.
    destruct (_closed a); [reflexivity | discriminate].
  - unfold PythonPackageArchive.size.
    destruct (_closed a); [reflexivity | discriminate].
  - unfold PythonPackageArchive.close. intros a' Ha'.
    destruct (_zip_file a); [|discriminate]. injection Ha' as <-.
    split; reflexivity.
  - reflexivity.
  - unfold PythonPackageArchive.create. intros a' Ha'.
    destruct (_temp_archive_file a); [discriminate|].
    unfold rbind in Ha'.
    repeat match type of Ha' with
           | match ?x with _ => _ end = _ => destruct x; try discriminate
           end.
    all: injection Ha' as <-; reflexivity.
Qed.

(** ** The function manager *)

Lemma bind_assoc {W A B C} (m : M W A) (k : A -> M W B) (k' : B -> M W C) (w : W) :
  bind (bind m k) k' w = bind m (fun a => bind (k a) k') w.
Proof.
  unfold bind. destruct (value (m w)) as [a|e]; simpl; [|reflexivity].
  destruct (value (k a (final (m w)))); simpl; [|reflexivity].
  now rewrite app_assoc.
Qed.

Lemma delta_items_spec (configuration : dict) (conf : list (string * pyval)) (r : true_or_none) :
  LambdaManager.delta_items configuration conf = Ok r ->
  (r = PyTrue <-> exists k v, In (k, v) conf /\ configuration !! k <> Some v).
Proof.
  induction conf as [|[k v] conf IH]; simpl.
  - intros [= <-]. split; [discriminate | intros (k & v & [] & _)].
  - destruct (configuration !! k) as [r0|] eqn:Ek; [|discriminate].
    destruct (bool_decide (v ≠ r0)) eqn:E.
    + apply bool_decide_eq_true in E. intros [= <-]. split; [|reflexivity].
      intros _. exists k, v. split; [now left|]. rewrite Ek. congruence.
    + apply bool_decide_eq_false in E. intros Hr. rewrite (IH Hr). split.
      * intros (k' & v' & Hin & Hne). exists k', v'. split; [now right | exact Hne].
      * intros (k' & v' & [[= <- <-] | Hin] & Hne).
        -- exfalso. apply E. intros ->. now rewrite Ek in Hne.
        -- exists k', v'. split; assumption.
Qed.

(** Python leaves the order in which a dict is gone through open; the
    verdict of [delta_function] does not depend on it. *)
Lemma delta_items_any_order (configuration : dict) (conf conf' : list (string * pyval))
    (r r' : true_or_none) :
  conf ≡ₚ conf' ->
  LambdaManager.delta_items configuration conf = Ok r ->
  LambdaManager.delta_items configuration conf' = Ok r' ->
  r = r'.
Proof.
  intros Hperm Hr Hr'.
  apply delta_items_spec in Hr, Hr'.
  assert (Hiff : r = PyTrue <-> r' = PyTrue).
  { rewrite Hr, Hr'. split; intros (k & v & Hin & Hne); exists k, v; split; auto.
    - eapply Permutation_in; [exact Hperm | exact Hin].
    - eapply Permutation_in; [symmetry; exact Hperm | exact Hin]. }
  destruct r, r'; try reflexivity.
  - destruct Hiff as [Hiff _]. discriminate (Hiff eq_refl).
  - destruct Hiff as [_ Hiff]. discriminate (Hiff eq_refl).
Qed.

Ltac raised := let Hbad := fresh in intros Hbad; simpl in Hbad; discriminate Hbad.

Lemma prepend_value {W A} (e : event) (o : outcome W A) : value (prepend e o) = value o.
Proof. reflexivity. Qed.

Lemma prepend_calls {W A} (e : event) (o : outcome W A) : calls (prepend e o) = e :: calls o.
Proof. reflexivity. Qed.

Section Manager.
Context `{Host} {R : Type} `{Client R}.




(** What [remove] does once the event sources are gone: it issues
    [delete_function] and hands on whatever that raises. *)
Lemma remove_hands_on_delete_failure (func : LambdaFunction) (alias : option string)
    (w : world R) (e : exn) (s : R) :
  value (for_each (get_events func)
           (fun es => CloudWatchEventSource.remove es func) w) = Ok tt ->
  invoke _ (delete_function (name func))
    (remote (final (for_each (get_events func)
                      (fun es => CloudWatchEventSource.remove es func) w)))
  = (Raise e, s) ->
  value (LambdaManager.remove func alias w) = Raise e.
Proof.
  intros Hev Hdel. unfold LambdaManager.remove.
  rewrite bind_value, Hev. rewrite (call_run _ _ _ _ Hdel). reflexivity.
Qed.
End Manager.

(** ** The entries of the archive *)

Lemma written_permission_bits (zf : ZipFile) (node : fsnode) (arcname : path) :
  exists info,
    filelist (ZipFile_write zf node arcname)
    = filelist zf
      ++ [(info, match node with RegFile _ c => c | Directory _ _ => "" end)]
    /\ Z.shiftr (external_attr info) 16 = Z.land (st_mode_of node) 65535
    /\ permission_bits info = Z.land (st_mode_of node) 511.
Proof.
  unfold ZipFile_write.
  assert (Hmode : forall m,
             Z.shiftr (Z.shiftl (Z.land m 65535) 16) 16 = Z.land m 65535).
  { intros m. rewrite Z.shiftr_shiftl_l by lia. simpl (16 - 16).
    apply Z.shiftl_0_r. }
  assert (Hbits : forall m, Z.land (Z.land m 65535) 511 = Z.land m 511).
  { intros m. rewrite <- Z.land_assoc. reflexivity. }
  destruct (is_dir node); eexists; (split; [reflexivity|]);
    unfold permission_bits; simpl external_attr.
  - rewrite Z.shiftr_lor. change (Z.shiftr 16 16) with 0.
    rewrite Z.lor_0_r, Hmode. split; [reflexivity | apply Hbits].
  - rewrite Hmode. split; [reflexivity | apply Hbits].
Qed.

(** Induction on the file system, with the property at hand for every
    entry of a directory. *)
Lemma fsnode_nested_ind (P : fsnode -> Prop) :
  (forall m c, P (RegFile m c)) ->
  (forall m es, Forall (fun e => P (snd e)) es -> P (Directory m es)) ->
  forall n, P n.
Proof.
  intros Hfile Hdir. fix rec 1. intros [m c | m es].
  - apply Hfile.
  - apply Hdir. revert es. fix go 1. intros [|[name child] es'].
    + constructor.
    + constructor; [apply rec | apply go].
Qed.


(** * Further properties *)

(** ** What a method may call *)

Lemma bind_calls {W A B} (m : M W A) (k : A -> M W B) (w : W) :
  calls (bind m k w) =
    calls (m w) ++ match value (m w) with
                   | Ok a => calls (k a (final (m w)))
                   | Raise _ => []
                   end.
Proof.
  unfold bind. destruct (value (m w)); simpl; [reflexivity | now rewrite app_nil_r].
Qed.

Lemma only_ret {W A} (P : event -> Prop) (a : A) : only P (ret (W:=W) a).
Proof. intros w. constructor. Qed.

Lemma only_raise {W A} (P : event -> Prop) (e : exn) : only P (raise (W:=W) (A:=A) e).
Proof. intros w. constructor. Qed.

Lemma only_lift {W A} (P : event -> Prop) (r : result A) : only P (lift (W:=W) r).
Proof. intros w. constructor. Qed.

Lemma only_bind {W A B} (P : event -> Prop) (m : M W A) (k : A -> M W B) :
  only P m -> (forall a, only P (k a)) -> only P (bind m k).
Proof.
  intros Hm Hk w. rewrite bind_calls. apply Forall_app. split; [apply Hm|].
  destruct (value (m w)); [apply Hk | constructor].
Qed.

Lemma only_for_each {W A} (P : event -> Prop) (xs : list A) (body : A -> M W unit) :
  (forall x, only P (body x)) -> only P (for_each xs body).
Proof.
  intros Hb. induction xs as [|x xs IH]; simpl.
  - apply only_ret.
  - apply only_bind; [apply Hb | intros _; exact IH].
Qed.

Section MayCall.
Context `{Host} {R : Type} `{Client R}.

Lemma only_call {A} (P : event -> Prop) (c : call A) :
  P (Called c) -> only P (do_call c).
Proof.
  intros Hc w. unfold do_call. destruct (invoke A c (remote w)). simpl.
  constructor; [exact Hc | constructor].
Qed.

Lemma only_lookup {A} (P : event -> Prop) (c : call A) :
  P (Called c) -> only P (resource_exists (do_call c)).
Proof.
  intros Hc w. destruct (invoke A c (remote w)) as [r s] eqn:E.
  rewrite (lookup_run _ _ _ _ E). simpl. constructor; [exact Hc | constructor].
Qed.

Lemma only_fresh_uuid (P : event -> Prop) :
  only P (CloudWatchEventSource.fresh_uuid (R:=R)).
Proof. intros w. constructor. Qed.

Lemma only_swallow (P : event -> Prop) (c : call unit) :
  P (Called c) ->
  only P (try_except (do_call c)
            (fun e => match e with ClientError _ => ret tt | _ => raise e end)).
Proof.
  intros Hc w. destruct (swallow_run c w) as [-> _].
  constructor; [exact Hc | constructor].
Qed.
End MayCall.

Ltac only_side := first [reflexivity | exact I | split; reflexivity].

(** Breaks a method down to the calls it is made of. *)
Ltac only_calls :=
  repeat first
    [ apply only_ret | apply only_raise | apply only_lift | apply only_fresh_uuid
    | apply only_call; only_side | apply only_lookup; only_side
    | apply only_swallow; only_side
    | apply only_bind; [|intros ?]
    | apply only_for_each; intros ?
    | match goal with
      | |- only _ (match ?x with _ => _ end) => destruct x
      | |- only _ (let '(_, _) := ?p in _) => destruct p
      end ].

Section Discipline.
Context `{Host} {R : Type} `{Client R}.

Lemma create_or_update_on_function (func : LambdaFunction)
    (role_arg s3_uri qualifier : option string) :
  only (W:=world R) (fun e => on_function e = true) (LambdaManager._create_or_update func role_arg s3_uri qualifier).
Proof.
  unfold LambdaManager._create_or_update, LambdaManager.get, LambdaManager._upload_func.
  only_calls.
Qed.

Lemma publish_alias_on_alias (func_data : dict) (alias : option string) :
  only (W:=world R) (fun e => on_alias e = true) (LambdaManager.publish_alias func_data alias).
Proof. unfold LambdaManager.publish_alias. only_calls. Qed.

Lemma add_on_rule (self : CloudWatchEventSource) (func : LambdaFunction) :
  only (W:=world R) (fun e => on_rule e = true) (CloudWatchEventSource.add self func).
Proof.
  unfold CloudWatchEventSource.add, CloudWatchEventSource.get. only_calls.
Qed.

Lemma remove_on_rule (self : CloudWatchEventSource) (func : LambdaFunction) :
  only (W:=world R) (fun e => on_rule e = true) (CloudWatchEventSource.remove self func).
Proof.
  unfold CloudWatchEventSource.remove, CloudWatchEventSource.get. only_calls.
Qed.

Lemma add_binds_alias (self : CloudWatchEventSource) (func : LambdaFunction) :
  only (W:=world R) (targets_bound_to (name func) (alias func))
    (CloudWatchEventSource.add self func).
Proof.
  unfold CloudWatchEventSource.add, CloudWatchEventSource.get. only_calls.
Qed.

Lemma no_targets_put (P : event -> bool) (rule_name : string) (arn : option pyval)
    (l : list event) :
  (forall e, P e = true -> is_put_targets e = false) ->
  Forall (fun e => P e = true) l ->
  Forall (targets_bound_to rule_name arn) l.
Proof.
  intros HP Hall. eapply Forall_impl; [exact Hall|]. simpl.
  intros e He. apply HP in He. destruct e as [A c]. destruct c; try exact I.
  discriminate He.
Qed.

(** X1. [publish] works in order: first the calls of [_create_or_update],
    which are on the function and its archive, then the calls on the alias,
    then the calls on the rules and their targets; so no event source is
    bound before the function and the alias were dealt with. When
    [_create_or_update] raises, [publish] raises the same error and issues
    nothing more; without an alias it issues no call on an alias. *)
Theorem publish_in_order (func : LambdaFunction) (alias role_arg s3_uri : option string)
    (w : world R) :
  exists alias_calls rule_calls,
    calls (LambdaManager.publish func alias role_arg s3_uri w)
    = calls (LambdaManager._create_or_update func role_arg s3_uri alias w)
      ++ alias_calls ++ rule_calls
    /\ Forall (fun e => on_function e = true)
         (calls (LambdaManager._create_or_update func role_arg s3_uri alias w))
    /\ Forall (fun e => on_alias e = true) alias_calls
    /\ Forall (fun e => on_rule e = true) rule_calls
    /\ (nonempty alias = None -> alias_calls = [])
    /\ (forall e,
          value (LambdaManager._create_or_update func role_arg s3_uri alias w) = Raise e ->
          alias_calls = [] /\ rule_calls = []
          /\ value (LambdaManager.publish func alias role_arg s3_uri w) = Raise e).
Proof.
  unfold LambdaManager.publish.
  set (o1 := LambdaManager._create_or_update func role_arg s3_uri alias w).
  pose proof (create_or_update_on_function func role_arg s3_uri alias w) as H1.
  fold o1 in H1.
  rewrite bind_calls, bind_value. fold o1.
  destruct (value o1) as [result|e] eqn:E1.
  2: { exists [], []. rewrite !app_nil_r.
       split; [reflexivity|]. split; [exact H1|].
       split; [constructor|]. split; [constructor|]. split; [reflexivity|].
       intros e' [= <-]. auto. }
  rewrite bind_calls.
  set (aliased := match nonempty alias with
                  | Some _ => let! arn := LambdaManager.publish_alias result alias in
                              ret (LambdaFunction.set_alias func arn)
                  | None => ret func
                  end).
  assert (H2 : only (W:=world R) (fun e => on_alias e = true) aliased).
  { subst aliased. destruct (nonempty alias); only_calls.
    apply publish_alias_on_alias. }
  exists (calls (aliased (final o1))).
  eexists. split; [reflexivity|].
  split; [exact H1|]. split; [apply H2|]. split; [|split].
  - destruct (value (aliased (final o1))) as [func'|e]; [|constructor].
    assert (H3 : only (W:=world R) (fun e => on_rule e = true)
                   (for_each (get_events func')
                      (fun e => CloudWatchEventSource.add e func';;; ret tt);;;
                    ret (result, func'))).
    { only_calls. }
    apply H3.
  - intros Hn. subst aliased. rewrite Hn. reflexivity.
  - intros e [=].
Qed.

(** X2. When [publish] completes, it returns the record
    [_create_or_update] returned. With an alias, the function object comes
    back with [alias] set to what [publish_alias] returned, and every target
    put on the way is put on the rule of the function's name with that alias
    as its Arn; without an alias the function object comes back as it was. *)
Theorem publish_binds_targets_to_alias (func : LambdaFunction)
    (alias_name role_arg s3_uri : option string) (w : world R)
    (result : dict) (func' : LambdaFunction) :
  value (LambdaManager.publish func alias_name role_arg s3_uri w) = Ok (result, func') ->
  value (LambdaManager._create_or_update func role_arg s3_uri alias_name w) = Ok result
  /\ name func' = name func
  /\ (nonempty alias_name = None -> func' = func)
  /\ (nonempty alias_name <> None ->
      exists arn,
        value (LambdaManager.publish_alias result alias_name
                 (final (LambdaManager._create_or_update func role_arg s3_uri alias_name w)))
        = Ok arn
        /\ func' = LambdaFunction.set_alias func arn)
  /\ Forall (targets_bound_to (name func) (alias func'))
       (calls (LambdaManager.publish func alias_name role_arg s3_uri w)).
Proof.
  unfold LambdaManager.publish.
  set (o1 := LambdaManager._create_or_update func role_arg s3_uri alias_name w).
  pose proof (create_or_update_on_function func role_arg s3_uri alias_name w) as H1.
  fold o1 in H1.
  rewrite bind_calls, bind_value. fold o1.
  destruct (value o1) as [result0|e] eqn:E1; [|discriminate].
  rewrite bind_calls, bind_value.
  set (aliased := match nonempty alias_name with
                  | Some _ => let! arn := LambdaManager.publish_alias result0 alias_name in
                              ret (LambdaFunction.set_alias func arn)
                  | None => ret func
                  end).
  assert (H2 : only (W:=world R) (fun e => on_alias e = true) aliased).
  { subst aliased. destruct (nonempty alias_name); only_calls.
    apply publish_alias_on_alias. }
  destruct (value (aliased (final o1))) as [func1|e] eqn:E2; [|discriminate].
  rewrite bind_value.
  destruct (value (for_each (get_events func1)
                     (fun e => CloudWatchEventSource.add e func1;;; ret tt)
                     (final (aliased (final o1))))) as [[]|e] eqn:E3;
    [|discriminate].
  intros [= <- <-].
  assert (Hfunc : (nonempty alias_name = None -> func1 = func)
                  /\ (nonempty alias_name <> None ->
                      exists arn,
                        value (LambdaManager.publish_alias result0 alias_name (final o1))
                        = Ok arn
                        /\ func1 = LambdaFunction.set_alias func arn)).
  { subst aliased. destruct (nonempty alias_name) as [a|]; split.
    - discriminate.
    - intros _. rewrite bind_value in E2.
      destruct (value (LambdaManager.publish_alias result0 alias_name (final o1)))
        as [arn|e] eqn:Ea; [|discriminate].
      injection E2 as <-. exists arn. auto.
    - intros _. now injection E2 as <-.
    - intros Hn. now contradiction Hn. }
  assert (Hname : name func1 = name func).
  { destruct Hfunc as [Hnone Hsome]. destruct (nonempty alias_name) as [a|].
    - destruct Hsome as (arn & _ & ->); [discriminate | reflexivity].
    - now rewrite Hnone. }
  split; [reflexivity|].
  split; [exact Hname|]. split; [apply Hfunc|]. split; [apply Hfunc|].
  apply Forall_app. split; [|apply Forall_app; split].
  - eapply no_targets_put; [|exact H1]. intros [A c]; destruct c; simpl; congruence.
  - eapply no_targets_put; [|apply H2]. intros [A c]; destruct c; simpl; congruence.
  - rewrite <- Hname.
    assert (H3 : only (W:=world R) (targets_bound_to (name func1) (alias func1))
                   (for_each (get_events func1)
                      (fun e => CloudWatchEventSource.add e func1;;; ret tt);;;
                    ret (result0, func1))).
    { only_calls. }
    apply H3.
Qed.

(** X3. [LambdaManager.remove] unbinds before it deletes: the calls on the
    rules of the event sources come first, and [delete_function] is issued
    last, once, and only when every event source was removed without an
    error; when one of the removals raises, the function is left in place
    and the error is raised. *)
Theorem remove_unbinds_before_delete (func : LambdaFunction) (alias : option string)
    (w : world R) :
  let unbound :=
    for_each (get_events func) (fun es => CloudWatchEventSource.remove es func) w in
  Forall (fun e => on_rule e = true) (calls unbound)
  /\ calls (LambdaManager.remove func alias w)
     = calls unbound
       ++ (if is_ok (value unbound) then [Called (delete_function (name func))] else [])
  /\ (forall e, value unbound = Raise e ->
        value (LambdaManager.remove func alias w) = Raise e
        /\ final (LambdaManager.remove func alias w) = final unbound)
  /\ (value unbound = Ok tt ->
        value (LambdaManager.remove func alias w)
        = fst (invoke _ (delete_function (name func)) (remote (final unbound)))).
Proof.
  intros unbound. unfold LambdaManager.remove. fold unbound.
  split; [|split; [|split]].
  - subst unbound. revert w.
    change (only (W:=world R) (fun e => on_rule e = true)
              (for_each (get_events func)
                 (fun es => CloudWatchEventSource.remove es func))).
    only_calls.
  - rewrite bind_calls. fold unbound.
    destruct (value unbound) as [[]|e]; simpl; [|reflexivity].
    unfold do_call. destruct (invoke _ _ (remote (final unbound))). reflexivity.
  - intros e He. unfold bind. fold unbound. rewrite He. simpl. auto.
  - intros Hv. rewrite bind_value. fold unbound. rewrite Hv.
    unfold do_call. destruct (invoke _ _ (remote (final unbound))). reflexivity.
Qed.

(** X4. [CloudWatchEventSource.remove] deletes the rule only if the lookup
    finds it: a rule that is found is deleted by the function's name, a
    rule that is not found is no error and nothing is deleted, and any
    other failure of the lookup is raised with nothing deleted. *)
Theorem unbind_only_when_bound (self : CloudWatchEventSource) (func : LambdaFunction)
    (w : world R) (lookup : result dict) (s : R) :
  invoke _ (describe_rule (CloudWatchEventSource._make_notification_id self (name func)))
    (remote w) = (lookup, s) ->
  match lookup with
  | Ok _ =>
      calls (CloudWatchEventSource.remove self func w)
      = [Called (describe_rule
                   (CloudWatchEventSource._make_notification_id self (name func)));
         Called (delete_rule (name func))]
      /\ value (CloudWatchEventSource.remove self func w)
         = fst (invoke _ (delete_rule (name func)) s)
  | Raise e =>
      CloudWatchEventSource.remove self func w
      = Outcome (if is_not_found e then Ok tt else Raise e) (World s (uuids w))
          [Called (describe_rule
                     (CloudWatchEventSource._make_notification_id self (name func)))]
  end.
Proof.
  intros E. unfold CloudWatchEventSource.remove, CloudWatchEventSource.get.
  rewrite (bind_lookup _ _ _ _ _ E).
  destruct lookup as [rule|e].
  - unfold do_call. simpl.
    destruct (invoke _ (delete_rule (name func)) s). split; reflexivity.
  - destruct (is_not_found e); reflexivity.
Qed.
End Discipline.

Lemma getitem_some (d : dict) (k : string) (v : pyval) :
  d !! k = Some v -> getitem d k = Ok v.
Proof. unfold getitem. now intros ->. Qed.

Section ManagerMore.
Context `{Host} {R : Type} `{Client R}.

(** X5. [publish_alias] under an alias name: it looks the alias up and
    then, when the alias is absent, creates it on the version of the
    function record; when the alias is there on that version and under that
    name, calls nothing more and returns its Arn; and otherwise updates it
    to that version. A failure of the lookup other than not-found is raised
    with nothing created or updated. *)
Theorem publish_alias_diff (func_data : dict) (alias_name : option string)
    (a func_name : string) (version : pyval) (w : world R)
    (lookup : result dict) (s : R) :
  nonempty alias_name = Some a ->
  func_data !! "FunctionName" = Some (VStr func_name) ->
  func_data !! "Version" = Some version ->
  invoke _ (get_alias func_name a) (remote w) = (lookup, s) ->
  match lookup with
  | Raise e =>
      if is_not_found e
      then calls (LambdaManager.publish_alias func_data alias_name w)
           = [Called (get_alias func_name a);
              Called (create_alias func_name a version)]
           /\ value (LambdaManager.publish_alias func_data alias_name w)
              = rbind (fst (invoke _ (create_alias func_name a version) s))
                  (fun alias_result => getitem alias_result "AliasArn")
      else LambdaManager.publish_alias func_data alias_name w
           = Outcome (Raise e) (World s (uuids w)) [Called (get_alias func_name a)]
  | Ok found_alias =>
      forall found_version found_name,
        found_alias !! "FunctionVersion" = Some found_version ->
        found_alias !! "Name" = Some found_name ->
        if bool_decide (found_version = version /\ found_name = VStr a)
        then LambdaManager.publish_alias func_data alias_name w
             = Outcome (getitem found_alias "AliasArn") (World s (uuids w))
                 [Called (get_alias func_name a)]
        else calls (LambdaManager.publish_alias func_data alias_name w)
             = [Called (get_alias func_name a);
                Called (update_alias func_name a version)]
             /\ value (LambdaManager.publish_alias func_data alias_name w)
                = rbind (fst (invoke _ (update_alias func_name a version) s))
                    (fun alias_result => getitem alias_result "AliasArn")
  end.
Proof.
  intros Ha Hn Hv E.
  assert (Hput : forall (c : call dict) w1,
             remote w1 = s ->
             let o := (let! alias_result := do_call c in
                       lift (getitem alias_result "AliasArn")) w1 in
             calls o = [Called c]
             /\ value o = rbind (fst (invoke _ c s))
                            (fun alias_result => getitem alias_result "AliasArn")).
  { intros c [s0 n0] Hs o. simpl in Hs. subst s0 o.
    destruct (invoke _ c s) as [[r|e] s'] eqn:Ec.
    - erewrite bind_call_ok by (simpl; exact Ec). split; reflexivity.
    - erewrite bind_call_raise by (simpl; exact Ec). split; reflexivity. }
  assert (Hstart : forall k : pyval -> pyval -> M (world R) pyval,
             (let! func_name0 := lift (getitem func_data "FunctionName") in
              let! func_version := lift (getitem func_data "Version") in
              k func_name0 func_version) w
             = k (VStr func_name) version w).
  { intros k. rewrite (getitem_some _ _ _ Hn), bind_lift_ok.
    rewrite (getitem_some _ _ _ Hv), bind_lift_ok. reflexivity. }
  unfold LambdaManager.publish_alias. rewrite Ha. cbv beta iota.
  destruct lookup as [found_alias|e].
  - intros found_version found_name Hfv Hfn.
    rewrite Hstart. rewrite (bind_lookup _ _ _ _ _ E).
    rewrite (getitem_some _ _ _ Hfv), bind_lift_ok.
    destruct (bool_decide (found_version = version)) eqn:Dv.
    + apply bool_decide_eq_true in Dv. subst found_version. cbv beta iota.
      rewrite (getitem_some _ _ _ Hfn), bind_assoc, bind_lift_ok, bind_ret.
      destruct (bool_decide (found_name = VStr a)) eqn:Dn.
      * apply bool_decide_eq_true in Dn. cbv beta iota.
        rewrite bool_decide_eq_true_2 by auto. reflexivity.
      * apply bool_decide_eq_false in Dn. cbv beta iota.
        rewrite bool_decide_eq_false_2 by tauto.
        destruct (Hput (update_alias func_name a version) (World s (uuids w)) eq_refl)
          as [Hc Hval].
        unfold prepend. simpl. simpl in Hc, Hval. rewrite Hc, Hval. split; reflexivity.
    + apply bool_decide_eq_false in Dv. cbv beta iota.
      rewrite bind_ret. cbv beta iota. rewrite bool_decide_eq_false_2 by tauto.
      destruct (Hput (update_alias func_name a version) (World s (uuids w)) eq_refl)
        as [Hc Hval].
      unfold prepend. simpl. simpl in Hc, Hval. rewrite Hc, Hval. split; reflexivity.
  - rewrite Hstart. rewrite (bind_lookup _ _ _ _ _ E).
    destruct (is_not_found e); [|reflexivity].
    destruct (Hput (create_alias func_name a version) (World s (uuids w)) eq_refl)
      as [Hc Hval].
    unfold prepend. simpl. simpl in Hc, Hval. rewrite Hc, Hval. split; reflexivity.
Qed.
End ManagerMore.

Section ManagerPaths.
Context `{Host} {R : Type} `{Client R}.

Lemma role_given_passes (func : LambdaFunction) (role_arg : option string) :
  role_given func role_arg ->
  exists r, match role func with "" => nonempty role_arg | r0 => Some r0 end
            = Some r.
Proof.
  intros [Hr|Hr]; destruct (role func) as [|c r0] eqn:E.
  - contradiction.
  - eauto.
  - destruct (nonempty role_arg) as [r|]; [eauto | contradiction].
  - eauto.
Qed.

(** X6. A first deploy: when the lookup finds no function and
    [_create_or_update] completes, it has created the function in one call,
    with the derived configuration, asking for a published version. Without
    an upload location the code goes along as the bytes of the archive and
    the lookup and the create are the only calls; with one, the archive is
    uploaded first, under the key prefix followed by the function's name,
    and the create refers to that object. *)
Theorem create_when_absent (func : LambdaFunction)
    (role_arg s3_uri qualifier : option string) (w : world R)
    (e : exn) (s : R) (result : dict) :
  invoke _ (get_function (name func) (nonempty qualifier)) (remote w) = (Raise e, s) ->
  is_not_found e = true ->
  value (LambdaManager._create_or_update func role_arg s3_uri qualifier w) = Ok result ->
  exists archive,
    get_archive func = Ok archive
    /\ (nonempty s3_uri = None ->
        exists bytes,
          PythonPackageArchive.get_bytes archive = Ok bytes
          /\ calls (LambdaManager._create_or_update func role_arg s3_uri qualifier w)
             = [Called (get_function (name func) (nonempty qualifier));
                Called (create_function (list_to_map (LambdaFunction.get_config func))
                          true (CodeZipFile bytes))]
          /\ fst (invoke _ (create_function (list_to_map (LambdaFunction.get_config func))
                              true (CodeZipFile bytes)) s) = Ok result)
    /\ (forall uri scheme bucket key_prefix,
          nonempty s3_uri = Some uri ->
          parse_s3 uri = (scheme, bucket, key_prefix) ->
          exists filename,
            PythonPackageArchive.path archive = Ok filename
            /\ calls (LambdaManager._create_or_update func role_arg s3_uri qualifier w)
               = [Called (get_function (name func) (nonempty qualifier));
                  Called (upload_file filename bucket (key_prefix +:+ "/" +:+ name func));
                  Called (create_function (list_to_map (LambdaFunction.get_config func))
                            true (CodeS3 bucket (key_prefix +:+ "/" +:+ name func)))]).
Proof.
  intros E Hnf. unfold LambdaManager._create_or_update.
  set (conf := list_to_map (LambdaFunction.get_config func)). clearbody conf.
  match goal with
  | |- context [match ?x with Some _ => _ | None => raise _ end] => destruct x
  end; [|raised].
  destruct (get_archive func) as [archive|e0]; [|raised].
  rewrite bind_lift_ok. unfold LambdaManager.get.
  rewrite (bind_lookup _ _ _ _ _ E), Hnf.
  rewrite prepend_value, prepend_calls.
  destruct (nonempty s3_uri) as [uri|].
  - unfold LambdaManager._upload_func.
    destruct (parse_s3 uri) as [[scheme bucket] key_prefix] eqn:Ep.
    rewrite !bind_assoc.
    destruct (PythonPackageArchive.path archive) as [filename|e0] eqn:Epath; [|raised].
    rewrite bind_lift_ok. rewrite !bind_assoc.
    destruct (invoke _ (upload_file filename bucket (key_prefix +:+ "/" +:+ name func)) s)
      as [[u|e0] s1] eqn:E1.
    + erewrite bind_call_ok by (simpl; exact E1).
      rewrite prepend_value, prepend_calls, bind_ret, bind_ret.
      intros Hv. exists archive. split; [reflexivity|]. split; [discriminate|].
      intros uri' scheme' bucket' key_prefix' [= <-] Hp.
      rewrite Ep in Hp. injection Hp as <- <- <-.
      exists filename. split; [first [reflexivity | exact Epath]|].
      unfold do_call. simpl. destruct (invoke _ _ s1). reflexivity.
    + erewrite bind_call_raise by (simpl; exact E1). raised.
  - rewrite !bind_assoc.
    destruct (PythonPackageArchive.get_bytes archive) as [bytes|e0] eqn:Ebytes; [|raised].
    rewrite bind_lift_ok, bind_ret.
    unfold do_call. simpl.
    destruct (invoke _ (create_function _ true (CodeZipFile bytes)) s) as [r s1] eqn:E1.
    simpl. intros ->. exists archive. split; [reflexivity|]. split; [|discriminate].
    intros _. exists bytes. split; [first [reflexivity | exact Ebytes]|].
    split; [reflexivity | rewrite E1; reflexivity].
Qed.

(** X7. Whatever [_create_or_update] goes on to do, every call that sends
    code, the create as well as the code update, names the function, asks
    for a published version and refers to the same code: the bytes of the
    archive when no upload location is given, the uploaded object when one
    is. *)
Theorem code_reference_passed (func : LambdaFunction)
    (role_arg s3_uri qualifier : option string) (w : world R)
    (archive : PythonPackageArchive) :
  get_archive func = Ok archive ->
  (nonempty s3_uri = None ->
   forall bytes, PythonPackageArchive.get_bytes archive = Ok bytes ->
     Forall (carries_code func (CodeZipFile bytes))
       (calls (LambdaManager._create_or_update func role_arg s3_uri qualifier w)))
  /\ (forall uri scheme bucket key_prefix,
        nonempty s3_uri = Some uri ->
        parse_s3 uri = (scheme, bucket, key_prefix) ->
        Forall (carries_code func (CodeS3 bucket (key_prefix +:+ "/" +:+ name func)))
          (calls (LambdaManager._create_or_update func role_arg s3_uri qualifier w))).
Proof.
  intros Ha.
  assert (Hrest : forall code lfunc,
    only (W:=world R) (carries_code func code)
      (match lfunc with
       | Found lfunc =>
           let result := Configuration lfunc in
           let! sum := lift (PythonPackageArchive.get_checksum archive) in
           let! sha := lift (getitem (Configuration lfunc) "CodeSha256") in
           let! result :=
             if bool_decide (VStr sum ≠ sha)
             then do_call (update_function_code (name func) true code)
             else ret result in
           let! changed := lift (LambdaManager.delta_function lfunc func) in
           if truthy changed
           then do_call (update_function_configuration
                           (list_to_map (LambdaFunction.get_config func)))
           else ret result
       | PyFalse =>
           do_call (create_function
                      (list_to_map (LambdaFunction.get_config func)) true code)
       end)).
  { intros code [lfunc|]; cbv zeta; only_calls;
      apply only_call; repeat split. }
  split.
  - intros Hn bytes Hb.
    unfold LambdaManager._create_or_update. rewrite Ha, Hn.
    match goal with
    | |- context [match ?x with Some _ => _ | None => raise _ end] => destruct x
    end; [|constructor].
    rewrite bind_lift_ok, Hb. revert w.
    apply only_bind; [unfold LambdaManager.get; only_calls|]. intros lfunc w.
    rewrite bind_assoc, bind_lift_ok, bind_ret. apply Hrest.
  - intros uri scheme bucket key_prefix Hn Hp.
    unfold LambdaManager._create_or_update, LambdaManager._upload_func.
    rewrite Ha, Hn, Hp.
    match goal with
    | |- context [match ?x with Some _ => _ | None => raise _ end] => destruct x
    end; [|constructor].
    rewrite bind_lift_ok. revert w.
    apply only_bind; [unfold LambdaManager.get; only_calls|]. intros lfunc w.
    rewrite !bind_assoc.
    destruct (PythonPackageArchive.path archive) as [filename|e0].
    + rewrite bind_lift_ok, !bind_assoc. revert w.
      apply only_bind; [apply only_call; exact I|]. intros _ w.
      rewrite bind_ret, bind_ret. apply Hrest.
    + rewrite bind_lift_raise. constructor.
Qed.

(** X8. [_create_or_update] fails before it changes anything when there is
    no role, when the archive cannot be built, and when the lookup fails
    with anything but not-found: without a role it raises an assertion
    error and calls nothing; with the archive failing it raises that error
    and calls nothing; and a failed lookup is the only call issued, its
    error raised as it is. *)
Theorem create_or_update_fails_fast (func : LambdaFunction)
    (role_arg s3_uri qualifier : option string) (w : world R) :
  (role func = "" -> nonempty role_arg = None ->
     LambdaManager._create_or_update func role_arg s3_uri qualifier w
     = Outcome (Raise (AssertionError "Lambda function role must be specified")) w [])
  /\ (forall e, role_given func role_arg -> get_archive func = Raise e ->
        LambdaManager._create_or_update func role_arg s3_uri qualifier w
        = Outcome (Raise e) w [])
  /\ (forall archive e s,
        role_given func role_arg -> get_archive func = Ok archive ->
        invoke _ (get_function (name func) (nonempty qualifier)) (remote w)
        = (Raise e, s) ->
        is_not_found e = false ->
        LambdaManager._create_or_update func role_arg s3_uri qualifier w
        = Outcome (Raise e) (World s (uuids w))
            [Called (get_function (name func) (nonempty qualifier))]).
Proof.
  unfold LambdaManager._create_or_update. split; [|split].
  - intros -> ->. reflexivity.
  - intros e Hr Ha. destruct (role_given_passes _ _ Hr) as [r ->].
    rewrite Ha. reflexivity.
  - intros archive e s Hr Ha E Hnf. destruct (role_given_passes _ _ Hr) as [r ->].
    rewrite Ha, bind_lift_ok. unfold LambdaManager.get.
    rewrite (bind_lookup _ _ _ _ _ E), Hnf. reflexivity.
Qed.
End ManagerPaths.

(** ** Substrings *)

Lemma substring_prefix (a hay : string) :
  substring 0 (String.length a) hay = a -> exists after, hay = a +:+ after.
Proof.
  revert hay. induction a as [|c a IH]; intros hay; simpl.
  - intros _. now exists hay.
  - destruct hay as [|c' hay]; simpl; [discriminate|].
    intros [= -> E]. destruct (IH _ E) as [after ->]. now exists after.
Qed.

Lemma substring_occurs (a hay : string) (m : nat) :
  substring m (String.length a) hay = a -> occurs_in a hay.
Proof.
  revert hay. induction m as [|m IH]; intros hay E.
  - destruct (substring_prefix _ _ E) as [after ->]. now exists "", after.
  - destruct hay as [|c hay].
    + simpl in E. subst a. now exists "", "".
    + simpl in E. destruct (IH _ E) as (before & after & ->).
      now exists (String c before), after.
Qed.

Lemma prefix_substring (a after : string) :
  substring 0 (String.length a) (a +:+ after) = a.
Proof.
  induction a as [|c a IH].
  - now destruct after.
  - change (String c (substring 0 (String.length a) (a +:+ after)) = String c a).
    now rewrite IH.
Qed.

Lemma occurs_substring (before a after : string) :
  substring (String.length before) (String.length a) (before +:+ a +:+ after) = a.
Proof.
  induction before as [|c before IH].
  - exact (prefix_substring a after).
  - exact IH.
Qed.

Lemma contains_occurs (needle hay : string) :
  CloudWatchEventSource.contains needle hay = true <-> occurs_in needle hay.
Proof.
  unfold CloudWatchEventSource.contains. split.
  - destruct (index 0 needle hay) as [m|] eqn:E; [|discriminate].
    intros _. apply (substring_occurs _ _ m). now apply index_correct1 with (n := 0%nat).
  - intros (before & after & ->).
    destruct (index 0 needle (before +:+ needle +:+ after)) as [m|] eqn:E; [reflexivity|].
    destruct needle as [|c needle].
    + exfalso. destruct (before +:+ "" +:+ after); simpl in E; discriminate.
    + exfalso.
      apply (index_correct3 0 (String.length before) _ _ E); [discriminate | | ].
      * apply Nat.le_0_l.
      * apply occurs_substring.
Qed.

Lemma scan_targets_acc (a : string) (targets : list Target) (found : bool) :
  CloudWatchEventSource.scan_targets (Some (VStr a)) targets found
  = Ok (found || existsb (fun t => CloudWatchEventSource.contains a (Arn t)) targets).
Proof.
  revert found. induction targets as [|t targets IH]; intros found; simpl.
  - now rewrite orb_false_r.
  - rewrite IH. f_equal.
    destruct (CloudWatchEventSource.contains a (Arn t)), found; reflexivity.
Qed.

(** X9. The test [add] makes on the targets of the rule: with a string as
    the function's alias, a target counts as found exactly when the alias
    occurs somewhere inside the Arn of one of the targets, an Arn that only
    extends the alias included; with no alias, or one that is no string,
    the test raises a type error at the first target, and finds nothing
    when there is no target. *)
Theorem target_found_by_substring (alias_arn : option pyval) (targets : list Target) :
  match alias_arn with
  | Some (VStr a) =>
      exists found,
        CloudWatchEventSource.scan_targets alias_arn targets false = Ok found
        /\ (found = true <-> Exists (fun t => occurs_in a (Arn t)) targets)
  | _ =>
      CloudWatchEventSource.scan_targets alias_arn targets false
      = match targets with
        | [] => Ok false
        | _ :: _ => Raise (TypeError "'in <string>' requires string as left operand")
        end
  end.
Proof.
  destruct alias_arn as [[n|a]|]; try (destruct targets; reflexivity).
  eexists. split; [apply scan_targets_acc|].
  rewrite orb_false_l. induction targets as [|t targets IH]; simpl.
  - rewrite Exists_nil. split; [discriminate | tauto].
  - rewrite Exists_cons, orb_true_iff, contains_occurs, IH. reflexivity.
Qed.

Section SourceMore.
Context `{Host} {R : Type} `{Client R}.

(** X10. The mode types an event source accepts are cloudtrail,
    ec2-instance-state, asg-instance-state and periodic. With any other
    type, or none, rendering the pattern raises a value error, and [add]
    raises it before it calls the service: nothing is looked up, nothing
    is changed. *)
Theorem unknown_mode_type_rejected (self : CloudWatchEventSource)
    (func : LambdaFunction) (w : world R) :
  is_ok (CloudWatchEventSource.render_event_pattern self)
  = existsb (CloudWatchEventSource.type_is (mode_type (data self))) known_types
  /\ (forall e, CloudWatchEventSource.render_event_pattern self = Raise e ->
        e = ValueError ("Unknown lambda event source type: "
                        +:+ default "None" (mode_type (data self)))
        /\ CloudWatchEventSource.add self func w = Outcome (Raise e) w []).
Proof.
  unfold CloudWatchEventSource.add, CloudWatchEventSource.render_event_pattern,
    CloudWatchEventSource.payload, known_types.
  cbn [existsb].
  destruct (CloudWatchEventSource.type_is (mode_type (data self)) "cloudtrail");
    [split; [reflexivity | discriminate]|].
  destruct (CloudWatchEventSource.type_is (mode_type (data self)) "ec2-instance-state");
    [split; [reflexivity | discriminate]|].
  destruct (CloudWatchEventSource.type_is (mode_type (data self)) "asg-instance-state");
    [split; [reflexivity | discriminate]|].
  destruct (CloudWatchEventSource.type_is (mode_type (data self)) "periodic");
    [split; [reflexivity | discriminate]|].
  split; [reflexivity|]. intros e [= <-]. split; reflexivity.
Qed.

Lemma rule_params_fields (self : CloudWatchEventSource) (func : LambdaFunction)
    (pattern : option string) :
  CloudWatchEventSource.rule_params self func pattern !! "State" = Some (VStr "ENABLED")
  /\ CloudWatchEventSource.rule_params self func pattern !! "ScheduleExpression"
     = VStr <$> nonempty (mode_schedule (data self))
  /\ CloudWatchEventSource.rule_params self func pattern !! "EventPattern"
     = VStr <$> nonempty pattern.
Proof.
  unfold CloudWatchEventSource.rule_params.
  destruct (nonempty (mode_schedule (data self))), (nonempty pattern);
    repeat split; simpl;
    repeat first [ rewrite lookup_insert_eq | rewrite lookup_insert_ne by discriminate
                 | rewrite lookup_empty ];
    reflexivity.
Qed.

(** X11. The rule [add] asks for: whenever [add] writes the rule, the
    rule is named after the function, is enabled, carries the schedule of
    the mode exactly when the mode has a non-empty one, and carries no
    event pattern when the mode is periodic. *)
Theorem add_asks_for_enabled_rule (self : CloudWatchEventSource)
    (func : LambdaFunction) (w : world R) :
  Forall (asks_for_rule self func) (calls (CloudWatchEventSource.add self func w)).
Proof.
  revert w. change (only (asks_for_rule self func) (CloudWatchEventSource.add self func)).
  assert (Hput : forall pattern,
    CloudWatchEventSource.render_event_pattern self = Ok pattern ->
    only (W:=world R) (asks_for_rule self func)
      (do_call (put_rule (CloudWatchEventSource.rule_params self func pattern)))).
  { intros pattern Hp. apply only_call. cbn [asks_for_rule].
    destruct (rule_params_fields self func pattern) as (Hs & Hsch & Hpat).
    split; [apply rule_params_name|]. split; [exact Hs|]. split; [exact Hsch|].
    intros Hper. rewrite Hpat.
    revert Hp. unfold CloudWatchEventSource.render_event_pattern,
      CloudWatchEventSource.payload.
    destruct (mode_type (data self)) as [t|]; [|discriminate].
    simpl in Hper. apply String.eqb_eq in Hper. subst t.
    simpl. now intros [= <-]. }
  unfold CloudWatchEventSource.add.
  destruct (CloudWatchEventSource.render_event_pattern self) as [pattern|e] eqn:Ep.
  - intros w. rewrite bind_lift_ok. revert w.
    cbv zeta. unfold CloudWatchEventSource.get.
    apply only_bind; [only_calls|]. intros rule.
    apply only_bind.
    + destruct rule as [rule|]; [destruct (CloudWatchEventSource.delta _ _)|];
        first [apply only_ret | now apply Hput].
    + intros _. only_calls.
  - intros w. rewrite bind_lift_raise. constructor.
Qed.
End SourceMore.

(** ** What [add] returns *)

Lemma existsb_contains (a : string) (targets : list Target) :
  existsb (fun t => CloudWatchEventSource.contains a (Arn t)) targets = true
  <-> Exists (fun t => occurs_in a (Arn t)) targets.
Proof.
  induction targets as [|t targets IH]; simpl.
  - rewrite Exists_nil. split; [discriminate | tauto].
  - rewrite Exists_cons, orb_true_iff, contains_occurs, IH. reflexivity.
Qed.

Lemma scan_found_iff (alias_arn : option pyval) (response : list Target) (found : bool) :
  CloudWatchEventSource.scan_targets alias_arn response false = Ok found ->
  (found = true
   <-> exists a, alias_arn = Some (VStr a)
                 /\ Exists (fun t => occurs_in a (Arn t)) response).
Proof.
  destruct alias_arn as [[n|a]|].
  - destruct response; simpl; [|discriminate]. intros [= <-].
    split; [discriminate | intros (a & [=] & _)].
  - rewrite scan_targets_acc, orb_false_l. intros [= <-].
    rewrite existsb_contains. split.
    + intros Hex. now exists a.
    + now intros (a' & [= <-] & Hex).
  - destruct response; simpl; [|discriminate]. intros [= <-].
    split; [discriminate | intros (a & [=] & _)].
Qed.

Section Bind.
Context `{Host} {R : Type} `{Client R}.

Lemma add_halves (self : CloudWatchEventSource) (func : LambdaFunction) (w : world R) :
  CloudWatchEventSource.add self func w = (rule_step self func ;;; target_step func) w.
Proof.
  unfold CloudWatchEventSource.add, rule_step, target_step.
  rewrite bind_assoc.
  destruct (CloudWatchEventSource.render_event_pattern self) as [pattern|e];
    [|reflexivity].
  rewrite !bind_lift_ok. cbv zeta. now rewrite bind_assoc.
Qed.

Lemma rule_step_puts_no_target (self : CloudWatchEventSource) (func : LambdaFunction) :
  only (W:=world R) (fun e => is_put_targets e = false) (rule_step self func).
Proof. unfold rule_step, CloudWatchEventSource.get. only_calls. Qed.

(** C8, as the code has it. When [add] completes, the rule half is done
    and the targets of the rule were listed. It returns [None], which is
    falsy, if and only if the alias of the function occurs in the Arn of
    one of the targets listed, and then it issues no call after the
    listing, whether or not it created or updated the rule on the way:
    what it wrote is what the rule half wrote. It returns [True] if and
    only if it added a target with [put_targets]. *)
Theorem add_true_iff_target_added (self : CloudWatchEventSource)
    (func : LambdaFunction) (w : world R) (r : true_or_none) :
  value (CloudWatchEventSource.add self func w) = Ok r ->
  exists response s,
    value (rule_step self func w) = Ok tt
    /\ invoke _ (list_targets_by_rule (name func))
         (remote (final (rule_step self func w))) = (Ok response, s)
    /\ (r = PyNone
        <-> exists a, alias func = Some (VStr a)
                      /\ Exists (fun t => occurs_in a (Arn t)) response)
    /\ (r = PyTrue
        <-> Exists (fun e => is_put_targets e = true)
              (calls (CloudWatchEventSource.add self func w)))
    /\ (r = PyNone ->
        calls (CloudWatchEventSource.add self func w)
        = calls (rule_step self func w) ++ [Called (list_targets_by_rule (name func))])
    /\ (truthy r = true <-> r = PyTrue).
Proof.
  rewrite add_halves, bind_value, bind_calls.
  pose proof (rule_step_puts_no_target self func w) as Hquiet.
  set (o1 := rule_step self func w) in *.
  destruct (value o1) as [[]|e]; [|discriminate].
  pose proof (target_step_run func (final o1)) as T.
  remember (target_step func (final o1)) as o2 eqn:Eo. clear Eo.
  assert (Hno : forall l, Exists (fun e => is_put_targets e = true) (calls o1 ++ l)
                          <-> Exists (fun e => is_put_targets e = true) l).
  { intros l. rewrite Exists_app. split; [|now right].
    intros [Hex|Hex]; [|exact Hex]. exfalso.
    apply Exists_exists in Hex as (e & Hin & He).
    rewrite Forall_forall in Hquiet. rewrite (Hquiet e Hin) in He. discriminate. }
  destruct T as [e s E|response e s E Es|response s E Es|response s r0 s' E Es E2];
    simpl; try discriminate.
  - intros [= <-]. exists response, s.
    apply scan_found_iff in Es. destruct Es as [Hfound _].
    split; [reflexivity|]. split; [exact E|]. split; [|split; [|split]].
    + split; [intros _; now apply Hfound | reflexivity].
    + rewrite Hno. split; [discriminate|].
      intros Hex. apply Exists_cons in Hex as [Hex|Hex]; [discriminate|].
      now apply Exists_nil in Hex.
    + reflexivity.
    + simpl. split; discriminate.
  - destruct r0 as [u|e]; [|discriminate]. intros [= <-]. exists response, s.
    apply scan_found_iff in Es. destruct Es as [_ Hfound].
    split; [reflexivity|]. split; [exact E|]. split; [|split; [|split]].
    + split; [discriminate|]. intros Hex. discriminate (Hfound Hex).
    + rewrite Hno. split; [|reflexivity].
      intros _. right. now left.
    + discriminate.
    + simpl. split; reflexivity.
Qed.
End Bind.

Section PolicyFunctions.
Context `{Host} {R : Type} `{Client R}.

Lemma rule_calls_on_name (self : CloudWatchEventSource) (func : LambdaFunction) :
  CloudWatchEventSource._make_notification_id self (name func) = name func ->
  only (W:=world R) (on_rule_named (name func)) (CloudWatchEventSource.add self func)
  /\ only (W:=world R) (on_rule_named (name func)) (CloudWatchEventSource.remove self func)
  /\ only (W:=world R) (on_rule_named (name func)) (CloudWatchEventSource.pause self func)
  /\ only (W:=world R) (on_rule_named (name func)) (CloudWatchEventSource.resume self func).
Proof.
  intros Hid.
  assert (Hput : forall pattern,
    only (W:=world R) (on_rule_named (name func))
      (do_call (put_rule (CloudWatchEventSource.rule_params self func pattern)))).
  { intros pattern. apply only_call. unfold on_rule_named, rule_of.
    now rewrite rule_params_name. }
  unfold CloudWatchEventSource.add, CloudWatchEventSource.remove,
    CloudWatchEventSource.pause, CloudWatchEventSource.resume,
    CloudWatchEventSource.get.
  rewrite Hid. split; [|split; [|split]].
  - apply only_bind; [apply only_lift|]. intros pattern. cbv zeta.
    apply only_bind; [only_calls|]. intros rule.
    apply only_bind.
    + destruct rule as [rule|]; [destruct (CloudWatchEventSource.delta _ _)|];
        first [apply only_ret | apply Hput].
    + intros _. only_calls.
  - only_calls.
  - only_calls.
  - only_calls.
Qed.

(** X12. A policy function is named after its policy, maid- followed by
    the policy's name, so two policies share a function only when they
    share their name; its one event source carries the same prefix, so the
    rule is looked up under the function's own name; and every call that
    [add], [remove], [pause] and [resume] of that event source issue for
    the policy function names that one rule. *)
Theorem policy_rule_named_after_function (pl other : PolicyLambda) (w : world R) :
  (PolicyLambda.name pl = PolicyLambda.name other ->
   policy_name (policy pl) = policy_name (policy other))
  /\ (forall es, In es (PolicyLambda.get_events pl) ->
        CloudWatchEventSource._make_notification_id es (PolicyLambda.name pl)
        = PolicyLambda.name pl
        /\ Forall (on_rule_named (PolicyLambda.name pl))
             (calls (CloudWatchEventSource.add es (PolicyLambda.as_function pl) w)
              ++ calls (CloudWatchEventSource.remove es (PolicyLambda.as_function pl) w)
              ++ calls (CloudWatchEventSource.pause es (PolicyLambda.as_function pl) w)
              ++ calls (CloudWatchEventSource.resume es (PolicyLambda.as_function pl) w))).
Proof.
  split.
  - unfold PolicyLambda.name. intros E.
    change (String.append "maid-" (policy_name (policy pl))
            = String.append "maid-" (policy_name (policy other))) in E.
    cbn [String.append] in E. now injection E.
  - intros es [<-|[]].
    assert (Hid : CloudWatchEventSource._make_notification_id
                    (CloudWatchEventSource.__init__ (policy_mode (policy pl)) None)
                    (PolicyLambda.name pl) = PolicyLambda.name pl).
    { apply make_notification_id_fixed. apply (prefix_app "maid-"). }
    split; [exact Hid|].
    destruct (rule_calls_on_name
                (CloudWatchEventSource.__init__ (policy_mode (policy pl)) None)
                (PolicyLambda.as_function pl) Hid) as (Ha & Hr & Hp & Hs).
    rewrite !Forall_app. repeat split; [apply Ha | apply Hr | apply Hp | apply Hs].
Qed.

Lemma bind_run_ok {W A B} (m : M W A) (k : A -> M W B) (w : W) (a : A) :
  value (m w) = Ok a ->
  bind m k w
  = Outcome (value (k a (final (m w)))) (final (k a (final (m w))))
      (calls (m w) ++ calls (k a (final (m w)))).
Proof. intros E. unfold bind. now rewrite E. Qed.

Lemma bind_run_raise {W A B} (m : M W A) (k : A -> M W B) (w : W) (e : exn) :
  value (m w) = Raise e ->
  bind m k w = Outcome (Raise e) (final (m w)) (calls (m w)).
Proof. intros E. unfold bind. now rewrite E. Qed.

Lemma for_each_first_raises {W A} (x : A) (xs : list A) (body : A -> M W unit)
    (w : W) (e : exn) :
  body x w = Outcome (Raise e) w [] ->
  for_each (x :: xs) body w = Outcome (Raise e) w [].
Proof. intros E. simpl. unfold bind. now rewrite E. Qed.

(** X13. [publish] checks the mode of the event source only after the
    function is deployed: when the first event source of the function has
    a mode type that cannot be rendered and no alias is asked for, the
    calls of [_create_or_update] are all issued, the function is created or
    updated by them, and only then [publish] raises the error of the
    rendering, with no call on any rule. *)
Theorem publish_rejects_mode_after_deploy (func : LambdaFunction)
    (alias_name role_arg s3_uri : option string) (w : world R)
    (result : dict) (es : CloudWatchEventSource) (rest : list CloudWatchEventSource)
    (e : exn) :
  value (LambdaManager._create_or_update func role_arg s3_uri alias_name w) = Ok result ->
  nonempty alias_name = None ->
  get_events func = es :: rest ->
  CloudWatchEventSource.render_event_pattern es = Raise e ->
  value (LambdaManager.publish func alias_name role_arg s3_uri w) = Raise e
  /\ calls (LambdaManager.publish func alias_name role_arg s3_uri w)
     = calls (LambdaManager._create_or_update func role_arg s3_uri alias_name w)
  /\ final (LambdaManager.publish func alias_name role_arg s3_uri w)
     = final (LambdaManager._create_or_update func role_arg s3_uri alias_name w).
Proof.
  intros Hv Hn Hev Hr.
  set (o := LambdaManager._create_or_update func role_arg s3_uri alias_name w) in *.
  assert (Hadd : forall w0,
    (CloudWatchEventSource.add es func ;;; ret tt) w0 = Outcome (Raise e) w0 []).
  { intros w0. unfold CloudWatchEventSource.add. rewrite Hr.
    rewrite bind_assoc, bind_lift_raise. reflexivity. }
  assert (Hpub : LambdaManager.publish func alias_name role_arg s3_uri w
                 = Outcome (Raise e) (final o) (calls o)).
  { unfold LambdaManager.publish. rewrite Hn.
    rewrite (bind_run_ok _ _ _ _ Hv). fold o.
    rewrite bind_ret, Hev.
    pose proof (for_each_first_raises es rest
                  (fun e0 => CloudWatchEventSource.add e0 func ;;; ret tt)
                  (final o) e (Hadd _)) as Hfor.
    rewrite (bind_run_raise _ _ _ e) by (now rewrite Hfor).
    rewrite Hfor. simpl. now rewrite app_nil_r. }
  rewrite Hpub. auto.
Qed.

(** X14. [delta_function] reads every key of the derived configuration
    in the remote record until one differs: it returns when the record
    holds all seven keys, and when it raises, it raises a key error for a
    key of the configuration that the record lacks. *)
Theorem delta_function_needs_remote_keys (lambda_func : lfunc) (func : LambdaFunction) :
  ((forall k, In k (map fst (LambdaFunction.get_config func)) ->
      is_Some (Configuration lambda_func !! k)) ->
   is_ok (LambdaManager.delta_function lambda_func func) = true)
  /\ (forall e, LambdaManager.delta_function lambda_func func = Raise e ->
        exists k, e = KeyError k
                  /\ In k (map fst (LambdaFunction.get_config func))
                  /\ Configuration lambda_func !! k = None).
Proof.
  unfold LambdaManager.delta_function.
  generalize (LambdaFunction.get_config func) as conf.
  generalize (Configuration lambda_func) as configuration.
  intros configuration conf. split.
  - induction conf as [|[k v] conf IH]; simpl; [reflexivity|].
    intros Hall. destruct (Hall k (or_introl eq_refl)) as [r ->].
    destruct (bool_decide (v ≠ r)); [reflexivity|].
    apply IH. intros k' Hk'. apply Hall. now right.
  - induction conf as [|[k v] conf IH]; simpl; [discriminate|].
    intros e. destruct (configuration !! k) as [r|] eqn:Ek.
    + destruct (bool_decide (v ≠ r)); [discriminate|].
      intros He. destruct (IH e He) as (k' & -> & Hin & Hk').
      exists k'. auto.
    + intros [= <-]. exists k. auto.
Qed.
End PolicyFunctions.

(** ** The archive, further *)

Section ArchiveMore.
Context `{Host}.

(** What [create] gathers depends on where the archive looks and on its
    filters, not on what the object held before. *)
Lemma create_again (a b : PythonPackageArchive) (a' : PythonPackageArchive) :
  src_path b = src_path a -> virtualenv_dir b = virtualenv_dir a ->
  lib_filter b = lib_filter a -> src_filter b = src_filter a -> skip b = skip a ->
  _temp_archive_file b = None ->
  PythonPackageArchive.create a = Ok a' ->
  exists b', PythonPackageArchive.create b = Ok b'
             /\ _closed b' = _closed b /\ _zip_file b' = _zip_file a'.
Proof.
  destruct a as [sp vd tf zf cl lf sf sk], b as [sp' vd' tf' zf' cl' lf' sf' sk'].
  simpl. intros -> -> -> -> -> ->.
  unfold PythonPackageArchive.create. simpl.
  destruct tf; [discriminate|].
  unfold PythonPackageArchive.src_body, PythonPackageArchive.lib_body,
    PythonPackageArchive.filter_files. simpl.
  match goal with
  | |- rbind ?x _ = _ -> _ => destruct x as [zf1|e]; simpl; [|discriminate]
  end.
  match goal with
  | |- rbind ?x _ = _ -> _ => destruct x as [zf2|e]; simpl; [|discriminate]
  end.
  intros [= <-]. eexists. split; [reflexivity|]. split; reflexivity.
Qed.

Lemma get_archive_steps (self : PolicyLambda) (a : PythonPackageArchive) :
  PolicyLambda.get_archive self = Ok a ->
  exists created zf t,
    PythonPackageArchive.create (archive self) = Ok created
    /\ _closed created = false
    /\ _zip_file created = Some zf
    /\ mode_type (policy_mode (policy self)) = Some t
    /\ a = {| src_path := src_path created;
              virtualenv_dir := virtualenv_dir created;
              _temp_archive_file := _temp_archive_file created;
              _zip_file :=
                Some (ZipFile_writestr
                        (ZipFile_writestr zf (Info (zinfo "config.json"))
                           (json_dumps (JDict [("policies", JList [policy_data (policy self)])])))
                        (Info (zinfo "maid_policy.py"))
                        (PolicyHandlerTemplate (replace "-" "_" t)));
              _closed := true;
              lib_filter := lib_filter created;
              src_filter := src_filter created;
              skip := skip created |}.
Proof.
  unfold PolicyLambda.get_archive.
  destruct (PythonPackageArchive.create (archive self)) as [created|e]; simpl; [|discriminate].
  unfold PythonPackageArchive.add_contents at 1.
  destruct (_closed created) eqn:Ecl; simpl; [discriminate|].
  destruct (_zip_file created) as [zf|] eqn:Ez; simpl; [|discriminate].
  destruct (mode_type (policy_mode (policy self))) as [t|]; simpl; [|discriminate].
  intros [= <-]. exists created, zf, t. auto.
Qed.

Lemma created_has_file (a a' : PythonPackageArchive) :
  PythonPackageArchive.create a = Ok a' ->
  _temp_archive_file a = None
  /\ _temp_archive_file a' = Some tmpname
  /\ src_path a' = src_path a /\ virtualenv_dir a' = virtualenv_dir a
  /\ lib_filter a' = lib_filter a /\ src_filter a' = src_filter a /\ skip a' = skip a.
Proof.
  unfold PythonPackageArchive.create.
  destruct (_temp_archive_file a); [discriminate|].
  match goal with
  | |- rbind ?x _ = _ -> _ => destruct x as [zf1|e]; simpl; [|discriminate]
  end.
  match goal with
  | |- rbind ?x _ = _ -> _ => destruct x as [zf2|e]; simpl; [|discriminate]
  end.
  intros [= <-]. simpl. auto 10.
Qed.

(** X15. The archive [get_archive] hands out for a policy is ready to
    deploy: it is closed, it sits in the temporary file, its bytes can be
    read, its size is the length of those bytes and its checksum is the
    encoded hash of the same bytes; and its last entry is the handler
    module generated for the mode type of the policy, with the dashes of
    the type turned into underscores. *)
Theorem policy_archive_ready (self : PolicyLambda) (a : PythonPackageArchive) :
  PolicyLambda.get_archive self = Ok a ->
  _closed a = true
  /\ PythonPackageArchive.path a = Ok tmpname
  /\ (exists bytes,
        PythonPackageArchive.get_bytes a = Ok bytes
        /\ PythonPackageArchive.size a = Ok (String.length bytes)
        /\ PythonPackageArchive.get_checksum a
           = Ok (b64encode (checksum bytes sha256 default_blocksize)))
  /\ (exists t zf,
        mode_type (policy_mode (policy self)) = Some t
        /\ _zip_file a = Some zf
        /\ snd <$> last (filelist zf) = Some (PolicyHandlerTemplate (replace "-" "_" t))).
Proof.
  intros Ha. destruct (get_archive_steps _ _ Ha) as (created & zf & t & Hc & Hcl & Hz & Ht & ->).
  destruct (created_has_file _ _ Hc) as (_ & Htmp & _).
  split; [reflexivity|].
  unfold PythonPackageArchive.path, PythonPackageArchive.get_bytes,
    PythonPackageArchive.size, PythonPackageArchive.get_checksum,
    PythonPackageArchive.temp_file_bytes.
  simpl. rewrite Htmp. simpl.
  split; [reflexivity|]. split.
  - eexists. split; [reflexivity|]. split; reflexivity.
  - exists t. eexists. split; [exact Ht|]. split; [reflexivity|].
    simpl. now rewrite last_snoc.
Qed.

(** X16. The archive of a policy function is built once. Asking the same
    policy function for its archive a second time raises, for the archive
    is already created; and after the archive is disposed of with
    [remove], asking again gathers the files anew but raises at the first
    in-memory entry, for the archive stays closed. *)
Theorem policy_archive_built_once (self : PolicyLambda) (a : PythonPackageArchive) :
  PolicyLambda.get_archive self = Ok a ->
  PolicyLambda.get_archive {| policy := policy self; archive := a |}
  = Raise (AssertionError "Archive already created")
  /\ PolicyLambda.get_archive
       {| policy := policy self; archive := PythonPackageArchive.remove a |}
     = Raise (AssertionError "Archive closed")
  /\ is_ok (PythonPackageArchive.create (PythonPackageArchive.remove a)) = true.
Proof.
  intros Ha. destruct (get_archive_steps _ _ Ha) as (created & zf & t & Hc & Hcl & Hz & Ht & ->).
  destruct (created_has_file _ _ Hc) as (_ & Htmp & Hsp & Hvd & Hlf & Hsf & Hsk).
  split.
  - unfold PolicyLambda.get_archive, PythonPackageArchive.create. simpl.
    now rewrite Htmp.
  - match goal with
    | |- context [PythonPackageArchive.remove ?x] =>
        destruct (create_again (archive self) (PythonPackageArchive.remove x) created)
          as (b' & Hb & Hbcl & _); simpl; auto
    end.
    unfold PolicyLambda.get_archive. cbn [archive policy]. rewrite Hb.
    split; [|reflexivity].
    simpl. unfold PythonPackageArchive.add_contents at 1. simpl in Hbcl.
    now rewrite Hbcl.
Qed.

(** X17. An archive disposed of with [remove] has no file any more:
    asking for its path raises an attribute error, and so does asking a
    closed one for its size, its bytes or its checksum; the closed flag is
    kept, and disposing twice changes nothing more. *)
Theorem removed_archive_unreadable (a : PythonPackageArchive) :
  PythonPackageArchive.path (PythonPackageArchive.remove a)
  = Raise (AttributeError "'NoneType' object has no attribute 'name'")
  /\ (_closed a = true ->
      PythonPackageArchive.size (PythonPackageArchive.remove a)
      = Raise (AttributeError "'NoneType' object has no attribute 'name'")
      /\ PythonPackageArchive.get_bytes (PythonPackageArchive.remove a)
         = Raise (AttributeError "'NoneType' object has no attribute 'name'")
      /\ PythonPackageArchive.get_checksum (PythonPackageArchive.remove a)
         = Raise (AttributeError "'NoneType' object has no attribute 'name'"))
  /\ _closed (PythonPackageArchive.remove a) = _closed a
  /\ PythonPackageArchive.remove (PythonPackageArchive.remove a)
     = PythonPackageArchive.remove a.
Proof.
  split; [reflexivity|]. split; [|split; reflexivity].
  intros Hc.
  unfold PythonPackageArchive.size, PythonPackageArchive.get_bytes,
    PythonPackageArchive.get_checksum, PythonPackageArchive.temp_file_bytes.
  simpl. rewrite Hc. simpl. auto.
Qed.
End ArchiveMore.

(** ** The checksum *)

Lemma substring_whole (s : string) : substring 0 (String.length s) s = s.
Proof. induction s as [|c s IH]; simpl; [reflexivity | now rewrite IH]. Qed.

Lemma substring_split (n : nat) (s : string) :
  substring 0 n s +:+ substring n (String.length s - n) s = s.
Proof.
  revert s. induction n as [|n IH]; intros s.
  - rewrite Nat.sub_0_r, substring_whole. now destruct s.
  - destruct s as [|c s]; [reflexivity|].
    change (String c (substring 0 n s +:+ substring n (String.length s - n) s)
            = String c s).
    now rewrite IH.
Qed.

Lemma substring_length_le (n m : nat) (s : string) :
  (String.length (substring n m s) <= m)%nat.
Proof.
  revert n m. induction s as [|c s IH]; intros n m.
  - destruct n, m; simpl; lia.
  - destruct n as [|n]; simpl.
    + destruct m as [|m]; simpl; [lia|]. specialize (IH 0%nat m). lia.
    + apply IH.
Qed.

Lemma empty_read (blocksize : nat) (s : string) :
  (0 < blocksize)%nat ->
  String.length (substring 0 blocksize s) = 0%nat -> s = "".
Proof.
  destruct blocksize as [|n]; [lia|]. intros _.
  destruct s; [reflexivity | discriminate].
Qed.

Section Checksum.
Context `{Host}.
(** [hashlib]: feeding a hasher two strings one after the other is feeding
    it the two put together. *)
Hypothesis update_streams :
  forall (h : hasher) (a b : string), update (update h a) b = update h (a +:+ b).

Lemma checksum_loop_feeds (fuel blocksize : nat) (rest : string) (h : hasher) :
  (0 < blocksize)%nat -> (String.length rest < fuel)%nat ->
  checksum_loop fuel blocksize rest h
  = match rest with "" => h | _ => update h rest end.
Proof.
  intros Hb. revert rest h. induction fuel as [|fuel IH]; intros rest h Hf; [lia|].
  simpl.
  destruct (String.length (substring 0 blocksize rest) =? 0)%nat eqn:E.
  - apply Nat.eqb_eq in E. now rewrite (empty_read _ _ Hb E).
  - apply Nat.eqb_neq in E.
    assert (Hne : rest <> "") by (intros ->; destruct blocksize; simpl in E; lia).
    pose proof (substring_length_le blocksize (String.length rest - blocksize) rest) as Hle.
    assert (Hlen : (0 < String.length rest)%nat)
      by (destruct rest; [congruence | simpl; lia]).
    rewrite IH by lia.
    pose proof (substring_split blocksize rest) as Hsplit.
    destruct (substring blocksize (String.length rest - blocksize) rest) as [|c tail] eqn:Et.
    + assert (Hall : substring 0 blocksize rest = rest).
      { rewrite <- Hsplit at 2. clear. induction (substring 0 blocksize rest) as [|c s IH];
          [reflexivity|]. change (String c s = String c (s +:+ "")). now rewrite <- IH. }
      rewrite Hall. destruct rest; [congruence | reflexivity].
    + rewrite update_streams, Hsplit. destruct rest; [congruence | reflexivity].
Qed.

(** X18. The checksum does not depend on the block size: with a hasher
    for which feeding two strings in turn is feeding them put together,
    [checksum] with any block size of at least one byte is the digest of
    the hasher fed the whole file once, and the digest of the untouched
    hasher for an empty file. With a block size of zero nothing is ever
    read, and the result is the digest of the untouched hasher whatever
    the file holds. *)
Theorem checksum_any_block_size (fh : string) (h : hasher) (blocksize : nat) :
  ((0 < blocksize)%nat ->
   checksum fh h blocksize = digest (match fh with "" => h | _ => update h fh end))
  /\ checksum fh h 0 = digest h.
Proof.
  unfold checksum. split.
  - intros Hb. rewrite checksum_loop_feeds by lia. reflexivity.
  - destruct fh; reflexivity.
Qed.
End Checksum.

(** ** What the archive gathers *)

Lemma walk_visits {A}
    (body : path -> list string -> list string -> A -> result (list string * A))
    (P : path -> Prop) (Q : A -> Prop) :
  (forall top dirs files acc dirs' acc',
      P top -> Q acc -> body top dirs files acc = Ok (dirs', acc') ->
      Q acc' /\ forall d, In d dirs' -> P (top ++ [d])) ->
  forall node top acc acc', P top -> Q acc -> walk body node top acc = Ok acc' -> Q acc'.
Proof.
  intros Hbody node.
  induction node as [m c | m entries IH] using fsnode_nested_ind;
    intros top acc acc' HP HQ; simpl.
  - intros [= <-]. exact HQ.
  - destruct (body top _ _ acc) as [[dirs' acc1]|e] eqn:Eb; [|discriminate].
    destruct (Hbody _ _ _ _ _ _ HP HQ Eb) as [HQ1 Hdirs]. clear Eb HQ acc.
    revert acc1 HQ1 Hdirs. induction dirs' as [|name rest IHr]; intros acc1 HQ1 Hdirs.
    + intros [= <-]. exact HQ1.
    + match goal with
      | |- context [match ?f entries with _ => _ end] =>
          destruct (f entries) as [acc2|e] eqn:Ef
      end; [|discriminate].
      intros Hd. apply (IHr acc2); [| |exact Hd].
      * clear Hd IHr. revert Ef.
        induction IH as [|[n child] es Hc _ IHes]; simpl.
        -- intros [= <-]. exact HQ1.
        -- destruct (String.eqb n name).
           ++ intros Hw. apply (Hc _ _ _ (Hdirs name (or_introl eq_refl)) HQ1 Hw).
           ++ exact IHes.
      * intros d Hin. apply Hdirs. now right.
Qed.

Lemma extends_with_refl (E : ZipInfo * string -> Prop) (zf : ZipFile) :
  extends_with (filelist zf) E zf.
Proof. exists []. split; [now rewrite app_nil_r | constructor]. Qed.

Lemma extends_with_impl (before : list (ZipInfo * string))
    (E E' : ZipInfo * string -> Prop) (zf : ZipFile) :
  (forall e, E e -> E' e) -> extends_with before E zf -> extends_with before E' zf.
Proof.
  intros Himp (added & Hf & Hall). exists added. split; [exact Hf|].
  eapply Forall_impl; eauto.
Qed.

Lemma written_entry_for (zf : ZipFile) (node : fsnode) (arcname : path) :
  exists e, filelist (ZipFile_write zf node arcname) = filelist zf ++ [e]
            /\ entry_for node arcname e.
Proof.
  unfold ZipFile_write, entry_for. destruct (is_dir node); eexists; simpl;
    (split; [reflexivity|]); simpl; auto.
Qed.

Section Gathering.
Context `{Host}.

Lemma write_files_extend (before : list (ZipInfo * string))
    (E : ZipInfo * string -> Prop) (root arc_prefix : path) (files : list string)
    (zf zf' : ZipFile) :
  (forall f node e, In f files -> stat fs (root ++ [f]) = Some node ->
     entry_for node (arc_prefix ++ [f]) e -> E e) ->
  extends_with before E zf ->
  PythonPackageArchive.write_files zf root arc_prefix files = Ok zf' ->
  extends_with before E zf'.
Proof.
  revert zf. induction files as [|f files IH]; intros zf HE Hzf; simpl.
  - intros [= <-]. exact Hzf.
  - destruct (stat fs (root ++ [f])) as [node|] eqn:Hst; [|discriminate].
    apply IH.
    + intros f' node' e Hin. apply HE. now right.
    + destruct Hzf as (added & Hf & Hall).
      destruct (written_entry_for zf node (arc_prefix ++ [f])) as (e & Hw & He).
      exists (added ++ [e]). split; [now rewrite Hw, Hf, app_assoc|].
      apply Forall_app. split; [exact Hall|].
      constructor; [|constructor]. apply (HE f node e); [now left | exact Hst | exact He].
Qed.

Lemma filter_files_skip (self : PythonPackageArchive) (pat : string)
    (files : list string) (f : string) :
  nonempty (skip self) = Some pat ->
  In f (PythonPackageArchive.filter_files self files) -> fnmatch f pat = false.
Proof.
  intros Hs. unfold PythonPackageArchive.filter_files. rewrite Hs.
  intros Hin. apply List.filter_In in Hin. destruct Hin as [_ Hn].
  now apply negb_true_iff in Hn.
Qed.

(** X19. The skip pattern is applied to the files of the directories the
    archive walks, in the source tree and in the library tree alike: with a
    non-empty pattern, every entry [create] gathers by walking is written
    for a file whose name does not match it. A source that is a single
    file is not walked: it is written first, whether its name matches or
    not, and the rule holds for every entry after it. *)
Theorem skipped_files_left_out (a a' : PythonPackageArchive) (pat : string) :
  nonempty (skip a) = Some pat ->
  PythonPackageArchive.create a = Ok a' ->
  exists zf,
    _zip_file a' = Some zf
    /\ match stat fs (src_path a) with
       | Some (RegFile _ _ as node) =>
           extends_with
             (filelist (ZipFile_write {| compression := ZIP_DEFLATED; filelist := [] |}
                          node [basename (src_path a)]))
             (kept_entry pat) zf
       | _ => extends_with [] (kept_entry pat) zf
       end.
Proof.
  intros Hs. unfold PythonPackageArchive.create.
  destruct (_temp_archive_file a); [discriminate|].
  set (zf0 := {| compression := ZIP_DEFLATED; filelist := [] |}).
  assert (Hsrc : forall before top dirs files acc dirs' acc',
             True -> extends_with before (kept_entry pat) acc ->
             PythonPackageArchive.src_body a top dirs files acc = Ok (dirs', acc') ->
             extends_with before (kept_entry pat) acc' /\ forall d, In d dirs' -> True).
  { intros before top dirs files acc dirs' acc' _ Hacc. unfold PythonPackageArchive.src_body.
    destruct (match src_filter a with Some f => inplace (f top dirs files)
                                 | None => (dirs, files) end) as [ds fs'].
    destruct (PythonPackageArchive.write_files acc top _ _) as [zf1|e] eqn:Ew;
      simpl; [|discriminate].
    intros [= _ <-]. split; [|auto].
    eapply write_files_extend; [|exact Hacc|exact Ew].
    intros f node e Hin Hst He. eexists top, _, f, node.
    split; [exact Hst|]. split; [exact He|].
    eapply filter_files_skip; eauto. }
  assert (Hlib : forall before venv top dirs files acc dirs' acc',
             True -> extends_with before (kept_entry pat) acc ->
             PythonPackageArchive.lib_body a venv top dirs files acc = Ok (dirs', acc') ->
             extends_with before (kept_entry pat) acc' /\ forall d, In d dirs' -> True).
  { intros before venv top dirs files acc dirs' acc' _ Hacc.
    unfold PythonPackageArchive.lib_body.
    destruct (match lib_filter a with
              | Some f => (fst (inplace (f top dirs files)), snd (returned (f top dirs files)))
              | None => (dirs, files) end) as [ds fs'].
    destruct (PythonPackageArchive.write_files acc top _ _) as [zf1|e] eqn:Ew;
      simpl; [|discriminate].
    intros [= _ <-]. split; [|auto].
    eapply write_files_extend; [|exact Hacc|exact Ew].
    intros f node e Hin Hst He. eexists top, _, f, node.
    split; [exact Hst|]. split; [exact He|].
    eapply filter_files_skip; eauto. }
  set (before := match stat fs (src_path a) with
                 | Some (RegFile _ _ as node) =>
                     filelist (ZipFile_write zf0 node [basename (src_path a)])
                 | _ => []
                 end).
  destruct (match stat fs (src_path a) with
            | Some (RegFile _ _ as node) =>
                Ok (ZipFile_write zf0 node [basename (src_path a)])
            | Some (Directory _ _ as node) =>
                walk (PythonPackageArchive.src_body a) node (src_path a) zf0
            | None => Ok zf0
            end) as [zf1|e] eqn:E1; simpl; [|discriminate].
  assert (H1 : extends_with before (kept_entry pat) zf1).
  { subst before. destruct (stat fs (src_path a)) as [[m c | m es]|] eqn:Hst.
    - injection E1 as <-. apply extends_with_refl.
    - eapply (walk_visits _ (fun _ => True) _ (Hsrc [])); [exact I | | exact E1].
      apply (extends_with_refl _ zf0).
    - injection E1 as <-. apply (extends_with_refl _ zf0). }
  destruct (match stat fs (virtualenv_dir a ++ ["lib"; "python2.7"; "site-packages"]) with
            | Some node => walk _ node _ zf1
            | None => Ok zf1
            end) as [zf2|e] eqn:E2; simpl; [|discriminate].
  intros [= <-]. exists zf2. split; [reflexivity|].
  assert (H2 : extends_with before (kept_entry pat) zf2).
  { destruct (stat fs (virtualenv_dir a ++ ["lib"; "python2.7"; "site-packages"]))
      as [node|] eqn:Hst.
    - eapply (walk_visits _ (fun _ => True) _ (Hlib before _)); [exact I | exact H1 | exact E2].
    - now injection E2 as <-. }
  subst before. destruct (stat fs (src_path a)) as [[m c | m es]|]; exact H2.
Qed.
End Gathering.

(** ** The entries of the policy archive *)

Lemma written_host_entry (zf : ZipFile) (node : fsnode) (arcname : path) :
  exists e,
    filelist (ZipFile_write zf node arcname) = filelist zf ++ [e]
    /\ entry_for node arcname e
    /\ Z.shiftr (external_attr (fst e)) 16 = Z.land (st_mode_of node) 65535
    /\ permission_bits (fst e) = Z.land (st_mode_of node) 511.
Proof.
  destruct (written_permission_bits zf node arcname) as (info & Hf & Hm & Hb).
  destruct (written_entry_for zf node arcname) as (e & Hf' & He).
  exists e. split; [exact Hf'|]. split; [exact He|].
  rewrite Hf in Hf'. apply app_inv_head in Hf'. injection Hf' as <-.
  split; assumption.
Qed.

Section Entries.
Context `{Host}.

Lemma write_files_gather (before : list (ZipInfo * string))
    (E : ZipInfo * string -> Prop) (root arc_prefix : path) (files : list string)
    (zf zf' : ZipFile) :
  (forall f node e,
      In f files -> stat fs (root ++ [f]) = Some node ->
      entry_for node (arc_prefix ++ [f]) e ->
      Z.shiftr (external_attr (fst e)) 16 = Z.land (st_mode_of node) 65535 ->
      permission_bits (fst e) = Z.land (st_mode_of node) 511 ->
      E e) ->
  extends_with before E zf ->
  PythonPackageArchive.write_files zf root arc_prefix files = Ok zf' ->
  extends_with before E zf'.
Proof.
  revert zf. induction files as [|f files IH]; intros zf HE Hzf; simpl.
  - intros [= <-]. exact Hzf.
  - destruct (stat fs (root ++ [f])) as [node|] eqn:Hst; [|discriminate].
    apply IH.
    + intros f' node' e Hin. apply HE. now right.
    + destruct Hzf as (added & Hf & Hall).
      destruct (written_host_entry zf node (arc_prefix ++ [f])) as (e & Hw & He & Hm & Hb).
      exists (added ++ [e]). split; [now rewrite Hw, Hf, app_assoc|].
      apply Forall_app. split; [exact Hall|].
      constructor; [|constructor]. apply (HE f node e); auto. now left.
Qed.

Lemma create_gathers_from_host (a a' : PythonPackageArchive) :
  PythonPackageArchive.create a = Ok a' ->
  exists zf, _zip_file a' = Some zf /\ Forall (host_mode_entry a) (filelist zf).
Proof.
  unfold PythonPackageArchive.create.
  destruct (_temp_archive_file a); [discriminate|].
  set (zf0 := {| compression := ZIP_DEFLATED; filelist := [] |}).
  set (site := virtualenv_dir a ++ ["lib"; "python2.7"; "site-packages"]).
  assert (Hsrc : forall top dirs files acc dirs' acc',
             (exists rest, top = src_path a ++ rest) ->
             extends_with [] (host_mode_entry a) acc ->
             PythonPackageArchive.src_body a top dirs files acc = Ok (dirs', acc') ->
             extends_with [] (host_mode_entry a) acc'
             /\ forall d, In d dirs' -> exists rest, top ++ [d] = src_path a ++ rest).
  { intros top dirs files acc dirs' acc' [rest ->] Hacc.
    unfold PythonPackageArchive.src_body.
    destruct (match src_filter a with Some f => inplace (f (src_path a ++ rest) dirs files)
                                 | None => (dirs, files) end) as [ds fs'].
    destruct (PythonPackageArchive.write_files acc _ _ _) as [zf1|e] eqn:Ew;
      simpl; [|discriminate].
    intros [= <- <-]. split.
    - eapply write_files_gather; [|exact Hacc|exact Ew].
      intros f node e _ Hst He Hm Hb.
      eexists ((src_path a ++ rest) ++ [f]), node, _.
      split; [exact Hst|]. split; [exact He|]. split; [|split; assumption].
      right. left. exists rest, f. split; reflexivity.
    - intros d _. exists (rest ++ [d]). now rewrite app_assoc. }
  assert (Hlib : forall before top dirs files acc dirs' acc',
             (exists rest, top = site ++ rest) ->
             extends_with before (host_mode_entry a) acc ->
             PythonPackageArchive.lib_body a site top dirs files acc = Ok (dirs', acc') ->
             extends_with before (host_mode_entry a) acc'
             /\ forall d, In d dirs' -> exists rest, top ++ [d] = site ++ rest).
  { intros before top dirs files acc dirs' acc' [rest ->] Hacc.
    unfold PythonPackageArchive.lib_body.
    destruct (match lib_filter a with
              | Some f => (fst (inplace (f (site ++ rest) dirs files)),
                           snd (returned (f (site ++ rest) dirs files)))
              | None => (dirs, files) end) as [ds fs'].
    destruct (PythonPackageArchive.write_files acc _ _ _) as [zf1|e] eqn:Ew;
      simpl; [|discriminate].
    intros [= <- <-]. split.
    - eapply write_files_gather; [|exact Hacc|exact Ew].
      intros f node e _ Hst He Hm Hb.
      eexists ((site ++ rest) ++ [f]), node, _.
      split; [exact Hst|]. split; [exact He|]. split; [|split; assumption].
      right. right. exists rest, f. split; reflexivity.
    - intros d _. exists (rest ++ [d]). now rewrite app_assoc. }
  destruct (match stat fs (src_path a) with
            | Some (RegFile _ _ as node) =>
                Ok (ZipFile_write zf0 node [basename (src_path a)])
            | Some (Directory _ _ as node) =>
                walk (PythonPackageArchive.src_body a) node (src_path a) zf0
            | None => Ok zf0
            end) as [zf1|e] eqn:E1; simpl; [|discriminate].
  assert (H1 : extends_with [] (host_mode_entry a) zf1).
  { destruct (stat fs (src_path a)) as [[m c | m es]|] eqn:Hst.
    - injection E1 as <-.
      destruct (written_host_entry zf0 (RegFile m c) [basename (src_path a)])
        as (e & Hw & He & Hm & Hb).
      exists [e]. split; [exact Hw|]. constructor; [|constructor].
      exists (src_path a), (RegFile m c), [basename (src_path a)].
      split; [exact Hst|]. split; [exact He|]. split; [|split; assumption].
      left. split; reflexivity.
    - eapply (walk_visits _ _ _ Hsrc); [| | exact E1].
      + exists []. now rewrite app_nil_r.
      + apply (extends_with_refl _ zf0).
    - injection E1 as <-. apply (extends_with_refl _ zf0). }
  destruct (match stat fs site with
            | Some node => walk _ node _ zf1
            | None => Ok zf1
            end) as [zf2|e] eqn:E2; simpl; [|discriminate].
  intros [= <-]. exists zf2. split; [reflexivity|].
  assert (H2 : extends_with [] (host_mode_entry a) zf2).
  { destruct (stat fs site) as [node|] eqn:Hst.
    - eapply (walk_visits _ _ _ (Hlib [])); [| exact H1 | exact E2].
      exists []. now rewrite app_nil_r.
    - now injection E2 as <-. }
  destruct H2 as (added & -> & Hall). exact Hall.
Qed.

(** C6, as the code has it. An entry made by [zinfo] has its permission
    bits forced to 0644 (420), whatever the host: these are the in-memory
    entries of the policy archive, [config.json] and [maid_policy.py],
    which come last in it. The entries before them, gathered by walking
    the source and library trees, are written from the files of the host:
    each is the entry of one file, named by where that file lies, with the
    contents of that file and with the mode that file has on the host, so
    with its permission bits. *)
Theorem archive_entry_permissions (self : PolicyLambda) (a : PythonPackageArchive) :
  PolicyLambda.get_archive self = Ok a ->
  (forall fname,
      external_attr (zinfo fname) = Z.shiftl 420 16
      /\ permission_bits (zinfo fname) = 420)
  /\ exists zf gathered config handler_source,
       _zip_file a = Some zf
       /\ filelist zf
          = gathered ++ [ (zinfo "config.json", config);
                          (zinfo "maid_policy.py", handler_source) ]
       /\ Forall (host_mode_entry (archive self)) gathered.
Proof.
  intros Ha. split; [intros fname; split; reflexivity|].
  unfold PolicyLambda.get_archive in Ha.
  destruct (PythonPackageArchive.create (archive self)) as [a1|e] eqn:Ec;
    simpl in Ha; [|discriminate].
  destruct (create_gathers_from_host _ _ Ec) as (zf & Hz & Hall).
  unfold PythonPackageArchive.add_contents at 1 in Ha.
  destruct (_closed a1); simpl in Ha; [discriminate|].
  rewrite Hz in Ha. simpl in Ha.
  destruct (mode_type (policy_mode (policy self))) as [t|]; simpl in Ha; [|discriminate].
  injection Ha as <-.
  eexists. exists (filelist zf). eexists. eexists.
  split; [reflexivity|]. split; [|exact Hall].
  simpl. rewrite <- app_assoc. reflexivity.
Qed.
End Entries.

Lemma relpath_below (start rest : path) :
  rest <> [] -> relpath (start ++ rest) start = rest.
Proof.
  intros Hne. unfold relpath. rewrite drop_app_length.
  destruct rest; [contradiction | reflexivity].
Qed.

Lemma relpath_same (start : path) : relpath start start = ["."].
Proof.
  unfold relpath. rewrite <- (app_nil_r start) at 2.
  now rewrite drop_app_length.
Qed.

Section MaidArchive.
Context `{Host}.

(** X20. What the maid archive holds: with the janitor package at a path
    that ends in its name, every entry [create] gathers for the maid
    archive is a file of that package, or a file at the top of
    site-packages, or a file below one of the required libraries
    concurrent, yaml and pkg_resources; no other library of site-packages
    gets in. *)
Theorem maid_archive_contents (skip_pattern : option string)
    (a' : PythonPackageArchive) (parent : path) (pkg : string) :
  janitor_dir = parent ++ [pkg] ->
  PythonPackageArchive.create (maid_archive skip_pattern) = Ok a' ->
  exists zf, _zip_file a' = Some zf /\ Forall (maid_place pkg) (filelist zf).
Proof.
  intros Hj.
  set (a := maid_archive skip_pattern).
  set (site := sys_prefix ++ ["lib"; "python2.7"; "site-packages"]).
  unfold PythonPackageArchive.create.
  change (_temp_archive_file a) with (@None string).
  change (src_path a) with janitor_dir.
  change (virtualenv_dir a ++ ["lib"; "python2.7"; "site-packages"]) with site.
  set (zf0 := {| compression := ZIP_DEFLATED; filelist := [] |}).
  cbv beta iota.
  assert (Hsrc : forall top dirs files acc dirs' acc',
             (exists rest, top = janitor_dir ++ rest) ->
             extends_with [] (maid_place pkg) acc ->
             PythonPackageArchive.src_body a top dirs files acc = Ok (dirs', acc') ->
             extends_with [] (maid_place pkg) acc'
             /\ forall d, In d dirs' -> exists rest, top ++ [d] = janitor_dir ++ rest).
  { intros top dirs files acc dirs' acc' [rest ->] Hacc.
    unfold PythonPackageArchive.src_body.
    change (src_filter a) with (@None tree_filter). change (src_path a) with janitor_dir.
    cbv beta iota zeta.
    destruct (PythonPackageArchive.write_files acc _ _ _) as [zf1|e] eqn:Ew;
      simpl; [|discriminate].
    intros [= <- <-]. split.
    - eapply write_files_extend; [|exact Hacc|exact Ew].
      intros f node e _ Hst He. exists (janitor_dir ++ rest), (pkg :: rest), f, node.
      split; [exact Hst|]. split; [|right; left; eauto].
      revert He. unfold dirname. rewrite Hj, removelast_last, <- !app_assoc.
      now rewrite relpath_below by discriminate.
    - intros d _. exists (rest ++ [d]). now rewrite app_assoc. }
  assert (Hlib : forall before top dirs files acc dirs' acc',
             (top = site \/ exists r rest, In r required /\ top = site ++ r :: rest) ->
             extends_with before (maid_place pkg) acc ->
             PythonPackageArchive.lib_body a site top dirs files acc = Ok (dirs', acc') ->
             extends_with before (maid_place pkg) acc'
             /\ forall d, In d dirs' ->
                  top ++ [d] = site
                  \/ exists r rest, In r required /\ top ++ [d] = site ++ r :: rest).
  { intros before top dirs files acc dirs' acc' Htop Hacc.
    unfold PythonPackageArchive.lib_body.
    change (lib_filter a) with (Some maid_lib_filter).
    unfold maid_lib_filter. cbv beta iota zeta. cbn [inplace returned fst snd].
    destruct (PythonPackageArchive.write_files acc _ _ _) as [zf1|e] eqn:Ew;
      simpl; [|discriminate].
    intros [= <- <-]. split.
    - eapply write_files_extend; [|exact Hacc|exact Ew].
      intros f node e _ Hst He. destruct Htop as [->|(r & rest & Hr & ->)].
      + rewrite relpath_same in He. exists site, ["."], f, node.
        split; [exact Hst|]. split; [exact He|]. auto.
      + rewrite relpath_below in He by discriminate.
        exists (site ++ r :: rest), (r :: rest), f, node.
        split; [exact Hst|]. split; [exact He|]. right. right. right. eauto.
    - intros d Hin. right. destruct Htop as [->|(r & rest & Hr & ->)].
      + assert (Hb : basename site = "site-packages").
        { unfold basename, site.
          change (sys_prefix ++ ["lib"; "python2.7"; "site-packages"])
            with (sys_prefix ++ ["lib"; "python2.7"] ++ ["site-packages"]).
          rewrite app_assoc. apply last_last. }
        rewrite Hb, String.eqb_refl in Hin.
        apply List.filter_In in Hin. destruct Hin as [_ Hreq].
        change (existsb (String.eqb d) required = true) in Hreq.
        apply existsb_exists in Hreq. destruct Hreq as (r & Hr & Heq).
        apply String.eqb_eq in Heq. subst r. exists d, []. auto.
      + exists r, (rest ++ [d]). split; [exact Hr|].
        now rewrite <- app_assoc. }
  destruct (match stat fs janitor_dir with
            | Some (RegFile _ _ as node) =>
                Ok (ZipFile_write zf0 node [basename janitor_dir])
            | Some (Directory _ _ as node) =>
                walk (PythonPackageArchive.src_body a) node janitor_dir zf0
            | None => Ok zf0
            end) as [zf1|e] eqn:E1; simpl; [|discriminate].
  assert (H1 : extends_with [] (maid_place pkg) zf1).
  { destruct (stat fs janitor_dir) as [[m c | m es]|] eqn:Hst.
    - injection E1 as <-.
      destruct (written_entry_for zf0 (RegFile m c) [basename janitor_dir]) as (e & Hw & He).
      exists [e]. split; [exact Hw|]. constructor; [|constructor].
      exists parent, [], pkg, (RegFile m c).
      split; [now rewrite <- Hj|]. split; [|left; auto].
      revert He. unfold basename. now rewrite Hj, last_last.
    - eapply (walk_visits _ _ _ Hsrc); [| | exact E1].
      + exists []. now rewrite app_nil_r.
      + apply (extends_with_refl _ zf0).
    - injection E1 as <-. apply (extends_with_refl _ zf0). }
  destruct (match stat fs site with
            | Some node => walk _ node _ zf1
            | None => Ok zf1
            end) as [zf2|e] eqn:E2; simpl; [|discriminate].
  intros [= <-]. exists zf2. split; [reflexivity|].
  assert (H2 : extends_with [] (maid_place pkg) zf2).
  { destruct (stat fs site) as [node|] eqn:Hst.
    - eapply (walk_visits _ _ _ (Hlib [])); [| exact H1 | exact E2]. now left.
    - now injection E2 as <-. }
  destruct H2 as (added & -> & Hall). exact Hall.
Qed.
End MaidArchive.

(** ** Listing functions *)

Lemma gen_then_nil_l {A} (g : generated A) : gen_then (Generated [] None) g = g.
Proof. now destruct g. Qed.

Lemma gen_then_assoc {A} (g1 g2 g3 : generated A) :
  gen_then (gen_then g1 g2) g3 = gen_then g1 (gen_then g2 g3).
Proof.
  destruct g1 as [y1 [e1|]], g2 as [y2 [e2|]], g3 as [y3 s3]; unfold gen_then; simpl;
    try reflexivity.
  now rewrite app_assoc.
Qed.

Lemma gen_for_app {A B} (xs ys : list A) (body : A -> generated B) :
  gen_for (xs ++ ys) body = gen_then (gen_for xs body) (gen_for ys body).
Proof.
  induction xs as [|x xs IH]; simpl.
  - now rewrite gen_then_nil_l.
  - now rewrite IH, gen_then_assoc.
Qed.

Lemma list_functions_flat (pages : list (option (list dict))) (prefix : option string) :
  LambdaManager.list_functions (map Ok pages) prefix
  = gen_for (functions_of pages) (LambdaManager.yield_matching prefix).
Proof.
  unfold LambdaManager.list_functions, functions_of.
  induction pages as [|rp pages IH]; simpl; [reflexivity|].
  now rewrite IH, gen_for_app.
Qed.

Lemma prefix_empty (s : string) : String.prefix "" s = true.
Proof. now destruct s. Qed.

(** X21. [list_functions] over pages of named functions. With a
    non-empty prefix it yields, in order, the functions whose name starts
    with the prefix. With the empty string as prefix it yields every
    function twice. With no prefix, the default, it yields the first
    function and then raises a type error, for the name is tested against
    a prefix that is not there; it ends quietly only when there is no
    function at all. *)
Theorem list_functions_by_prefix (pages : list (option (list dict)))
    (prefix : option string) :
  Forall (fun f => exists function_name, f !! "FunctionName" = Some (VStr function_name))
    (functions_of pages) ->
  LambdaManager.list_functions (map Ok pages) prefix
  = match prefix with
    | Some "" => Generated (flat_map (fun f => [f; f]) (functions_of pages)) None
    | Some p => Generated (List.filter (named_with p) (functions_of pages)) None
    | None =>
        match functions_of pages with
        | [] => Generated [] None
        | f :: _ =>
            Generated [f]
              (Some (TypeError "startswith first arg must be str, unicode, or tuple, not NoneType"))
        end
    end.
Proof.
  rewrite list_functions_flat. generalize (functions_of pages) as fns.
  intros fns Hnamed. destruct prefix as [[|c p]|].
  - induction Hnamed as [|f fns [n Hn] _ IH]; simpl; [reflexivity|].
    rewrite IH. unfold LambdaManager.yield_matching, getitem. rewrite Hn. simpl.
    now rewrite prefix_empty.
  - induction Hnamed as [|f fns [n Hn] _ IH]; [reflexivity|].
    cbn [gen_for List.filter]. rewrite IH.
    unfold LambdaManager.yield_matching, getitem, named_with. rewrite Hn.
    cbn [nonempty]. rewrite gen_then_nil_l.
    destruct (String.prefix (String c p) n); reflexivity.
  - destruct Hnamed as [|f fns [n Hn] _]; [reflexivity|].
    cbn [gen_for]. unfold LambdaManager.yield_matching, getitem. rewrite Hn. reflexivity.
Qed.

Section NoAlias.
Context `{Host} {R : Type} `{Client R}.

(** X22. A function whose alias is not set, as [publish] leaves it when
    it is given no alias, is never found among the targets of its rule.
    Once the rule half of [add] is done and the targets are listed: when
    the rule has a target, [add] raises a type error and puts nothing;
    when it has none, [add] puts a target whose Arn is missing, and it
    returns true or raises as that call is accepted or refused. *)
Theorem add_without_alias (self : CloudWatchEventSource) (func : LambdaFunction)
    (w : world R) (response : list Target) (s : R) :
  alias func = None ->
  value (rule_step self func w) = Ok tt ->
  invoke _ (list_targets_by_rule (name func)) (remote (final (rule_step self func w)))
  = (Ok response, s) ->
  match response with
  | [] =>
      calls (CloudWatchEventSource.add self func w)
      = calls (rule_step self func w)
        ++ [Called (list_targets_by_rule (name func));
            Called (put_targets (name func)
                      (uuid4 (uuids (final (rule_step self func w)))) None)]
      /\ value (CloudWatchEventSource.add self func w)
         = match fst (invoke _ (put_targets (name func)
                                  (uuid4 (uuids (final (rule_step self func w)))) None) s)
           with
           | Ok _ => Ok PyTrue
           | Raise e => Raise e
           end
  | _ :: _ =>
      calls (CloudWatchEventSource.add self func w)
      = calls (rule_step self func w) ++ [Called (list_targets_by_rule (name func))]
      /\ value (CloudWatchEventSource.add self func w)
         = Raise (TypeError "'in <string>' requires string as left operand")
  end.
Proof.
  intros Ha Hv E. rewrite add_halves, bind_value, bind_calls, Hv.
  set (o1 := rule_step self func w) in *.
  unfold target_step. rewrite (bind_call_ok _ _ _ _ _ E), Ha.
  rewrite prepend_value, prepend_calls.
  destruct response as [|t response]; simpl CloudWatchEventSource.scan_targets.
  - rewrite bind_lift_ok. unfold CloudWatchEventSource.fresh_uuid.
    unfold bind at 1 3. simpl.
    destruct (invoke _ (put_targets (name func) (uuid4 (uuids (final o1))) None) s)
      as [[u|e] s'] eqn:E2.
    + erewrite bind_call_ok by (simpl; exact E2). split; reflexivity.
    + erewrite bind_call_raise by (simpl; exact E2). split; reflexivity.
  - rewrite bind_lift_raise. split; reflexivity.
Qed.
End NoAlias.

Section PassedRole.
Context `{Host} {R : Type} `{Client R}.

Lemma get_config_role (func : LambdaFunction) :
  (list_to_map (LambdaFunction.get_config func) : dict) !! "Role" = Some (VStr (role func)).
Proof.
  unfold LambdaFunction.get_config. cbn [list_to_map foldr fst snd uncurry].
  rewrite lookup_insert_ne by discriminate.
  rewrite lookup_insert_ne by discriminate.
  apply lookup_insert_eq.
Qed.

(** X23. The role passed to [_create_or_update] is checked and never
    sent. As long as there is a role, the function's own or a passed one,
    the run does not depend on which role is passed; and every call that
    sends a configuration, the create as well as the configuration update,
    asks for the function's own role, even when that one is empty and
    another was passed. *)
Theorem passed_role_is_not_sent (func : LambdaFunction)
    (role_arg other s3_uri qualifier : option string) (w : world R) :
  role_given func role_arg ->
  role_given func other ->
  LambdaManager._create_or_update func role_arg s3_uri qualifier w
  = LambdaManager._create_or_update func other s3_uri qualifier w
  /\ Forall (configured_with_role (role func))
       (calls (LambdaManager._create_or_update func role_arg s3_uri qualifier w)).
Proof.
  intros H1 H2. split.
  - unfold LambdaManager._create_or_update.
    destruct (role_given_passes _ _ H1) as [r1 ->].
    destruct (role_given_passes _ _ H2) as [r2 ->]. reflexivity.
  - revert w.
    change (only (configured_with_role (role func))
              (LambdaManager._create_or_update func role_arg s3_uri qualifier)).
    unfold LambdaManager._create_or_update, LambdaManager.get, LambdaManager._upload_func.
    only_calls; apply only_call; apply get_config_role.
Qed.
End PassedRole.

(** * Concrete runs

    The properties above at the sample host and account. *)

Import Sample.

Lemma lookups_absent_or_reraised_witness :
  value (LambdaManager.get (name ec2_function) None (start empty_account)) = Ok PyFalse
  /\ value (CloudWatchEventSource.get ec2_source (name ec2_function) (start denied_account))
     = Raise (ClientError "AccessDeniedException").
Proof.
  split.
  - destruct (lookups_absent_or_reraised (start empty_account)) as (Hf & _ & _).
    destruct (Hf (name ec2_function) None) as (_ & _ & Habsent & _).
    apply Habsent. reflexivity.
  - destruct (lookups_absent_or_reraised (start denied_account)) as (_ & _ & Hr).
    destruct (Hr ec2_source (name ec2_function)) as (_ & _ & _ & Hother).
    apply Hother; [reflexivity | discriminate].
Defined.

(** C7, where the code falls short of it. [pause] and [resume] pass the
    rule under [Rule] to operations that take it under [Name], the keyword
    [describe_rule], [put_rule] and [delete_rule] are called with. The
    client refuses such a call before it sends anything, with an error
    that is no [ClientError], so the handler does not catch it: in an
    account that does not hold the rule, where the claim has [pause] and
    [resume] complete, both raise. *)
Theorem pause_resume_raise_on_missing_rule :
  rules empty_account !! name ec2_function = None
  /\ CloudWatchEventSource.pause ec2_source ec2_function (start empty_account)
     = Outcome (Raise (OtherError "ParamValidationError")) (start empty_account)
         [Called (disable_rule (name ec2_function))]
  /\ CloudWatchEventSource.resume ec2_source ec2_function (start empty_account)
     = Outcome (Raise (OtherError "ParamValidationError")) (start empty_account)
         [Called (enable_rule (name ec2_function))].
Proof. vm_compute. repeat split. Qed.

(** The four outcomes of the two decisions, on the function published
    before: nothing changed, the timeout, the code, both. *)
Lemma two_axes_independent :
  updates_issued ec2_published = (false, false)
  /\ updates_issued ec2_slower = (false, true)
  /\ updates_issued ec2_recoded = (true, false)
  /\ updates_issued ec2_recoded_slower = (true, true).
Proof. vm_compute. repeat split. Qed.



(** C2, where the code falls short of it. In an account that holds neither
    the function nor its rule, [remove] looks the rule up, finds none, and
    calls [delete_function], which [remove] does not guard: the not-found
    error of the provider reaches the caller. *)
Theorem remove_missing_function_raises :
  functions empty_account !! name ec2_function = None
  /\ map rule_of (calls (LambdaManager.remove ec2_function None (start empty_account)))
     = [Some (name ec2_function); None]
  /\ existsb mutating
       (calls (LambdaManager.remove ec2_function None (start empty_account))) = true
  /\ value (LambdaManager.remove ec2_function None (start empty_account))
     = Raise (ClientError "ResourceNotFoundException").
Proof. vm_compute. repeat split. Qed.


(** The claim C8 fails on a paused rule whose target is in place: [add]
    puts the rule, which changes it, and returns [None]. *)
Lemma add_updates_rule_and_returns_none :
  value (CloudWatchEventSource.add ec2_source ec2_published paused) = Ok PyNone
  /\ truthy PyNone = false
  /\ List.filter mutating
       (calls (CloudWatchEventSource.add ec2_source ec2_published paused))
     = [Called (put_rule (CloudWatchEventSource.rule_params ec2_source ec2_published
                            ec2_pattern))]
  /\ rules (remote paused) !! name ec2_function
     = Some (<["State" := VStr "DISABLED"]>
               (CloudWatchEventSource.rule_params ec2_source ec2_published ec2_pattern))
  /\ rules (remote (final (CloudWatchEventSource.add ec2_source ec2_published paused)))
       !! name ec2_function
     = Some (CloudWatchEventSource.rule_params ec2_source ec2_published ec2_pattern).
Proof. vm_compute. repeat split. Qed.

Lemma add_true_iff_target_added_witness :
  value (CloudWatchEventSource.add ec2_source ec2_published (start empty_account))
  = Ok PyTrue
  /\ Exists (fun e => is_put_targets e = true)
       (calls (CloudWatchEventSource.add ec2_source ec2_published
                 (start empty_account))).
Proof.
  assert (Hv : value (CloudWatchEventSource.add ec2_source ec2_published
                        (start empty_account)) = Ok PyTrue)
    by (vm_compute; reflexivity).
  split; [exact Hv|].
  destruct (add_true_iff_target_added ec2_source ec2_published (start empty_account)
              PyTrue Hv) as (response & s & _ & _ & _ & Hiff & _).
  apply Hiff. reflexivity.
Defined.

(** C9, where the code falls short of it. Only the lookup derives the rule
    name; the put of the rule, the listing and the put of the targets and
    the delete take the name of the function as it is. For a function
    whose name does not start with the prefix of the event source, the
    rule is looked up under the derived name and written under the other:
    [add] looks for [maid-audit] and puts [audit], and [remove], looking
    for [maid-audit] again, finds nothing and leaves the rule [audit]
    behind. *)
Theorem rule_operations_disagree_on_name :
  String.prefix (prefix ec2_source) (name unprefixed) = false
  /\ CloudWatchEventSource._make_notification_id ec2_source (name unprefixed)
     = prefix ec2_source +:+ name unprefixed
  /\ map rule_of
       (calls (CloudWatchEventSource.add ec2_source unprefixed (start empty_account)))
     = [Some "maid-audit"; Some "audit"; Some "audit"; Some "audit"]
  /\ map rule_of
       (calls (CloudWatchEventSource.remove ec2_source unprefixed
                 (final (CloudWatchEventSource.add ec2_source unprefixed
                           (start empty_account)))))
     = [Some "maid-audit"]
  /\ value (CloudWatchEventSource.remove ec2_source unprefixed
              (final (CloudWatchEventSource.add ec2_source unprefixed
                        (start empty_account))))
     = Ok tt
  /\ rules (remote (final (CloudWatchEventSource.remove ec2_source unprefixed
                             (final (CloudWatchEventSource.add ec2_source unprefixed
                                       (start empty_account))))))
       !! "audit"
     = Some (CloudWatchEventSource.rule_params ec2_source unprefixed ec2_pattern).
Proof. vm_compute. repeat split. Qed.

Lemma asg_event_names_translated_witness :
  exists names : list string,
    CloudWatchEventSource.payload asg_source
    = Ok [ ("source", JList [JStr "aws.autoscaling"]);
           ("detail-type", JList (map JStr names)) ]
    /\ names = ["EC2 Instance Launch Successful"; "EC2 Instance-launch Lifecycle Action"].
Proof.
  destruct (asg_event_names_translated asg_source eq_refl)
    as (names & Hpay & _ & Hlen & Hnames & _).
  exists names. split; [exact Hpay|].
  destruct (Hnames 0%nat "launch-success" eq_refl) as [Hfirst _].
  destruct (Hnames 1%nat "EC2 Instance-launch Lifecycle Action" eq_refl) as [_ Hsecond].
  specialize (Hfirst _ eq_refl). specialize (Hsecond eq_refl).
  destruct names as [|n0 [|n1 [|n2 names]]]; simpl in Hlen; try discriminate.
  simpl in Hfirst, Hsecond. congruence.
Defined.

Lemma archive_lifecycle_witness :
  PythonPackageArchive.get_checksum (maid_archive (Some "*pyc"))
  = Raise (AssertionError "Archive not closed")
  /\ PythonPackageArchive.size (maid_archive (Some "*pyc"))
     = Raise (ValueError "Archive not closed, size not accurate")
  /\ match get_archive ec2_function with
     | Ok sealed =>
         PythonPackageArchive.add_contents sealed (Info (zinfo "late.py")) "late"
     | Raise e => Raise e
     end = Raise (AssertionError "Archive closed").
Proof.
  destruct (archive_lifecycle (maid_archive (Some "*pyc")) (Info (zinfo "late.py")) "late")
    as (_ & Hopen & _).
  destruct (Hopen eq_refl) as [Hsum Hsize].
  split; [exact Hsum|]. split; [exact Hsize|].
  destruct (get_archive ec2_function) as [sealed|e] eqn:Ea; [|discriminate].
  destruct (archive_lifecycle sealed (Info (zinfo "late.py")) "late") as (Hclosed & _).
  apply Hclosed. vm_compute in Ea. injection Ea as <-. reflexivity.
Defined.

(** The claim C6 fails on the files gathered from the host: the archive of
    the sample policy holds [janitor/mu.py] with the bits 0600 (384) and
    [yaml/__init__.py] with 0640 (416), as they are on the host; only the
    two in-memory entries are forced to 0644 (420). *)
Lemma gathered_entries_keep_host_modes :
  match get_archive ec2_function with
  | Ok a =>
      match _zip_file a with
      | Some zf => map (fun e => (filename (fst e), permission_bits (fst e))) (filelist zf)
      | None => []
      end
  | Raise _ => []
  end
  = [ ("janitor/__init__.py", 420); ("janitor/mu.py", 384); ("six.py", 420);
      ("yaml/__init__.py", 416); ("config.json", 420); ("maid_policy.py", 420) ].
Proof. vm_compute. reflexivity. Qed.

Lemma archive_entry_permissions_witness :
  exists a, get_archive ec2_function = Ok a
  /\ exists zf gathered config handler_source,
       _zip_file a = Some zf
       /\ filelist zf
          = gathered ++ [ (zinfo "config.json", config);
                          (zinfo "maid_policy.py", handler_source) ]
       /\ Forall (host_mode_entry (maid_archive (Some "*pyc"))) gathered.
Proof.
  destruct (get_archive ec2_function) as [a|e] eqn:Ea.
  - exists a. split; [reflexivity|].
    apply (archive_entry_permissions (PolicyLambda.__init__ ec2_policy) a Ea).
  - vm_compute in Ea. discriminate Ea.
Defined.

(** ** Further runs *)

Lemma publish_binds_targets_to_alias_witness :
  match value (LambdaManager.publish ec2_function (Some "current") None None
                 (start empty_account)) with
  | Ok (result, func') =>
      name func' = name ec2_function
      /\ Forall (targets_bound_to (name ec2_function) (alias func'))
           (calls (LambdaManager.publish ec2_function (Some "current") None None
                     (start empty_account)))
  | Raise _ => False
  end.
Proof.
  assert (Hok : is_ok (value (LambdaManager.publish ec2_function (Some "current") None None
                                (start empty_account))) = true)
    by (vm_compute; reflexivity).
  destruct (value (LambdaManager.publish ec2_function (Some "current") None None
                     (start empty_account))) as [[result func']|e] eqn:E;
    [|discriminate Hok].
  destruct (publish_binds_targets_to_alias ec2_function (Some "current") None None
              (start empty_account) result func' E) as (_ & Hn & _ & _ & Hall).
  split; assumption.
Defined.

Lemma unbind_only_when_bound_witness :
  CloudWatchEventSource.remove ec2_source ec2_function (start empty_account)
  = Outcome (Ok tt) (start empty_account)
      [Called (describe_rule (name ec2_function))].
Proof.
  exact (unbind_only_when_bound ec2_source ec2_function (start empty_account)
           (Raise (ClientError "ResourceNotFoundException")) empty_account eq_refl).
Defined.

Lemma publish_alias_diff_witness :
  calls (LambdaManager.publish_alias
           (<["FunctionName" := VStr "maid-ec2"]> (<["Version" := VStr "1"]> ∅))
           (Some "current") (start empty_account))
  = [Called (get_alias "maid-ec2" "current");
     Called (create_alias "maid-ec2" "current" (VStr "1"))].
Proof.
  exact (proj1 (publish_alias_diff
                  (<["FunctionName" := VStr "maid-ec2"]> (<["Version" := VStr "1"]> ∅))
                  (Some "current") "current" "maid-ec2" (VStr "1") (start empty_account)
                  (Raise (ClientError "ResourceNotFoundException")) empty_account
                  eq_refl eq_refl eq_refl eq_refl)).
Defined.

Lemma create_when_absent_witness :
  exists bytes,
    calls (LambdaManager._create_or_update ec2_function None None None (start empty_account))
    = [Called (get_function (name ec2_function) None);
       Called (create_function (list_to_map (LambdaFunction.get_config ec2_function))
                 true (CodeZipFile bytes))].
Proof.
  assert (Hok : is_ok (value (LambdaManager._create_or_update ec2_function None None None
                                (start empty_account))) = true)
    by (vm_compute; reflexivity).
  destruct (value (LambdaManager._create_or_update ec2_function None None None
                     (start empty_account))) as [result|e] eqn:E; [|discriminate Hok].
  destruct (create_when_absent ec2_function None None None (start empty_account)
              (ClientError "ResourceNotFoundException") empty_account result
              eq_refl eq_refl E) as (archive & _ & Hbytes & _).
  destruct (Hbytes eq_refl) as (bytes & _ & Hcalls & _).
  exists bytes. exact Hcalls.
Defined.

Lemma code_reference_passed_witness :
  Forall (carries_code ec2_recoded (CodeS3 "assets" ("maid" +:+ "/" +:+ name ec2_recoded)))
    (calls (LambdaManager._create_or_update ec2_recoded None (Some "s3://assets/maid")
              (Some "current") (final published))).
Proof.
  destruct (get_archive ec2_recoded) as [archive|e] eqn:Ea.
  - exact (proj2 (code_reference_passed ec2_recoded None (Some "s3://assets/maid")
                    (Some "current") (final published) archive Ea)
             "s3://assets/maid" "s3" "assets" "maid" eq_refl eq_refl).
  - vm_compute in Ea. discriminate Ea.
Defined.

Lemma publish_rejects_mode_after_deploy_witness :
  value (LambdaManager.publish config_rule_function None None None (start empty_account))
  = Raise (ValueError "Unknown lambda event source type: config-rule")
  /\ calls (LambdaManager.publish config_rule_function None None None (start empty_account))
     = calls (LambdaManager._create_or_update config_rule_function None None None
                (start empty_account)).
Proof.
  assert (Hok : is_ok (value (LambdaManager._create_or_update config_rule_function
                                None None None (start empty_account))) = true)
    by (vm_compute; reflexivity).
  destruct (value (LambdaManager._create_or_update config_rule_function None None None
                     (start empty_account))) as [result|e] eqn:E; [|discriminate Hok].
  destruct (publish_rejects_mode_after_deploy config_rule_function None None None
                (start empty_account) result
                (CloudWatchEventSource.__init__
                   (policy_mode
                      {| policy_name := "s3-encryption";
                         policy_description := None;
                         policy_mode :=
                           {| mode_type := Some "config-rule";
                              mode_sources := None;
                              mode_events := None;
                              mode_schedule := None;
                              mode_role := Some "arn:aws:iam::role/maid";
                              mode_memory := None |};
                         policy_rest := [] |}) None)
                [] (ValueError "Unknown lambda event source type: config-rule")
                E eq_refl eq_refl eq_refl) as (Hv & Hc & _).
    split; assumption.
Defined.

Lemma policy_archive_ready_witness :
  exists a bytes,
    get_archive ec2_function = Ok a
    /\ PythonPackageArchive.path a = Ok "/tmp/tmpmaid"
    /\ PythonPackageArchive.get_bytes a = Ok bytes
    /\ PythonPackageArchive.size a = Ok (String.length bytes).
Proof.
  destruct (get_archive ec2_function) as [a|e] eqn:Ea.
  - destruct (policy_archive_ready (PolicyLambda.__init__ ec2_policy) a Ea)
      as (_ & Hpath & (bytes & Hbytes & Hsize & _) & _).
    exists a, bytes. auto.
  - vm_compute in Ea. discriminate Ea.
Defined.

Lemma policy_archive_built_once_witness :
  match get_archive ec2_function with
  | Ok a =>
      PolicyLambda.get_archive {| policy := ec2_policy; archive := a |}
      = Raise (AssertionError "Archive already created")
  | Raise _ => False
  end.
Proof.
  destruct (get_archive ec2_function) as [a|e] eqn:Ea.
  - exact (proj1 (policy_archive_built_once (PolicyLambda.__init__ ec2_policy) a Ea)).
  - vm_compute in Ea. discriminate Ea.
Defined.

Lemma sample_hasher_streams (h : hasher) (a b : string) :
  update (update h a) b = update h (a +:+ b).
Proof.
  simpl. induction h as [|c h IH]; [reflexivity|].
  change (String c ((h +:+ a) +:+ b) = String c (h +:+ a +:+ b)). now rewrite IH.
Qed.

Lemma checksum_any_block_size_witness :
  checksum "janitor" sha256 3 = digest (update sha256 "janitor")
  /\ checksum "janitor" sha256 0 = digest sha256.
Proof.
  destruct (checksum_any_block_size sample_hasher_streams "janitor" sha256 3) as [Hany Hzero].
  split; [apply Hany; lia | exact Hzero].
Defined.

Lemma skipped_files_left_out_witness :
  match PythonPackageArchive.create (maid_archive (Some "*pyc")) with
  | Ok a' =>
      exists zf, _zip_file a' = Some zf /\ extends_with [] (kept_entry "*pyc") zf
  | Raise _ => False
  end.
Proof.
  destruct (PythonPackageArchive.create (maid_archive (Some "*pyc"))) as [a'|e] eqn:Ec.
  - exact (skipped_files_left_out (maid_archive (Some "*pyc")) a' "*pyc" eq_refl Ec).
  - vm_compute in Ec. discriminate Ec.
Defined.

Lemma maid_archive_contents_witness :
  match PythonPackageArchive.create (maid_archive (Some "*pyc")) with
  | Ok a' =>
      exists zf, _zip_file a' = Some zf /\ Forall (maid_place "janitor") (filelist zf)
  | Raise _ => False
  end.
Proof.
  destruct (PythonPackageArchive.create (maid_archive (Some "*pyc"))) as [a'|e] eqn:Ec.
  - exact (maid_archive_contents (Some "*pyc") a' ["opt"] "janitor" eq_refl Ec).
  - vm_compute in Ec. discriminate Ec.
Defined.

Lemma list_functions_by_prefix_witness :
  LambdaManager.list_functions (map Ok listing) (Some "maid-")
  = Generated [named "maid-ec2"; named "maid-asg"] None
  /\ LambdaManager.list_functions (map Ok listing) None
     = Generated [named "maid-ec2"]
         (Some (TypeError "startswith first arg must be str, unicode, or tuple, not NoneType")).
Proof.
  assert (Hnamed : Forall (fun f => exists function_name,
                             f !! "FunctionName" = Some (VStr function_name))
                     (functions_of listing)).
  { repeat constructor; eexists; reflexivity. }
  split.
  - exact (list_functions_by_prefix listing (Some "maid-") Hnamed).
  - exact (list_functions_by_prefix listing None Hnamed).
Defined.

Lemma add_without_alias_witness :
  alias ec2_function = None
  /\ (calls (CloudWatchEventSource.add ec2_source ec2_function (start empty_account))
      = calls (rule_step ec2_source ec2_function (start empty_account))
        ++ [Called (list_targets_by_rule (name ec2_function));
            Called (put_targets (name ec2_function) (uuid4 0) None)]
      /\ value (CloudWatchEventSource.add ec2_source ec2_function (start empty_account))
         = Raise (OtherError "ParamValidationError"))
  /\ (calls (CloudWatchEventSource.add ec2_source ec2_function (final published))
      = calls (rule_step ec2_source ec2_function (final published))
        ++ [Called (list_targets_by_rule (name ec2_function))]
      /\ value (CloudWatchEventSource.add ec2_source ec2_function (final published))
         = Raise (TypeError "'in <string>' requires string as left operand")).
Proof.
  split; [reflexivity|]. split.
  - assert (Hrule : value (rule_step ec2_source ec2_function (start empty_account)) = Ok tt)
      by (vm_compute; reflexivity).
    assert (Hlist : invoke _ (list_targets_by_rule (name ec2_function))
                      (remote (final (rule_step ec2_source ec2_function
                                        (start empty_account))))
                    = (Ok [],
                       remote (final (rule_step ec2_source ec2_function
                                        (start empty_account)))))
      by (vm_compute; reflexivity).
    pose proof (add_without_alias ec2_source ec2_function (start empty_account) []
                  _ eq_refl Hrule Hlist) as Hadd.
    cbv beta iota in Hadd. destruct Hadd as [Hc Hv].
    split; [rewrite Hc | rewrite Hv]; vm_compute; reflexivity.
  - assert (Hrule : value (rule_step ec2_source ec2_function (final published)) = Ok tt)
      by (vm_compute; reflexivity).
    assert (Hlist : invoke _ (list_targets_by_rule (name ec2_function))
                      (remote (final (rule_step ec2_source ec2_function (final published))))
                    = (Ok [ {| Id := uuid4 0;
                               Arn := "arn:aws:lambda:function:maid-ec2-require-encrypted-volumes:current" |} ],
                       remote (final (rule_step ec2_source ec2_function (final published)))))
      by (vm_compute; reflexivity).
    pose proof (add_without_alias ec2_source ec2_function (final published) _
                  _ eq_refl Hrule Hlist) as Hadd.
    cbv beta iota in Hadd. exact Hadd.
Defined.

Lemma passed_role_is_not_sent_witness :
  LambdaManager._create_or_update roleless (Some "arn:aws:iam::role/maid") None None
    (start empty_account)
  = LambdaManager._create_or_update roleless (Some "arn:aws:iam::role/other") None None
      (start empty_account)
  /\ Forall (configured_with_role "")
       (calls (LambdaManager._create_or_update roleless (Some "arn:aws:iam::role/maid")
                 None None (start empty_account))).
Proof.
  apply (passed_role_is_not_sent roleless (Some "arn:aws:iam::role/maid")
           (Some "arn:aws:iam::role/other") None None (start empty_account));
    right; discriminate.
Defined.
